(** * GitLab MCP server: the shared request/response pipeline

    A shallow embedding of [src/gitlab_mcp_server/errors.py] and of the
    pipeline part of [src/gitlab_mcp_server/server.py]: configuration
    resolution, the request executor, the error decorator, field filtering,
    pagination wrapping, the positive-integer validators, and the two tools
    [get_project] and [get_branch].

    Modelling conventions.
    - A Python [str] is a [string] whose characters are read as code points
      below 256; every [str] method used by the source is written out on
      that range in [Module Str].
    - A Python [int] is a [Z]; a [dict] with string keys is a
      [gmap string _], so dict equality is extensional as in Python; a
      [set] of strings is a [gset string].
    - A Python [float] is carried by the text [str()] prints for it: the
      source never computes with a float, it only tests its type and
      prints it.
    - Raising is a result in [Fault + _]; the one outbound HTTP call is an
      entry appended to a trace of requests.
    - Logging calls are omitted: they return nothing and change nothing the
      functions below read. *)

From stdpp Require Import gmap strings list fin_maps pretty.
From Stdlib Require Import Ascii ZArith Lia.

Set Warnings "-register-all".

#[local] Open Scope Z_scope.

(* ===================================================================== *)
(** * Python [str] methods used by the source *)
(* ===================================================================== *)

Module Str.

(** [str.isspace] of one character, code points below 256:
    TAB..CR, FS..US, SPACE, NEL (0x85) and NBSP (0xA0). *)
Definition isspace (c : ascii) : bool :=
  let n := N_of_ascii c in
  (((9 <=? n) && (n <=? 13)) || ((28 <=? n) && (n <=? 32))
   || (n =? 133) || (n =? 160))%N.

(** Drop the longest prefix of characters satisfying [p]. *)
Fixpoint lstrip_with (p : ascii → bool) (s : string) : string :=
  match s with
  | "" => ""
  | String c s' => if p c then lstrip_with p s' else s
  end.

(** Drop the longest suffix of characters satisfying [p]. *)
Fixpoint rstrip_with (p : ascii → bool) (s : string) : string :=
  match s with
  | "" => ""
  | String c s' =>
      match rstrip_with p s' with
      | "" => if p c then "" else String c ""
      | r => String c r
      end
  end.

(** [s.strip()] *)
Definition strip (s : string) : string :=
  rstrip_with isspace (lstrip_with isspace s).

(** [s.rstrip(chars)] for a one-character [chars]. *)
Definition rstrip_char (ch : ascii) (s : string) : string :=
  rstrip_with (λ c, bool_decide (c = ch)) s.

(** [s.split(sep)] for a one-character [sep]: never returns [[]]. *)
Fixpoint split (sep : ascii) (s : string) : list string :=
  match s with
  | "" => [""]
  | String c s' =>
      if bool_decide (c = sep) then "" :: split sep s'
      else match split sep s' with
           | [] => [String c ""]
           | w :: ws => String c w :: ws
           end
  end.

(** [s.startswith(p)] *)
Fixpoint startswith (s p : string) {struct p} : bool :=
  match p, s with
  | "", _ => true
  | String a p', String b s' => bool_decide (a = b) && startswith s' p'
  | String _ _, "" => false
  end.

(** [str.lower] of one character, code points below 256: A..Z and the
    Latin-1 capitals 0xC0..0xDE (without the sign 0xD7) move up by 32. *)
Definition lower_char (c : ascii) : ascii :=
  let n := N_of_ascii c in
  if (((65 <=? n) && (n <=? 90))
      || ((192 <=? n) && (n <=? 222) && negb (n =? 215)))%N
  then ascii_of_N (n + 32) else c.

(** [s.lower()] *)
Fixpoint lower (s : string) : string :=
  match s with
  | "" => ""
  | String c s' => String (lower_char c) (lower s')
  end.

(** [sub in s] *)
Fixpoint contains (sub s : string) : bool :=
  startswith s sub
  || match s with
     | "" => false
     | String _ s' => contains sub s'
     end.

(** [str(n)] for an [int]. *)
Definition of_int (n : Z) : string := pretty n.

(** [str(b)] for a [bool]. *)
Definition of_bool (b : bool) : string := if b then "True" else "False".

End Str.

(* ===================================================================== *)
(** * Values *)
(* ===================================================================== *)

(** A decoded JSON value, as [response.json()] returns it. *)
Inductive json : Type :=
| JNull
| JBool (b : bool)
| JInt (n : Z)
| JFloat (printed : string)
| JStr (s : string)
| JList (items : list json)
| JDict (fields : gmap string json).

(** A scalar a caller can pass for a tool parameter annotated [Any] or
    [int] or [str]: the validators see its type and its [str()]. *)
Inductive pyarg : Type :=
| ANone
| ABool (b : bool)
| AInt (n : Z)
| AFloat (printed : string)
| AStr (s : string).

(** [type(x).__name__] *)
Definition type_name (x : pyarg) : string :=
  match x with
  | ANone => "NoneType"
  | ABool _ => "bool"
  | AInt _ => "int"
  | AFloat _ => "float"
  | AStr _ => "str"
  end.

(** [str(x)], which is what an f-string field [{x}] prints. *)
Definition py_str (x : pyarg) : string :=
  match x with
  | ANone => "None"
  | ABool b => Str.of_bool b
  | AInt n => Str.of_int n
  | AFloat printed => printed
  | AStr s => s
  end.

(* ===================================================================== *)
(** * Faults and the world a tool runs in *)
(* ===================================================================== *)

(** What the source reads of an [httpx.Response]: [status_code], [text]
    and [json()], which either decodes the body or raises with the
    decoder's message; [status_error] is the text httpx gives the
    [HTTPStatusError] that [raise_for_status()] raises for this response. *)
Record Response : Type := {
  status_code : Z;
  text : string;
  json_body : string + json;
  status_error : string;
}.

(** The exception classes the decorator tells apart, in the order of its
    [except] clauses; the payload is [str(e)].  [ValueError] stands for the
    class and its subclasses (the JSON decoder's error is one), and
    [OtherException] for every remaining subclass of [Exception].  What is
    raised outside [Exception] ([SystemExit], [KeyboardInterrupt]) is not
    a [Fault]: no clause of the decorator catches it, and no function
    embedded here raises it. *)
Inductive Fault : Type :=
| HTTPStatusError (message : string) (response : Response)
| ConnectError (message : string)
| TimeoutException (message : string)
| ValueError (message : string)
| OtherException (message : string).

(** [str(e)] *)
Definition fault_str (e : Fault) : string :=
  match e with
  | HTTPStatusError m _ | ConnectError m | TimeoutException m
  | ValueError m | OtherException m => m
  end.

(** The arguments of one [client.request(...)] call together with the
    settings of the client that issues it; the timeout is in seconds. *)
Record Request : Type := {
  req_method : string;
  req_url : string;
  req_params : option (gmap string json);
  req_json : option json;
  req_headers : gmap string string;
  req_verify : bool;
  req_timeout : Z;
}.

(** What the network does with a request. *)
Inductive Outcome : Type :=
| Responded (r : Response)
| ConnectFailed (message : string)
| TimedOut (message : string)
| Failed (message : string).

(** The process environment and the remote side. *)
Record World : Type := {
  environ : gmap string string;
  remote : Request → Outcome;
}.

(** A computation that may raise and may issue requests: it reads the
    world, extends the trace of requests issued so far, and ends in a
    fault or a value. *)
Definition Tool (A : Type) : Type :=
  World → list Request → (Fault + A) * list Request.

#[global] Instance tool_ret : MRet Tool := λ _ a _ tr, (inr a, tr).

#[global] Instance tool_bind : MBind Tool := λ _ _ k m w tr,
  match m w tr with
  | (inl e, tr') => (inl e, tr')
  | (inr a, tr') => k a w tr'
  end.

(** [raise e] *)
Definition raise {A} (e : Fault) : Tool A := λ _ tr, (inl e, tr).

(** A pure step that may raise. *)
Definition lift {A} (r : Fault + A) : Tool A := λ _ tr, (r, tr).

(* ===================================================================== *)
(** * errors.py *)
(* ===================================================================== *)

(** [format_http_error] *)
Definition format_http_error (response : Response) : gmap string json :=
  let status_code := status_code response in
  (* try: response.json().get("message", response.text)
     except Exception: response.text
     [.get] exists on a dict only; on any other decoded value the
     attribute lookup raises and the handler takes over. *)
  let details :=
    match json_body response with
    | inr (JDict response_body) =>
        default (JStr (text response)) (response_body !! "message")
    | _ => JStr (text response)
    end in
  if status_code =? 401 then
    {[ "error" := JBool true;
       "error_type" := JStr "AuthenticationError";
       "message" := JStr "Authentication failed";
       "details" := details;
       "action" := JStr ("Check your GITLAB_TOKEN. Generate a new token at "
         +:+ "https://gitlab.com/-/profile/personal_access_tokens") ]}
  else if status_code =? 403 then
    {[ "error" := JBool true;
       "error_type" := JStr "AuthorizationError";
       "message" := JStr "Access forbidden";
       "details" := details;
       "action" := JStr ("Your token does not have permission for this operation. "
         +:+ "Check token scopes.") ]}
  else if status_code =? 404 then
    {[ "error" := JBool true;
       "error_type" := JStr "NotFoundError";
       "message" := JStr "Resource not found";
       "details" := details;
       "action" := JStr "Verify the resource ID or path is correct." ]}
  else if status_code =? 422 then
    {[ "error" := JBool true;
       "error_type" := JStr "ValidationError";
       "message" := JStr "Invalid request parameters";
       "details" := details;
       "action" := JStr "Check the request parameters and try again." ]}
  else if status_code =? 429 then
    {[ "error" := JBool true;
       "error_type" := JStr "RateLimitError";
       "message" := JStr "Rate limit exceeded";
       "details" := details;
       "action" := JStr "Wait before making more requests. Check rate limit headers." ]}
  else if (500 <=? status_code) && (status_code <? 600) then
    {[ "error" := JBool true;
       "error_type" := JStr "ServerError";
       "message" := JStr ("GitLab server error (" +:+ Str.of_int status_code +:+ ")");
       "details" := details;
       "action" := JStr ("The GitLab server encountered an error. Try again later or "
         +:+ "contact your GitLab administrator.") ]}
  else
    {[ "error" := JBool true;
       "error_type" := JStr "HTTPError";
       "message" := JStr ("HTTP error " +:+ Str.of_int status_code);
       "details" := details;
       "action" := JStr "Check the GitLab API documentation for this endpoint." ]}.

(** [format_connection_error] *)
Definition format_connection_error (error : string) : gmap string json :=
  {[ "error" := JBool true;
     "error_type" := JStr "ConnectionError";
     "message" := JStr "Failed to connect to GitLab";
     "details" := JStr error;
     "action" := JStr ("Check your network connection and GITLAB_URL setting. "
       +:+ "Verify the GitLab instance is accessible.") ]}.

(** [format_timeout_error] *)
Definition format_timeout_error (error : string) : gmap string json :=
  {[ "error" := JBool true;
     "error_type" := JStr "TimeoutError";
     "message" := JStr "Request timeout";
     "details" := JStr error;
     "action" := JStr ("The GitLab instance is slow or unreachable. "
       +:+ "Try again later or increase the timeout.") ]}.

(** [format_validation_error] *)
Definition format_validation_error (error : string) : gmap string json :=
  {[ "error" := JBool true;
     "error_type" := JStr "ValidationError";
     "message" := JStr "Invalid input";
     "details" := JStr error;
     "action" := JStr "Check the input parameters and try again." ]}.

(** The [except] chain of [handle_gitlab_errors.wrapper]: what the wrapper
    returns for a fault raised by the wrapped function. *)
Definition on_fault (e : Fault) : gmap string json :=
  match e with
  | HTTPStatusError _ response => format_http_error response
  | ConnectError m => format_connection_error m
  | TimeoutException m => format_timeout_error m
  | ValueError m => format_validation_error m
  | OtherException m =>
      {[ "error" := JBool true;
         "error_type" := JStr "UnexpectedError";
         "message" := JStr "An unexpected error occurred";
         "details" := JStr m;
         "action" := JStr "Please report this error with the details above." ]}
  end.

(** [handle_gitlab_errors]: the decorated function returns what [func]
    returns, or the record for the fault [func] raised. *)
Definition handle_gitlab_errors (func : Tool json) : Tool json :=
  λ w tr,
    match func w tr with
    | (inl e, tr') => (inr (JDict (on_fault e)), tr')
    | (inr v, tr') => (inr v, tr')
    end.

(* ===================================================================== *)
(** * server.py: configuration and the request executor *)
(* ===================================================================== *)

(** The dict [get_gitlab_config] returns; its three keys are fixed. *)
Record Config : Type := {
  base_url : string;
  token : string;
  verify_ssl : bool;
}.

(** [get_gitlab_config], on the environment it reads with [os.getenv]. *)
Definition get_gitlab_config (environ : gmap string string) : Fault + Config :=
  match environ !! "GITLAB_TOKEN" with
  | None | Some "" =>
      inl (ValueError ("GITLAB_TOKEN environment variable is required. "
        +:+ "Generate a token at https://gitlab.com/-/profile/personal_access_tokens"))
  | Some token =>
      let base_url := default "https://gitlab.com" (environ !! "GITLAB_URL") in
      if negb (Str.startswith base_url "http://")
         && negb (Str.startswith base_url "https://")
      then inl (ValueError
             ("GITLAB_URL must start with http:// or https://, got: " +:+ base_url))
      else
        let base_url := Str.rstrip_char "/" base_url in
        let verify_ssl_str :=
          Str.lower (default "true" (environ !! "GITLAB_VERIFY_SSL")) in
        let verify_ssl := bool_decide (verify_ssl_str ∈ ["true"; "1"; "yes"]) in
        inr {| base_url := base_url; token := token; verify_ssl := verify_ssl |}
  end.

(** Reading the process environment. *)
Definition read_environ : Tool (gmap string string) :=
  λ w tr, (inr (environ w), tr).

(** [client.request(...)]: the request goes out, and the network answers
    or the call raises. *)
Definition client_request (request : Request) : Tool Response :=
  λ w tr,
    match remote w request with
    | Responded r => (inr r, tr ++ [request])
    | ConnectFailed m => (inl (ConnectError m), tr ++ [request])
    | TimedOut m => (inl (TimeoutException m), tr ++ [request])
    | Failed m => (inl (OtherException m), tr ++ [request])
    end.

(** [response.raise_for_status()]: raises unless the status is 2xx. *)
Definition raise_for_status (response : Response) : Tool unit :=
  if (200 <=? status_code response) && (status_code response <=? 299)
  then mret ()
  else raise (HTTPStatusError (status_error response) response).

(** [response.json()]: the decoder's error is a [ValueError]. *)
Definition response_json (response : Response) : Tool json :=
  match json_body response with
  | inr v => mret v
  | inl m => raise (ValueError m)
  end.

(** [make_request] *)
Definition make_request (method endpoint : string)
    (params : option (gmap string json)) (body : option json) : Tool json :=
  environ ← read_environ;
  config ← lift (get_gitlab_config environ);
  let url := base_url config +:+ "/api/v4/" +:+ endpoint in
  let headers : gmap string string :=
    {[ "PRIVATE-TOKEN" := token config;
       "Content-Type" := "application/json";
       "User-Agent" := "gitlab-mcp-server/0.1.0" ]} in
  response ← client_request
    {| req_method := method; req_url := url; req_params := params;
       req_json := body; req_headers := headers;
       req_verify := verify_ssl config; req_timeout := 30 |};
  _ ← raise_for_status response;
  response_json response.

(* ===================================================================== *)
(** * server.py: the result shaper *)
(* ===================================================================== *)

(** [DEFAULT_FIELDS] *)
Definition DEFAULT_FIELDS : gmap string (list string) :=
  {[ "project" := ["id"; "name"; "path"; "description"; "web_url"; "visibility"];
     "issue" := ["id"; "iid"; "title"; "state"; "author"; "created_at"; "web_url"];
     "merge_request" :=
       ["id"; "iid"; "title"; "state"; "source_branch";
        "target_branch"; "author"; "web_url"];
     "commit" := ["id"; "short_id"; "title"; "author_name"; "created_at"; "web_url"];
     "branch" := ["name"; "commit"; "protected"; "web_url"];
     "pipeline" := ["id"; "status"; "ref"; "created_at"; "web_url"];
     "job" := ["id"; "name"; "status"; "stage"; "created_at"; "web_url"];
     "user" := ["id"; "username"; "name"; "avatar_url"];
     "group" := ["id"; "name"; "path"; "description"; "web_url"];
     "label" := ["id"; "name"; "color"; "description"];
     "milestone" := ["id"; "iid"; "title"; "state"; "due_date"; "web_url"] ]}.

(** The [include_fields] argument: [str | list[str] | None]. *)
Inductive fields_arg : Type :=
| FNone
| FStr (s : string)
| FList (l : list string).

#[global] Instance fields_arg_eq_dec : EqDecision fields_arg.
Proof. solve_decision. Defined.

(** The inner [filter_object] of [filter_fields]. *)
Definition filter_object (field_set : gset string) (obj : json) : json :=
  match obj with
  | JDict d => JDict (filter (λ kv, kv.1 ∈ field_set) d)
  | _ => obj
  end.

(** [filter_fields] *)
Definition filter_fields (data : json) (include_fields : fields_arg)
    (resource_type : option string) : json :=
  if bool_decide (include_fields = FStr "all") then data
  else
    let include_fields :=
      match include_fields with
      | FStr s => FList (Str.strip <$> Str.split "," s)
      | _ => include_fields
      end in
    let fields :=
      match include_fields with
      | FList l => Some l
      | _ =>
          match resource_type with
          | Some rt => if bool_decide (rt ≠ "") then DEFAULT_FIELDS !! rt else None
          | None => None
          end
      end in
    match fields with
    | None => data
    | Some fields =>
        let field_set : gset string := list_to_set fields in
        match data with
        | JList items => JList (filter_object field_set <$> items)
        | _ => filter_object field_set data
        end
    end.

(** [paginate_response] *)
Definition paginate_response (items : list json) (page per_page : Z)
    (total : option Z) : gmap string json :=
  let has_next := bool_decide (Z.of_nat (length items) = per_page) in
  let response : gmap string json :=
    {[ "items" := JList items;
       "page" := JInt page;
       "per_page" := JInt per_page;
       "has_next" := JBool has_next;
       "next_page" := if has_next then JInt (page + 1) else JNull ]} in
  match total with
  | Some total => <["total" := JInt total]> response
  | None => response
  end.

(* ===================================================================== *)
(** * server.py: parameter validators *)
(* ===================================================================== *)

(** [isinstance(x, float)] *)
Definition is_float (x : pyarg) : bool :=
  match x with AFloat _ => true | _ => false end.

(** [isinstance(x, int)]: [bool] is a subclass of [int]. *)
Definition is_int (x : pyarg) : bool :=
  match x with AInt _ | ABool _ => true | _ => false end.

(** The number an [int] instance compares as; [0] for the other types,
    where the source never compares. *)
Definition int_value (x : pyarg) : Z :=
  match x with
  | AInt n => n
  | ABool b => if b then 1 else 0
  | _ => 0
  end.

Section Validators.

(** The builtin [int(s)] on a [str]: [None] when it raises [ValueError]. *)
Variable int_of_str : string → option Z.

(** [int(x)] for an [x] that is neither an [int] nor a [float]:
    [None] when it raises [ValueError] or [TypeError]. *)
Definition py_int (x : pyarg) : option pyarg :=
  match x with
  | AStr s => AInt <$> int_of_str s
  | _ => None
  end.

(** [validate_project_id] *)
Definition validate_project_id (project_id : pyarg) : Fault + pyarg :=
  if is_float project_id then
    inl (ValueError ("project_id must be an integer, got "
           +:+ type_name project_id +:+ ": " +:+ py_str project_id))
  else
    match (if negb (is_int project_id) then py_int project_id
           else Some project_id) with
    | None =>
        inl (ValueError ("project_id must be an integer, got "
               +:+ type_name project_id +:+ ": " +:+ py_str project_id))
    | Some project_id =>
        if bool_decide (int_value project_id ≤ 0) then
          inl (ValueError ("project_id must be a positive integer, got: "
                 +:+ py_str project_id))
        else inr project_id
    end.

(** [validate_iid] *)
Definition validate_iid (iid : pyarg) (param_name : string) : Fault + pyarg :=
  if is_float iid then
    inl (ValueError (param_name +:+ " must be an integer, got "
           +:+ type_name iid +:+ ": " +:+ py_str iid))
  else
    match (if negb (is_int iid) then py_int iid else Some iid) with
    | None =>
        inl (ValueError (param_name +:+ " must be an integer, got "
               +:+ type_name iid +:+ ": " +:+ py_str iid))
    | Some iid =>
        if bool_decide (int_value iid ≤ 0) then
          inl (ValueError (param_name +:+ " must be a positive integer, got: "
                 +:+ py_str iid))
        else inr iid
    end.

(** [validate_branch_name] *)
Definition validate_branch_name (branch_name : pyarg) : Fault + string :=
  match branch_name with
  | AStr s =>
      if bool_decide (Str.strip s = "") then
        inl (ValueError "branch_name cannot be empty or whitespace only")
      else inr (Str.strip s)
  | _ =>
      inl (ValueError ("branch_name must be a string, got "
             +:+ type_name branch_name +:+ ": " +:+ py_str branch_name))
  end.

End Validators.

(** An instance of the builtin for running the model: [int(s)] on strings
    of code points below 256, that is a decimal literal with white space
    around it, an optional sign, and digits with single underscores
    between them, of at most 4300 digits (the default limit of the
    interpreter).  The white space [int] skips is TAB..CR, SPACE, NEL and
    NBSP: unlike [str.strip] it does not skip FS..US. *)
Definition int_space (c : ascii) : bool :=
  let n := N_of_ascii c in
  (((9 <=? n) && (n <=? 13)) || (n =? 32) || (n =? 133) || (n =? 160))%N.

Fixpoint count_digits (s : string) : Z :=
  match s with
  | "" => 0
  | String c s' =>
      match Ascii.is_nat c with
      | Some _ => 1 + count_digits s'
      | None => count_digits s'
      end
  end.

Fixpoint decimal_digits (acc : Z) (after_digit : bool) (s : string) : option Z :=
  match s with
  | "" => if after_digit then Some acc else None
  | String c s' =>
      match Ascii.is_nat c with
      | Some d => decimal_digits (10 * acc + Z.of_nat d) true s'
      | None =>
          if bool_decide (c = "_"%char) && after_digit
          then decimal_digits acc false s'
          else None
      end
  end.

Definition int_of_decimal (s : string) : option Z :=
  let literal := Str.rstrip_with int_space (Str.lstrip_with int_space s) in
  if 4300 <? count_digits literal then None
  else
    match literal with
    | String "-" r => Z.opp <$> decimal_digits 0 false r
    | String "+" r => decimal_digits 0 false r
    | r => decimal_digits 0 false r
    end.

(* ===================================================================== *)
(** * server.py: path encoding and two tools *)
(* ===================================================================== *)

(** The characters [urllib.parse.quote] never quotes: letters, digits and
    [_.-~]. *)
Definition always_safe (b : N) : bool :=
  (((65 <=? b) && (b <=? 90)) || ((97 <=? b) && (b <=? 122))
   || ((48 <=? b) && (b <=? 57))
   || (b =? 95) || (b =? 46) || (b =? 45) || (b =? 126))%N.

Definition hex_digit (n : N) : ascii :=
  match n with
  | 0 => "0" | 1 => "1" | 2 => "2" | 3 => "3" | 4 => "4" | 5 => "5"
  | 6 => "6" | 7 => "7" | 8 => "8" | 9 => "9" | 10 => "A" | 11 => "B"
  | 12 => "C" | 13 => "D" | 14 => "E" | _ => "F"
  end%N%char.

(** ['%{:02X}'.format(b)] *)
Definition percent (b : N) : string :=
  String "%" (String (hex_digit (b / 16)) (String (hex_digit (b mod 16)) "")).

(** The UTF-8 bytes of a code point below 256. *)
Definition utf8 (c : ascii) : list N :=
  let n := N_of_ascii c in
  if (n <? 128)%N then [n] else [192 + n / 64; 128 + n mod 64]%N.

Definition quote_byte (b : N) : string :=
  if always_safe b then String (ascii_of_N b) "" else percent b.

(** [urllib.parse.quote(s, safe='')] *)
Fixpoint quote (s : string) : string :=
  match s with
  | "" => ""
  | String c s' => foldr (λ b acc, quote_byte b +:+ acc) (quote s') (utf8 c)
  end.

(** [encode_branch_name] *)
Definition encode_branch_name (branch : string) : string := quote branch.

(** A tool's [include_fields: str | None] as [filter_fields] takes it. *)
Definition include_arg (include_fields : option string) : fields_arg :=
  match include_fields with
  | Some s => FStr s
  | None => FNone
  end.

Section Tools.

Variable int_of_str : string → option Z.

(** [get_project], decorated. *)
Definition get_project (project_id : pyarg) (include_fields : option string)
    : Tool json :=
  handle_gitlab_errors (
    project_id ← lift (validate_project_id int_of_str project_id);
    response ← make_request "GET" ("projects/" +:+ py_str project_id) None None;
    mret (filter_fields response (include_arg include_fields) (Some "project"))).

(** [get_branch], decorated. *)
Definition get_branch (project_id branch : pyarg) (include_fields : option string)
    : Tool json :=
  handle_gitlab_errors (
    project_id ← lift (validate_project_id int_of_str project_id);
    branch ← lift (validate_branch_name branch);
    let encoded_branch := encode_branch_name branch in
    response ← make_request "GET"
      ("projects/" +:+ py_str project_id +:+ "/repository/branches/"
         +:+ encoded_branch) None None;
    mret (filter_fields response (include_arg include_fields) (Some "branch"))).

End Tools.

(* ===================================================================== *)
(** * server.py: the other validators *)
(* ===================================================================== *)

Section OtherValidators.

(** The builtin [int(s)] on a [str], as in [Validators]. *)
Variable int_of_str : string → option Z.

(** [validate_pagination] *)
Definition validate_pagination (page per_page : pyarg) : Fault + pyarg * pyarg :=
  if is_float page then
    inl (ValueError ("page must be an integer, got "
           +:+ type_name page +:+ ": " +:+ py_str page))
  else
    match (if negb (is_int page) then py_int int_of_str page else Some page) with
    | None =>
        inl (ValueError ("page must be an integer, got "
               +:+ type_name page +:+ ": " +:+ py_str page))
    | Some page =>
        if bool_decide (int_value page < 1) then
          inl (ValueError ("page must be >= 1, got: " +:+ py_str page))
        else if is_float per_page then
          inl (ValueError ("per_page must be an integer, got "
                 +:+ type_name per_page +:+ ": " +:+ py_str per_page))
        else
          match (if negb (is_int per_page) then py_int int_of_str per_page
                 else Some per_page) with
          | None =>
              inl (ValueError ("per_page must be an integer, got "
                     +:+ type_name per_page +:+ ": " +:+ py_str per_page))
          | Some per_page =>
              if bool_decide (int_value per_page < 1) then
                inl (ValueError ("per_page must be >= 1, got: "
                       +:+ py_str per_page))
              else if bool_decide (int_value per_page > 100) then
                inl (ValueError ("per_page must be <= 100, got: "
                       +:+ py_str per_page))
              else inr (page, per_page)
          end
    end.

(** [validate_group_id] *)
Definition validate_group_id (group_id : pyarg) : Fault + pyarg :=
  if is_float group_id then
    inl (ValueError ("group_id must be an integer, got "
           +:+ type_name group_id +:+ ": " +:+ py_str group_id))
  else
    match (if negb (is_int group_id) then py_int int_of_str group_id
           else Some group_id) with
    | None =>
        inl (ValueError ("group_id must be an integer, got "
               +:+ type_name group_id +:+ ": " +:+ py_str group_id))
    | Some group_id =>
        if bool_decide (int_value group_id ≤ 0) then
          inl (ValueError ("group_id must be a positive integer, got: "
                 +:+ py_str group_id))
        else inr group_id
    end.

(** [validate_user_id] *)
Definition validate_user_id (user_id : pyarg) : Fault + pyarg :=
  if is_float user_id then
    inl (ValueError ("user_id must be an integer, got "
           +:+ type_name user_id +:+ ": " +:+ py_str user_id))
  else
    match (if negb (is_int user_id) then py_int int_of_str user_id
           else Some user_id) with
    | None =>
        inl (ValueError ("user_id must be an integer, got "
               +:+ type_name user_id +:+ ": " +:+ py_str user_id))
    | Some user_id =>
        if bool_decide (int_value user_id ≤ 0) then
          inl (ValueError ("user_id must be a positive integer, got: "
                 +:+ py_str user_id))
        else inr user_id
    end.

(** The access level constants and [VALID_ACCESS_LEVELS]. *)
Definition ACCESS_LEVEL_GUEST : Z := 10.
Definition ACCESS_LEVEL_REPORTER : Z := 20.
Definition ACCESS_LEVEL_DEVELOPER : Z := 30.
Definition ACCESS_LEVEL_MAINTAINER : Z := 40.
Definition ACCESS_LEVEL_OWNER : Z := 50.

Definition VALID_ACCESS_LEVELS : list Z :=
  [ACCESS_LEVEL_GUEST; ACCESS_LEVEL_REPORTER; ACCESS_LEVEL_DEVELOPER;
   ACCESS_LEVEL_MAINTAINER; ACCESS_LEVEL_OWNER].

(** [validate_access_level]; the tuple prints as [(10, 20, 30, 40, 50)]. *)
Definition validate_access_level (access_level : pyarg) : Fault + pyarg :=
  if is_float access_level then
    inl (ValueError ("access_level must be an integer, got "
           +:+ type_name access_level +:+ ": " +:+ py_str access_level))
  else
    match (if negb (is_int access_level) then py_int int_of_str access_level
           else Some access_level) with
    | None =>
        inl (ValueError ("access_level must be an integer, got "
               +:+ type_name access_level +:+ ": " +:+ py_str access_level))
    | Some access_level =>
        if bool_decide (int_value access_level ∉ VALID_ACCESS_LEVELS) then
          inl (ValueError ("access_level must be one of " +:+ "(10, 20, 30, 40, 50)"
                 +:+ " (10=Guest, 20=Reporter, 30=Developer, 40=Maintainer, 50=Owner), got: "
                 +:+ py_str access_level))
        else inr access_level
    end.

End OtherValidators.

(** [validate_non_empty_string] *)
Definition validate_non_empty_string (value : pyarg) (param_name : string)
    : Fault + string :=
  match value with
  | AStr s =>
      let stripped := Str.strip s in
      if bool_decide (stripped = "") then
        inl (ValueError (param_name +:+ " cannot be empty or whitespace only"))
      else inr stripped
  | _ =>
      inl (ValueError (param_name +:+ " must be a string, got "
             +:+ type_name value +:+ ": " +:+ py_str value))
  end.

(** [VALID_VISIBILITY_LEVELS] *)
Definition VALID_VISIBILITY_LEVELS : list string := ["private"; "internal"; "public"].

(** [validate_visibility]; a value that is not a [str] equals none of the
    three, and the tuple prints as [('private', 'internal', 'public')]. *)
Definition validate_visibility (visibility : pyarg) : Fault + string :=
  match visibility with
  | AStr s =>
      if bool_decide (s ∉ VALID_VISIBILITY_LEVELS) then
        inl (ValueError ("visibility must be one of "
               +:+ "('private', 'internal', 'public')" +:+ ", got: " +:+ s))
      else inr s
  | _ =>
      inl (ValueError ("visibility must be one of "
             +:+ "('private', 'internal', 'public')" +:+ ", got: "
             +:+ py_str visibility))
  end.

(* ===================================================================== *)
(** * server.py: more tools *)
(* ===================================================================== *)

(** The truth value of an argument annotated [str | None]: a string that
    is not empty. *)
Definition truthy (s : option string) : bool :=
  match s with
  | Some (String _ _) => true
  | _ => false
  end.

(** A scalar argument as a JSON value in a request body or query. *)
Definition arg_json (x : pyarg) : json :=
  match x with
  | ANone => JNull
  | ABool b => JBool b
  | AInt n => JInt n
  | AFloat printed => JFloat printed
  | AStr s => JStr s
  end.

(** [type(v).__name__] of a decoded JSON value. *)
Definition json_type_name (v : json) : string :=
  match v with
  | JNull => "NoneType"
  | JBool _ => "bool"
  | JInt _ => "int"
  | JFloat _ => "float"
  | JStr _ => "str"
  | JList _ => "list"
  | JDict _ => "dict"
  end.

(** [len(v)]: a [TypeError] for a value that has no length. *)
Definition py_len (v : json) : Fault + Z :=
  match v with
  | JList items => inr (Z.of_nat (length items))
  | JDict d => inr (Z.of_nat (size d))
  | JStr s => inr (Z.of_nat (String.length s))
  | _ => inl (OtherException
                ("object of type '" +:+ json_type_name v +:+ "' has no len()"))
  end.

(** [paginate_response(items, page, per_page)] as the list tools call it:
    on whatever [filter_fields] returned and on the validated [page] and
    [per_page], which are [int] instances. *)
Definition paginate_response_call (items : json) (page per_page : pyarg)
    : Fault + gmap string json :=
  match py_len items with
  | inl e => inl e
  | inr n =>
      let has_next := bool_decide (n = int_value per_page) in
      inr {[ "items" := items;
             "page" := arg_json page;
             "per_page" := arg_json per_page;
             "has_next" := JBool has_next;
             "next_page" := if has_next then JInt (int_value page + 1) else JNull ]}
  end.

(** [data[key] = value] when the optional [value] was passed. *)
Definition set_if_given (key : string) (value : option string)
    (data : gmap string json) : gmap string json :=
  match value with
  | Some s => <[key := JStr s]> data
  | None => data
  end.

(** [data[key] = value] when the optional [value] is a non-empty string. *)
Definition set_if_truthy (key : string) (value : option string)
    (data : gmap string json) : gmap string json :=
  match value with
  | Some (String c s) => <[key := JStr (String c s)]> data
  | _ => data
  end.

(** [try: body  except Exception as e: handler(e)] *)
Definition try_except {A} (body : Tool A) (handler : Fault → Tool A) : Tool A :=
  λ w tr,
    match body w tr with
    | (inl e, tr') => handler e w tr'
    | (inr a, tr') => (inr a, tr')
    end.

(** [v.get(...)] with its result unused: an [AttributeError] unless [v] is
    a dict. *)
Definition call_get (v : json) : Tool unit :=
  match v with
  | JDict _ => mret ()
  | _ => raise (OtherException
                  ("'" +:+ json_type_name v +:+ "' object has no attribute 'get'"))
  end.

(** [validate_gitlab_connection]; its [print] calls are left out. *)
Definition validate_gitlab_connection : Tool bool :=
  environ ← read_environ;
  let config :=
    match get_gitlab_config environ with
    | inr c => Some c
    | inl _ => None
    end in
  try_except
    (_ ← lift (get_gitlab_config environ);
     version_data ← make_request "GET" "version" None None;
     _ ← call_get version_data;
     user_data ← make_request "GET" "user" None None;
     _ ← call_get user_data;
     _ ← try_except
           (_ ← make_request "GET" "projects" (Some {[ "per_page" := JInt 1 ]}) None;
            mret ())
           (λ e, match e with
                 | HTTPStatusError _ response =>
                     if status_code response =? 403 then mret () else raise e
                 | _ => raise e
                 end);
     mret true)
    (λ e,
       let base_url :=
         match config with
         | Some c => base_url c
         | None => "GitLab"
         end in
       match e with
       | ValueError m => raise (ValueError ("Configuration error: " +:+ m))
       | ConnectError _ =>
           raise (ValueError ("Failed to connect to GitLab at " +:+ base_url +:+ ". "
                    +:+ "Check your network connection and GITLAB_URL setting."))
       | HTTPStatusError _ response =>
           if status_code response =? 401 then
             raise (ValueError ("Authentication failed. Your GITLAB_TOKEN may be invalid or "
                      +:+ "expired. Generate a new token at "
                      +:+ "https://gitlab.com/-/profile/personal_access_tokens"))
           else
             raise (ValueError ("GitLab API error: "
                      +:+ Str.of_int (status_code response) +:+ " - "
                      +:+ text response))
       | TimeoutException _ =>
           raise (ValueError ("Connection timeout to " +:+ base_url +:+ ". "
                    +:+ "The GitLab instance may be slow or unreachable."))
       | OtherException _ => raise e
       end).

Section MoreTools.

Variable int_of_str : string → option Z.

(** [list_projects], decorated. *)
Definition list_projects (per_page page : pyarg) (search include_fields : option string)
    : Tool json :=
  handle_gitlab_errors (
    '(page, per_page) ← lift (validate_pagination int_of_str page per_page);
    let params : gmap string json :=
      {[ "per_page" := arg_json per_page; "page" := arg_json page ]} in
    let params := set_if_truthy "search" search params in
    response ← make_request "GET" "projects" (Some params) None;
    let filtered_data :=
      filter_fields response (include_arg include_fields) (Some "project") in
    paginated ← lift (paginate_response_call filtered_data page per_page);
    mret (JDict paginated)).

(** [create_project], decorated. *)
Definition create_project (name : string) (description : option string)
    (visibility : string) (initialize_with_readme : bool)
    (include_fields : option string) : Tool json :=
  handle_gitlab_errors (
    let data : gmap string json :=
      {[ "name" := JStr name;
         "visibility" := JStr visibility;
         "initialize_with_readme" := JBool initialize_with_readme ]} in
    let data := set_if_truthy "description" description data in
    response ← make_request "POST" "projects" None (Some (JDict data));
    mret (filter_fields response (include_arg include_fields) (Some "project"))).

(** [update_project], decorated. *)
Definition update_project (project_id : pyarg)
    (name description visibility default_branch include_fields : option string)
    : Tool json :=
  handle_gitlab_errors (
    project_id ← lift (validate_project_id int_of_str project_id);
    let data : gmap string json := ∅ in
    let data := set_if_given "name" name data in
    let data := set_if_given "description" description data in
    let data := set_if_given "visibility" visibility data in
    let data := set_if_given "default_branch" default_branch data in
    response ← make_request "PUT" ("projects/" +:+ py_str project_id) None
                 (Some (JDict data));
    mret (filter_fields response (include_arg include_fields) (Some "project"))).

(** [delete_project], decorated. *)
Definition delete_project (project_id : pyarg) : Tool json :=
  handle_gitlab_errors (
    project_id ← lift (validate_project_id int_of_str project_id);
    _ ← make_request "DELETE" ("projects/" +:+ py_str project_id) None None;
    mret (JDict {[ "success" := JBool true;
                   "message" := JStr ("Project " +:+ py_str project_id
                                        +:+ " deleted successfully") ]})).

(** The inline check of [file_path], [ref] and [commit_message] in the
    file tools: a string, stripped, not empty. *)
Definition check_stripped (value : pyarg) (param_name : string) : Fault + string :=
  match value with
  | AStr s =>
      if bool_decide (Str.strip s = "") then
        inl (ValueError (param_name +:+ " cannot be empty or whitespace only"))
      else inr (Str.strip s)
  | _ =>
      inl (ValueError (param_name +:+ " must be a string, got "
             +:+ type_name value +:+ ": " +:+ py_str value))
  end.

(** [get_file], decorated. *)
Definition get_file (project_id file_path ref : pyarg) (include_fields : option string)
    : Tool json :=
  handle_gitlab_errors (
    project_id ← lift (validate_project_id int_of_str project_id);
    file_path ← lift (check_stripped file_path "file_path");
    ref ← lift (check_stripped ref "ref");
    let encoded_path := quote file_path in
    let params : gmap string json := {[ "ref" := JStr ref ]} in
    response ← make_request "GET"
      ("projects/" +:+ py_str project_id +:+ "/repository/files/" +:+ encoded_path)
      (Some params) None;
    if truthy include_fields
    then mret (filter_fields response (include_arg include_fields) None)
    else mret response).

(** [get_job_log], decorated: its own request, and the body as text. *)
Definition get_job_log (project_id job_id : pyarg) : Tool json :=
  handle_gitlab_errors (
    project_id ← lift (validate_project_id int_of_str project_id);
    job_id ← lift (validate_iid int_of_str job_id "job_id");
    environ ← read_environ;
    config ← lift (get_gitlab_config environ);
    let url := base_url config +:+ "/api/v4/projects/" +:+ py_str project_id
               +:+ "/jobs/" +:+ py_str job_id +:+ "/trace" in
    let headers : gmap string string :=
      {[ "PRIVATE-TOKEN" := token config;
         "User-Agent" := "gitlab-mcp-server/0.1.0" ]} in
    response ← client_request
      {| req_method := "GET"; req_url := url; req_params := None;
         req_json := None; req_headers := headers;
         req_verify := verify_ssl config; req_timeout := 30 |};
    _ ← raise_for_status response;
    mret (JDict {[ "log" := JStr (text response);
                   "job_id" := arg_json job_id;
                   "project_id" := arg_json project_id ]})).

(** [create_group], decorated. *)
Definition create_group (name path : pyarg) (description : option string)
    (visibility : pyarg) (include_fields : option string) : Tool json :=
  handle_gitlab_errors (
    name ← lift (validate_non_empty_string name "name");
    path ← lift (validate_non_empty_string path "path");
    visibility ← lift (validate_visibility visibility);
    let data : gmap string json :=
      {[ "name" := JStr name; "path" := JStr path;
         "visibility" := JStr visibility ]} in
    let data := set_if_truthy "description" description data in
    response ← make_request "POST" "groups" None (Some (JDict data));
    mret (filter_fields response (include_arg include_fields) (Some "group"))).

(** [add_group_member], decorated. *)
Definition add_group_member (group_id user_id access_level : pyarg)
    (include_fields : option string) : Tool json :=
  handle_gitlab_errors (
    group_id ← lift (validate_group_id int_of_str group_id);
    user_id ← lift (validate_user_id int_of_str user_id);
    access_level ← lift (validate_access_level int_of_str access_level);
    let data : gmap string json :=
      {[ "user_id" := arg_json user_id;
         "access_level" := arg_json access_level ]} in
    response ← make_request "POST"
      ("groups/" +:+ py_str group_id +:+ "/members") None (Some (JDict data));
    mret (filter_fields response (include_arg include_fields) (Some "user"))).

(** [update_merge_request], decorated. *)
Definition update_merge_request (project_id mr_iid : pyarg)
    (title description : option string) (target_branch : option pyarg)
    (state_event include_fields : option string) : Tool json :=
  handle_gitlab_errors (
    project_id ← lift (validate_project_id int_of_str project_id);
    mr_iid ← lift (validate_iid int_of_str mr_iid "mr_iid");
    _ ← (if truthy state_event
            && bool_decide (default "" state_event ∉ ["close"; "reopen"])
         then raise (ValueError ("state_event must be 'close' or 'reopen', got: "
                       +:+ default "" state_event))
         else mret ());
    let data : gmap string json := ∅ in
    let data := set_if_given "title" title data in
    let data := set_if_given "description" description data in
    data ← match target_branch with
           | Some target_branch =>
               target_branch ← lift (validate_branch_name target_branch);
               mret (<["target_branch" := JStr target_branch]> data)
           | None => mret data
           end;
    let data := set_if_given "state_event" state_event data in
    response ← make_request "PUT"
      ("projects/" +:+ py_str project_id +:+ "/merge_requests/" +:+ py_str mr_iid)
      None (Some (JDict data));
    mret (filter_fields response (include_arg include_fields) (Some "merge_request"))).

End MoreTools.

(** The request [make_request] sends under a configuration. *)
Definition build_request (config : Config) (method endpoint : string)
    (params : option (gmap string json)) (body : option json) : Request :=
  {| req_method := method;
     req_url := base_url config +:+ "/api/v4/" +:+ endpoint;
     req_params := params;
     req_json := body;
     req_headers := {[ "PRIVATE-TOKEN" := token config;
                       "Content-Type" := "application/json";
                       "User-Agent" := "gitlab-mcp-server/0.1.0" ]};
     req_verify := verify_ssl config;
     req_timeout := 30 |}.

(** What [make_request] makes of the network's answer. *)
Definition outcome_result (o : Outcome) : Fault + json :=
  match o with
  | Responded r =>
      if (200 <=? status_code r) && (status_code r <=? 299) then
        match json_body r with
        | inr v => inr v
        | inl m => inl (ValueError m)
        end
      else inl (HTTPStatusError (status_error r) r)
  | ConnectFailed m => inl (ConnectError m)
  | TimedOut m => inl (TimeoutException m)
  | Failed m => inl (OtherException m)
  end.

(** The coercion step the integer validators share: a float is refused,
    an [int] is taken as it is, anything else goes through [int()]. *)
Definition coerce_int (int_of_str : string → option Z) (x : pyarg) : option pyarg :=
  if is_float x then None
  else if is_int x then Some x
  else py_int int_of_str x.

(** A configuration for running the model. *)
Definition demo_config : Config :=
  {| base_url := "https://gitlab.com"; token := "glpat-demo"; verify_ssl := true |}.

(** A world that answers every request with 200 and a list of two
    projects. *)
Definition projects_world : World :=
  {| environ := {[ "GITLAB_TOKEN" := "glpat-demo" ]};
     remote := λ _, Responded
       {| status_code := 200; text := "[...]";
          json_body := inr (JList [JDict {[ "id" := JInt 1; "star_count" := JInt 5 ]};
                                   JDict {[ "id" := JInt 2; "star_count" := JInt 0 ]}]);
          status_error := "" |} |}.

(** A world that answers every request with 204 and an empty body, which
    does not decode. *)
Definition no_content_world : World :=
  {| environ := {[ "GITLAB_TOKEN" := "glpat-demo" ]};
     remote := λ _, Responded
       {| status_code := 204; text := "";
          json_body := inl "Expecting value: line 1 column 1 (char 0)";
          status_error := "" |} |}.

(** The fault the outer handlers of [validate_gitlab_connection] raise
    for a fault of the probes, once the configuration has resolved. *)
Definition startup_fault (config : Config) (e : Fault) : Fault :=
  match e with
  | ValueError m => ValueError ("Configuration error: " +:+ m)
  | ConnectError _ =>
      ValueError ("Failed to connect to GitLab at " +:+ base_url config +:+ ". "
        +:+ "Check your network connection and GITLAB_URL setting.")
  | HTTPStatusError _ response =>
      if status_code response =? 401 then
        ValueError ("Authentication failed. Your GITLAB_TOKEN may be invalid or "
          +:+ "expired. Generate a new token at "
          +:+ "https://gitlab.com/-/profile/personal_access_tokens")
      else
        ValueError ("GitLab API error: "
          +:+ Str.of_int (status_code response) +:+ " - " +:+ text response)
  | TimeoutException _ =>
      ValueError ("Connection timeout to " +:+ base_url config +:+ ". "
        +:+ "The GitLab instance may be slow or unreachable.")
  | OtherException _ => e
  end.

(** The [AttributeError] of [v.get] on a value that is not a dict. *)
Definition no_get (v : json) : Fault :=
  OtherException ("'" +:+ json_type_name v +:+ "' object has no attribute 'get'").

(** The three probes of the startup check. *)
Definition startup_probes (config : Config) : list Request :=
  [build_request config "GET" "version" None None;
   build_request config "GET" "user" None None;
   build_request config "GET" "projects" (Some {[ "per_page" := JInt 1 ]}) None].

(** A world whose remote side answers 403 to the project listing and 200
    with an empty object to anything else. *)
Definition limited_token_world : World :=
  {| environ := {[ "GITLAB_TOKEN" := "glpat-demo" ]};
     remote := λ request,
       match req_params request with
       | Some _ =>
           Responded {| status_code := 403; text := "403 Forbidden";
                        json_body := inl "Expecting value: line 1 column 1 (char 0)";
                        status_error := "Client error '403 Forbidden'" |}
       | None =>
           Responded {| status_code := 200; text := "{}";
                        json_body := inr (JDict ∅); status_error := "" |}
       end |}.

(** Reading an encoded path back, to tell encodings apart: the value of a
    hexadecimal digit, the bytes of an encoded string, and the code
    points of UTF-8 bytes below 256. *)
Definition hex_value (c : ascii) : N :=
  let n := N_of_ascii c in
  (if n <? 58 then n - 48 else n - 55)%N.

Fixpoint quoted_bytes (s : string) : list N :=
  match s with
  | "" => []
  | String c rest =>
      if bool_decide (c = "%"%char) then
        match rest with
        | String h1 (String h2 rest') =>
            (16 * hex_value h1 + hex_value h2)%N :: quoted_bytes rest'
        | _ => []
        end
      else N_of_ascii c :: quoted_bytes rest
  end.

Fixpoint utf8_chars (bytes : list N) : string :=
  match bytes with
  | [] => ""
  | b :: rest =>
      if (b <? 128)%N then String (ascii_of_N b) (utf8_chars rest)
      else match rest with
           | b2 :: rest' =>
               String (ascii_of_N ((b - 192) * 64 + (b2 - 128))) (utf8_chars rest')
           | [] => ""
           end
  end.

(* ===================================================================== *)
(** * Vocabulary of the specification *)
(* ===================================================================== *)

(** The ten error types an Error Record may carry. *)
Definition ERROR_TYPES : list string :=
  ["AuthenticationError"; "AuthorizationError"; "NotFoundError";
   "ValidationError"; "RateLimitError"; "ServerError"; "HTTPError";
   "ConnectionError"; "TimeoutError"; "UnexpectedError"].

(** The five keys of an Error Record. *)
Definition ERROR_KEYS : gset string :=
  {[ "error"; "error_type"; "message"; "details"; "action" ]}.

(** The error type [format_http_error] picks for a status code. *)
Definition http_error_type (status_code : Z) : string :=
  if status_code =? 401 then "AuthenticationError"
  else if status_code =? 403 then "AuthorizationError"
  else if status_code =? 404 then "NotFoundError"
  else if status_code =? 422 then "ValidationError"
  else if status_code =? 429 then "RateLimitError"
  else if (500 <=? status_code) && (status_code <? 600) then "ServerError"
  else "HTTPError".

(** [sub] occurs in [s]. *)
Definition occurs_in (sub s : string) : Prop :=
  ∃ before after, s = before +:+ sub +:+ after.

(** The [message] field of a response body that decodes to an object. *)
Definition message_field (response : Response) : option json :=
  match json_body response with
  | inr (JDict body) => body !! "message"
  | _ => None
  end.

(** The specification's rule for [details], in its words: the message
    field when there is one, else the raw response text, else the fault's
    string representation. *)
Definition details_by_spec (message_field : option json)
    (raw_text : option string) (fault_text : string) : json :=
  match message_field with
  | Some m => m
  | None =>
      match raw_text with
      | Some t => JStr t
      | None => JStr fault_text
      end
  end.

(** [d'] keeps the entries of [d] whose key is in [fields], and nothing
    else. *)
Definition restricted_to (fields : list string) (d d' : gmap string json) : Prop :=
  ∀ k, d' !! k = if bool_decide (k ∈ fields) then d !! k else None.

(** What [filter_fields] does once a field list is settled. *)
Definition apply_fields (fields : list string) (data : json) : json :=
  match data with
  | JList items => JList (filter_object (list_to_set fields) <$> items)
  | _ => filter_object (list_to_set fields) data
  end.

(** A string of [n] slashes. *)
Fixpoint slashes (n : nat) : string :=
  match n with
  | O => ""
  | S n' => String "/" (slashes n')
  end.

(** The same character up to the case of an ASCII letter. *)
Definition same_caseless (a b : ascii) : bool :=
  let m := N_of_ascii a in
  let n := N_of_ascii b in
  (bool_decide (a = b)
   || ((((65 <=? m) && (m <=? 90)) || ((97 <=? m) && (m <=? 122)))
       && (((65 <=? n) && (n <=? 90)) || ((97 <=? n) && (n <=? 122)))
       && (m mod 32 =? n mod 32)))%N.

(** The same string up to the case of ASCII letters. *)
Fixpoint eq_caseless (s t : string) : bool :=
  match s, t with
  | "", "" => true
  | String a s', String b t' => same_caseless a b && eq_caseless s' t'
  | _, _ => false
  end.

(** Every character of [s] satisfies [p]. *)
Fixpoint all_chars (p : ascii → bool) (s : string) : bool :=
  match s with
  | "" => true
  | String c s' => p c && all_chars p s'
  end.

(** A character [quote] can produce: a percent sign or a character it
    never quotes. *)
Definition quoted_char (c : ascii) : bool :=
  bool_decide (c = "%"%char) || always_safe (N_of_ascii c).

(** A world for running the model: a token is set and the remote side
    answers every request with 200 and an empty object. *)
Definition demo_world : World :=
  {| environ := {[ "GITLAB_TOKEN" := "glpat-demo" ]};
     remote := λ _, Responded {| status_code := 200; text := "{}";
                                 json_body := inr (JDict ∅);
                                 status_error := "" |} |}.

(** An environment with a token, a URL with three trailing slashes and
    the flag [YeS]. *)
Definition demo_environ : gmap string string :=
  {[ "GITLAB_TOKEN" := "glpat-demo";
     "GITLAB_URL" := "https://gitlab.example.org///";
     "GITLAB_VERIFY_SSL" := "YeS" ]}.

(** A string in double quotes. *)
Definition quoted (s : string) : string :=
  String "034" (s +:+ String "034" EmptyString).

(** A 404 whose body is the object with the one field [message]. *)
Definition not_found_response : Response :=
  {| status_code := 404;
     text := "{" +:+ quoted "message" +:+ ":" +:+ quoted "404 Not Found" +:+ "}";
     json_body := inr (JDict {[ "message" := JStr "404 Not Found" ]});
     status_error := "Client error '404 Not Found'" |}.

(** A 502 whose body is an HTML page. *)
Definition bad_gateway_response : Response :=
  {| status_code := 502;
     text := "<html>Bad Gateway</html>";
     json_body := inl "Expecting value: line 1 column 1 (char 0)";
     status_error := "Server error '502 Bad Gateway'" |}.

(* ===================================================================== *)
(** * Strings: lemmas *)
(* ===================================================================== *)

Lemma app_cons a s t : String a s +:+ t = String a (s +:+ t).
Proof. reflexivity. Qed.

Lemma app_empty_r s : s +:+ "" = s.
Proof. induction s as [|a s IH]; [done|]. by rewrite app_cons, IH. Qed.

Lemma app_assoc_str s t u : (s +:+ t) +:+ u = s +:+ t +:+ u.
Proof. induction s as [|a s IH]; [done|]. by rewrite !app_cons, IH. Qed.

Lemma occurs_in_suffix before sub : occurs_in sub (before +:+ sub).
Proof. exists before, "". by rewrite app_empty_r. Qed.

Lemma occurs_in_app_r sub s before : occurs_in sub s → occurs_in sub (before +:+ s).
Proof.
  intros (b & a & ->). exists (before +:+ b), a. by rewrite app_assoc_str.
Qed.

Lemma occurs_in_app_l sub s after : occurs_in sub s → occurs_in sub (s +:+ after).
Proof.
  intros (b & a & ->). exists b, (a +:+ after). by rewrite !app_assoc_str.
Qed.

Lemma occurs_in_refl s : occurs_in s s.
Proof. exists "", "". by rewrite app_empty_r. Qed.

Lemma startswith_spec s p : Str.startswith s p = true ↔ ∃ rest, s = p +:+ rest.
Proof.
  revert s. induction p as [|a p IH]; intros s; simpl.
  - split; [intros _; by exists s|done].
  - destruct s as [|b s].
    + split; [done|]. by intros [rest ?].
    + rewrite andb_true_iff, bool_decide_eq_true, IH. split.
      * intros [-> [rest ->]]. by exists rest.
      * intros [rest Hr]. rewrite app_cons in Hr. injection Hr as -> ->. eauto.
Qed.

Lemma contains_complete sub s : occurs_in sub s → Str.contains sub s = true.
Proof.
  intros (before & after & ->). induction before as [|a before IH].
  - assert (Str.startswith (sub +:+ after) sub = true) as Hp
      by (apply startswith_spec; eauto).
    change ("" +:+ sub +:+ after) with (sub +:+ after).
    destruct (sub +:+ after); simpl in *; by rewrite Hp.
  - rewrite app_cons. simpl. rewrite IH. apply orb_true_r.
Qed.

Lemma rstrip_with_decompose p s :
  ∃ t, s = Str.rstrip_with p s +:+ t ∧ all_chars p t = true.
Proof.
  induction s as [|c s (t & Hs & Ht)]; simpl.
  - by exists "".
  - destruct (Str.rstrip_with p s) as [|c' r] eqn:Hr.
    + destruct (p c) eqn:Hc.
      * exists (String c t). simpl in *. rewrite Hc, Ht. by rewrite Hs at 1.
      * exists t. rewrite app_cons. simpl in Hs. by rewrite <- Hs.
    + exists t. rewrite app_cons. by rewrite <- Hs.
Qed.

Lemma rstrip_with_last p s r c :
  Str.rstrip_with p s = r +:+ String c "" → p c = false.
Proof.
  revert r. induction s as [|a s IH]; intros r; simpl.
  - by destruct r.
  - destruct (Str.rstrip_with p s) as [|c' r'] eqn:Hr.
    + destruct (p a) eqn:Ha; [by destruct r|].
      destruct r as [|b r]; [by intros [= <-]|].
      rewrite app_cons. intros [= _ Hnil]. by destruct r.
    + destruct r as [|b r]; [done|]. rewrite app_cons. intros [= _ Hrest].
      by apply (IH r).
Qed.

Lemma all_slashes t :
  all_chars (λ c, bool_decide (c = "/"%char)) t = true → ∃ n, t = slashes n.
Proof.
  induction t as [|c t IH]; simpl.
  - by exists O.
  - rewrite andb_true_iff, bool_decide_eq_true. intros [-> Ht].
    destruct (IH Ht) as [n ->]. by exists (S n).
Qed.

(* ===================================================================== *)
(** * The error decorator *)
(* ===================================================================== *)

(** Every record the formatters build has the five keys, [error = True]
    and the error type it was built with. *)
Lemma error_record_shape (error_type : string) (message details action : json) :
  let record : gmap string json :=
    {[ "error" := JBool true; "error_type" := JStr error_type;
       "message" := message; "details" := details; "action" := action ]} in
  dom record = ERROR_KEYS
  ∧ record !! "error" = Some (JBool true)
  ∧ record !! "error_type" = Some (JStr error_type)
  ∧ record !! "details" = Some details.
Proof.
  cbv zeta. split_and!.
  - rewrite !dom_insert_L, dom_singleton_L. unfold ERROR_KEYS. set_solver.
  - by simplify_map_eq.
  - by simplify_map_eq.
  - by simplify_map_eq.
Qed.

(** One status class of [http_error_type_spec]. *)
Ltac status_case :=
  simpl; split_and!; [set_solver | (intros; first [reflexivity | lia])..].

Lemma http_error_type_spec (sc : Z) :
  http_error_type sc ∈ ERROR_TYPES
  ∧ (sc = 401 → http_error_type sc = "AuthenticationError")
  ∧ (sc = 403 → http_error_type sc = "AuthorizationError")
  ∧ (sc = 404 → http_error_type sc = "NotFoundError")
  ∧ (sc = 422 → http_error_type sc = "ValidationError")
  ∧ (sc = 429 → http_error_type sc = "RateLimitError")
  ∧ (500 ≤ sc < 600 → http_error_type sc = "ServerError")
  ∧ (sc ∉ [401; 403; 404; 422; 429] → ¬ (500 ≤ sc < 600) →
     http_error_type sc = "HTTPError").
Proof.
  unfold http_error_type, ERROR_TYPES. rewrite !not_elem_of_cons.
  destruct (Z.eqb_spec sc 401) as [->|?]; [status_case|].
  destruct (Z.eqb_spec sc 403) as [->|?]; [status_case|].
  destruct (Z.eqb_spec sc 404) as [->|?]; [status_case|].
  destruct (Z.eqb_spec sc 422) as [->|?]; [status_case|].
  destruct (Z.eqb_spec sc 429) as [->|?]; [status_case|].
  destruct (Z.leb_spec 500 sc), (Z.ltb_spec sc 600); status_case.
Qed.

(** The record of an HTTP status fault, one status class at a time. *)
Lemma format_http_error_shape (response : Response) :
  ∃ error_type message details action,
    format_http_error response
    = {[ "error" := JBool true; "error_type" := JStr error_type;
         "message" := message; "details" := details; "action" := action ]}
    ∧ details = default (JStr (text response)) (message_field response)
    ∧ error_type = http_error_type (status_code response).
Proof.
  assert (match json_body response with
          | inr (JDict response_body) =>
              default (JStr (text response)) (response_body !! "message")
          | _ => JStr (text response)
          end = default (JStr (text response)) (message_field response)) as Hd.
  { unfold message_field. by destruct (json_body response) as [|[]]. }
  unfold format_http_error, http_error_type. rewrite Hd.
  repeat case_match; do 4 eexists; split_and!; reflexivity.
Qed.

(** What the wrapper returns for each fault. *)
Lemma on_fault_shape (e : Fault) :
  ∃ error_type message details action,
    on_fault e
    = {[ "error" := JBool true; "error_type" := JStr error_type;
         "message" := message; "details" := details; "action" := action ]}.
Proof.
  destruct e as [m r| | | |]; simpl; try (do 4 eexists; reflexivity).
  destruct (format_http_error_shape r) as (t & msg & d & a & -> & _).
  by do 4 eexists.
Qed.

(** C1, amended. A fault raised inside a decorated tool comes back as an
    Error Record: a dict with exactly the five keys [error], [error_type],
    [message], [details] and [action], with [error] true and [error_type]
    one of the ten types.  An HTTP status fault is typed by its status
    code, 401, 403, 404, 422 and 429 each to its own type, any 5xx to
    [ServerError] and every other status to [HTTPError]; a connection
    fault is a [ConnectionError], a timeout a [TimeoutError], every
    [ValueError] a [ValidationError] and any exception of none of these
    classes an [UnexpectedError].  The trace of requests is the one the
    tool left.  The [ValueError]s are not the input-validation faults
    alone: every fault of the configuration resolver is one, and so is the
    fault of the JSON decoder on a body that does not decode. *)
Theorem handle_gitlab_errors_error_record
    (func : Tool json) (w : World) (tr tr' : list Request) (e : Fault) :
  func w tr = (inl e, tr') →
  (∀ environ e', get_gitlab_config environ = inl e' → ∃ m, e' = ValueError m)
  ∧ (∀ response m, json_body response = inl m →
       response_json response w tr = (inl (ValueError m), tr))
  ∧ ∃ (record : gmap string json) (error_type : string),
    handle_gitlab_errors func w tr = (inr (JDict record), tr')
    ∧ dom record = ERROR_KEYS
    ∧ record !! "error" = Some (JBool true)
    ∧ record !! "error_type" = Some (JStr error_type)
    ∧ error_type ∈ ERROR_TYPES
    ∧ (∀ m r, e = HTTPStatusError m r →
         (status_code r = 401 → error_type = "AuthenticationError")
         ∧ (status_code r = 403 → error_type = "AuthorizationError")
         ∧ (status_code r = 404 → error_type = "NotFoundError")
         ∧ (status_code r = 422 → error_type = "ValidationError")
         ∧ (status_code r = 429 → error_type = "RateLimitError")
         ∧ (500 ≤ status_code r < 600 → error_type = "ServerError")
         ∧ (status_code r ∉ [401; 403; 404; 422; 429] →
            ¬ (500 ≤ status_code r < 600) → error_type = "HTTPError"))
    ∧ (∀ m, e = ConnectError m → error_type = "ConnectionError")
    ∧ (∀ m, e = TimeoutException m → error_type = "TimeoutError")
    ∧ (∀ m, e = ValueError m → error_type = "ValidationError")
    ∧ (∀ m, e = OtherException m → error_type = "UnexpectedError").
Proof.
  intros Hraise. split_and!.
  { intros environ e' He'. unfold get_gitlab_config in He'.
    repeat case_match; simplify_eq; eauto. }
  { intros response m Hbody. unfold response_json. by rewrite Hbody. }
  unfold handle_gitlab_errors. rewrite Hraise.
  destruct e as [m r|m|m|m|m]; simpl.
  - destruct (format_http_error_shape r) as (t & msg & d & a & -> & _ & Ht).
    destruct (error_record_shape t msg d a) as (Hdom & Herr & Hty & _).
    destruct (http_error_type_spec (status_code r)) as (Hin & Hcodes).
    eexists _, t. subst t. split_and!; try done.
    by intros m' r' [= _ <-].
  - destruct (error_record_shape "ConnectionError" (JStr "Failed to connect to GitLab")
      (JStr m) (JStr ("Check your network connection and GITLAB_URL setting. "
        +:+ "Verify the GitLab instance is accessible."))) as (? & ? & ? & _).
    eexists _, "ConnectionError". unfold ERROR_TYPES. split_and!; try done. set_solver.
  - destruct (error_record_shape "TimeoutError" (JStr "Request timeout")
      (JStr m) (JStr ("The GitLab instance is slow or unreachable. "
        +:+ "Try again later or increase the timeout."))) as (? & ? & ? & _).
    eexists _, "TimeoutError". unfold ERROR_TYPES. split_and!; try done. set_solver.
  - destruct (error_record_shape "ValidationError" (JStr "Invalid input")
      (JStr m) (JStr "Check the input parameters and try again.")) as (? & ? & ? & _).
    eexists _, "ValidationError". unfold ERROR_TYPES. split_and!; try done. set_solver.
  - destruct (error_record_shape "UnexpectedError" (JStr "An unexpected error occurred")
      (JStr m) (JStr "Please report this error with the details above."))
      as (? & ? & ? & _).
    eexists _, "UnexpectedError". unfold ERROR_TYPES. split_and!; try done. set_solver.
Qed.

(** C1 at a tool that raises a [ValueError] before doing anything else. *)
Lemma handle_gitlab_errors_error_record_witness :
  ∃ (record : gmap string json) (error_type : string),
    handle_gitlab_errors (raise (ValueError "c is required")) demo_world []
    = (inr (JDict record), [])
    ∧ dom record = ERROR_KEYS
    ∧ record !! "error" = Some (JBool true)
    ∧ record !! "error_type" = Some (JStr error_type)
    ∧ error_type ∈ ERROR_TYPES.
Proof.
  destruct (handle_gitlab_errors_error_record
              (raise (ValueError "c is required")) demo_world [] []
              (ValueError "c is required") eq_refl)
    as (_ & _ & record & error_type & H1 & H2 & H3 & H4 & H5 & _).
  exists record, error_type. by split_and!.
Defined.

(** C8. For an HTTP status fault the [details] of the record is the
    [message] field of the decoded body when the body decodes to an object
    that has one, and the raw response text otherwise.  That is the
    specification's three-step rule with the response text always at
    hand, so its last step, the fault's own string, is never reached:
    [details] does not depend on it. *)
Theorem format_http_error_details (message : string) (response : Response) :
  on_fault (HTTPStatusError message response) !! "details"
  = Some (details_by_spec (message_field response) (Some (text response)) message)
  ∧ (∀ d body, json_body response = inr (JDict body) → body !! "message" = Some d →
       on_fault (HTTPStatusError message response) !! "details" = Some d)
  ∧ (message_field response = None →
       on_fault (HTTPStatusError message response) !! "details"
       = Some (JStr (text response)))
  ∧ (∀ message', on_fault (HTTPStatusError message' response)
                 = on_fault (HTTPStatusError message response)).
Proof.
  simpl. destruct (format_http_error_shape response) as (t & msg & d & a & -> & Hd & _).
  destruct (error_record_shape t msg d a) as (_ & _ & _ & ->).
  subst d. unfold details_by_spec, message_field. split_and!.
  - by destruct (json_body response) as [|[]]; try destruct (_ !! _).
  - by intros d body -> ->.
  - unfold message_field. by intros ->.
  - done.
Qed.

(** C8 at a 404 whose body is the object with the one field [message]
    set to [404 Not Found], and at a 502 whose body is not JSON. *)
Lemma format_http_error_details_witness :
  on_fault (HTTPStatusError "Client error '404 Not Found'" not_found_response)
    !! "details" = Some (JStr "404 Not Found")
  ∧ on_fault (HTTPStatusError "Server error '502 Bad Gateway'" bad_gateway_response)
    !! "details" = Some (JStr "<html>Bad Gateway</html>").
Proof.
  split.
  - apply (proj1 (proj2 (format_http_error_details
             "Client error '404 Not Found'" not_found_response))
             (JStr "404 Not Found") {[ "message" := JStr "404 Not Found" ]});
      reflexivity.
  - apply (proj1 (proj2 (proj2 (format_http_error_details
             "Server error '502 Bad Gateway'" bad_gateway_response)))).
    reflexivity.
Defined.

(* ===================================================================== *)
(** * Pagination *)
(* ===================================================================== *)

(** C2. [paginate_response] sets [has_next] to the truth of
    [len(items) == per_page] whatever [total] is, [next_page] to
    [page + 1] when [has_next] holds and to null otherwise, and has a
    [total] key exactly when a total was passed, with that value. *)
Theorem paginate_response_spec
    (items : list json) (page per_page : Z) (total : option Z) :
  let response := paginate_response items page per_page total in
  ∃ has_next : bool,
    (has_next = true ↔ Z.of_nat (length items) = per_page)
    ∧ response !! "has_next" = Some (JBool has_next)
    ∧ response !! "next_page" = Some (if has_next then JInt (page + 1) else JNull)
    ∧ response !! "total" = JInt <$> total
    ∧ response !! "items" = Some (JList items)
    ∧ response !! "page" = Some (JInt page)
    ∧ response !! "per_page" = Some (JInt per_page).
Proof.
  exists (bool_decide (Z.of_nat (length items) = per_page)).
  split; [apply bool_decide_eq_true|].
  unfold paginate_response. destruct total; split_and!; by simplify_map_eq.
Qed.

(* ===================================================================== *)
(** * Field filtering *)
(* ===================================================================== *)

(** The dict comprehension of [filter_object], key by key. *)
Lemma filter_keys_lookup (field_set : gset string) (d : gmap string json) (k : string) :
  filter (λ kv, kv.1 ∈ field_set) d !! k
  = if bool_decide (k ∈ field_set) then d !! k else None.
Proof.
  case_bool_decide as Hk.
  - destruct (d !! k) as [v|] eqn:Hv.
    + by apply map_lookup_filter_Some_2.
    + apply map_lookup_filter_None_2. by left.
  - apply map_lookup_filter_None_2. right. intros v _. exact Hk.
Qed.

Lemma filter_keys_idemp (field_set : gset string) (d : gmap string json) :
  filter (λ kv, kv.1 ∈ field_set) (filter (λ kv, kv.1 ∈ field_set) d)
  = filter (λ kv, kv.1 ∈ field_set) d.
Proof.
  apply map_eq. intros k. rewrite !filter_keys_lookup. by case_bool_decide.
Qed.

Lemma filter_object_idemp (field_set : gset string) (obj : json) :
  filter_object field_set (filter_object field_set obj) = filter_object field_set obj.
Proof. destruct obj; simpl; try done. by rewrite filter_keys_idemp. Qed.

Lemma filter_object_restricted (fields : list string) (d : gmap string json) :
  ∃ d', filter_object (list_to_set fields) (JDict d) = JDict d'
        ∧ restricted_to fields d d'.
Proof.
  eexists. split; [reflexivity|]. intros k. rewrite filter_keys_lookup.
  by rewrite (bool_decide_ext _ _ (elem_of_list_to_set (C:=gset string) k fields)).
Qed.

Lemma apply_fields_idemp (fields : list string) (data : json) :
  apply_fields fields (apply_fields fields data) = apply_fields fields data.
Proof.
  destruct data; simpl; try done.
  - f_equal. rewrite <- list_fmap_compose. apply list_fmap_ext.
    intros _ o _. apply filter_object_idemp.
  - by rewrite filter_keys_idemp.
Qed.

(** [filter_fields] is the identity or [apply_fields] at one field list,
    and which of the two depends on the filter specification only. *)
Lemma filter_fields_cases (include_fields : fields_arg) (resource_type : option string) :
  (∀ data, filter_fields data include_fields resource_type = data)
  ∨ (∃ fields, ∀ data,
       filter_fields data include_fields resource_type = apply_fields fields data).
Proof.
  unfold filter_fields. case_bool_decide as Hall; [by left|].
  destruct include_fields as [|s|l].
  - destruct resource_type as [rt|]; [|by left].
    case_bool_decide; [|by left].
    destruct (DEFAULT_FIELDS !! rt) as [fields|]; [|by left].
    right. exists fields. by intros [].
  - right. exists (Str.strip <$> Str.split "," s). by intros [].
  - right. exists l. by intros [].
Qed.

(** The default field set of each resource type, read off the table. *)
Lemma DEFAULT_FIELDS_project :
  DEFAULT_FIELDS !! "project"
  = Some ["id"; "name"; "path"; "description"; "web_url"; "visibility"].
Proof. reflexivity. Qed.

(** C5. With no [include_fields] and resource type [project], a record
    comes back with the entries whose key is one of [id], [name], [path],
    [description], [web_url], [visibility] and no other entry, and a list
    comes back with each of its records so restricted (an item that is not
    a record is left as it is).  With no [include_fields] and a resource
    type that is not a key of the default table, or no resource type, the
    data comes back unchanged. *)
Theorem filter_fields_default_project :
  let project_fields :=
    ["id"; "name"; "path"; "description"; "web_url"; "visibility"] in
  (∀ d : gmap string json,
     ∃ d', filter_fields (JDict d) FNone (Some "project") = JDict d'
           ∧ restricted_to project_fields d d')
  ∧ (∀ items : list json,
       ∃ items', filter_fields (JList items) FNone (Some "project") = JList items'
         ∧ Forall2 (λ o o', match o with
                            | JDict d => ∃ d', o' = JDict d'
                                               ∧ restricted_to project_fields d d'
                            | _ => o' = o
                            end) items items')
  ∧ (∀ (data : json) (rt : string),
       DEFAULT_FIELDS !! rt = None → filter_fields data FNone (Some rt) = data)
  ∧ (∀ data : json, filter_fields data FNone None = data)
  ∧ (∀ rt : string,
       DEFAULT_FIELDS !! rt = None
       ↔ rt ∉ ["project"; "issue"; "merge_request"; "commit"; "branch";
               "pipeline"; "job"; "user"; "group"; "label"; "milestone"]).
Proof.
  cbv zeta. split_and!.
  - intros d. apply (filter_object_restricted _ d).
  - intros items. eexists. split; [reflexivity|].
    apply Forall2_fmap_r, Forall_Forall2_diag, Forall_forall.
    intros o _. destruct o; try done.
    apply (filter_object_restricted _ fields).
  - intros data rt Hrt. unfold filter_fields. simpl.
    case_bool_decide; [|done]. by rewrite Hrt.
  - done.
  - intros rt. unfold DEFAULT_FIELDS.
    rewrite !lookup_insert_None, lookup_singleton_None.
    rewrite !not_elem_of_cons. pose proof (not_elem_of_nil rt). intuition congruence.
Qed.

(** C5 at a resource type the table does not have. *)
Lemma filter_fields_default_project_witness :
  filter_fields (JDict {[ "id" := JInt 1; "extra" := JStr "x" ]}) FNone
    (Some "unknown_type")
  = JDict {[ "id" := JInt 1; "extra" := JStr "x" ]}.
Proof.
  apply (proj1 (proj2 (proj2 filter_fields_default_project))). reflexivity.
Defined.

(** C6. Filtering twice with the same [include_fields] and the same
    resource type gives what filtering once gives, for every data value. *)
Theorem filter_fields_idempotent
    (data : json) (include_fields : fields_arg) (resource_type : option string) :
  filter_fields (filter_fields data include_fields resource_type)
    include_fields resource_type
  = filter_fields data include_fields resource_type.
Proof.
  destruct (filter_fields_cases include_fields resource_type) as [Hid|[fields Hf]].
  - by rewrite !Hid.
  - rewrite !Hf. apply apply_fields_idemp.
Qed.

(** The empty string splits into the one empty field name. *)
Lemma split_empty_string : Str.strip <$> Str.split "," "" = [""].
Proof. reflexivity. Qed.

Lemma filter_fields_empty_string_apply (data : json) (resource_type : option string) :
  filter_fields data (FStr "") resource_type = apply_fields [""] data.
Proof. unfold filter_fields. simpl. by destruct data. Qed.

Lemma restricted_to_empty_name (d d' : gmap string json) :
  restricted_to [""] d d' → d !! "" = None → d' = ∅.
Proof.
  intros Hr Hd. apply map_empty. intros k. rewrite Hr.
  case_bool_decide as Hk; [|done].
  apply list_elem_of_singleton in Hk as ->. exact Hd.
Qed.

Lemma filter_object_empty_name (d : gmap string json) :
  d !! "" = None → filter_object (list_to_set [""]) (JDict d) = JDict ∅.
Proof.
  intros Hd. destruct (filter_object_restricted [""] d) as (d' & -> & Hr).
  f_equal. by apply (restricted_to_empty_name d).
Qed.

(** C10, as stated, fails on a record that has the empty string among its
    keys: [filter_fields({"": 1, "id": 7}, "", "project")] keeps the entry
    under the empty key, so the result is not the empty record, and
    [filter_fields({"": 1}, "")] is the unfiltered data. *)
Lemma filter_fields_empty_string_keeps_empty_key :
  filter_fields (JDict {[ "" := JInt 1; "id" := JInt 7 ]}) (FStr "") (Some "project")
  = JDict {[ "" := JInt 1 ]}
  ∧ filter_fields (JDict {[ "" := JInt 1; "id" := JInt 7 ]}) (FStr "") (Some "project")
    ≠ JDict ∅
  ∧ filter_fields (JDict {[ "" := JInt 1 ]}) (FStr "") None = JDict {[ "" := JInt 1 ]}.
Proof.
  assert (filter_fields (JDict {[ "" := JInt 1; "id" := JInt 7 ]}) (FStr "")
            (Some "project") = JDict {[ "" := JInt 1 ]}) as Heq.
  { vm_compute. reflexivity. }
  split_and!; [exact Heq| |vm_compute; reflexivity]. rewrite Heq. intros Hempty.
  apply (f_equal (λ o, match o with JDict d => d !! "" | _ => None end)) in Hempty.
  vm_compute in Hempty. discriminate Hempty.
Qed.

(** C10, amended. The empty string as [include_fields] is an explicit
    filter whatever the resource type: it names the one field whose name
    is empty, so a record keeps its entry under the empty key, if it has
    one, and loses every other entry.  A record without the empty key
    comes back as the empty record, and a list of such records as a list
    of as many empty records. *)
Theorem filter_fields_empty_string (resource_type : option string) :
  (∀ d : gmap string json,
     ∃ d', filter_fields (JDict d) (FStr "") resource_type = JDict d'
           ∧ restricted_to [""] d d')
  ∧ (∀ d : gmap string json,
       d !! "" = None →
       filter_fields (JDict d) (FStr "") resource_type = JDict ∅)
  ∧ (∀ items : list json,
       Forall (λ o, ∃ d : gmap string json, o = JDict d ∧ d !! "" = None) items →
       filter_fields (JList items) (FStr "") resource_type
       = JList (replicate (length items) (JDict ∅))).
Proof.
  split_and!.
  - intros d. rewrite filter_fields_empty_string_apply.
    apply (filter_object_restricted [""] d).
  - intros d Hd. rewrite filter_fields_empty_string_apply.
    by apply filter_object_empty_name.
  - intros items Hitems. rewrite filter_fields_empty_string_apply.
    unfold apply_fields. f_equal.
    induction Hitems as [|o items (d & -> & Hd) _ IH]; [done|].
    by rewrite fmap_cons, IH, filter_object_empty_name.
Qed.

(** C10 amended, at a project record and at a list of two records. *)
Lemma filter_fields_empty_string_witness :
  filter_fields (JDict {[ "id" := JInt 7; "name" := JStr "demo" ]}) (FStr "")
    (Some "project") = JDict ∅
  ∧ filter_fields (JList [JDict {[ "id" := JInt 7 ]}; JDict ∅]) (FStr "") None
    = JList [JDict ∅; JDict ∅].
Proof.
  split.
  - apply (proj1 (proj2 (filter_fields_empty_string (Some "project")))).
    reflexivity.
  - apply (proj2 (proj2 (filter_fields_empty_string None))
             [JDict {[ "id" := JInt 7 ]}; JDict ∅]).
    repeat constructor; eexists; (split; [reflexivity|reflexivity]).
Defined.

(* ===================================================================== *)
(** * Configuration *)
(* ===================================================================== *)

(** Lowering a character gives one of the characters of [true], [1] and
    [yes] exactly when the character is that one up to case. *)
Lemma lower_char_caseless (c d : ascii) :
  d ∈ ["t"; "r"; "u"; "e"; "1"; "y"; "s"]%char →
  Str.lower_char c = d ↔ same_caseless c d = true.
Proof.
  intros Hd.
  repeat (apply elem_of_cons in Hd as [->|Hd]); [..|by apply elem_of_nil in Hd];
    destruct c as [[] [] [] [] [] [] [] []]; vm_compute;
    (split; intros; first [reflexivity | discriminate]).
Qed.

Lemma lower_eq_caseless (s t : string) :
  all_chars (λ d, bool_decide (d ∈ ["t"; "r"; "u"; "e"; "1"; "y"; "s"]%char)) t = true →
  Str.lower s = t ↔ eq_caseless s t = true.
Proof.
  revert t. induction s as [|c s IH]; intros [|d t]; simpl; try done.
  rewrite andb_true_iff, bool_decide_eq_true. intros [Hd Ht].
  rewrite andb_true_iff, <- (IH t Ht), <- (lower_char_caseless c d Hd).
  split; [by intros [= -> ->]|by intros [-> ->]].
Qed.

(** The flag test of [get_gitlab_config], without [lower]. *)
Lemma verify_flag_caseless (flag : string) :
  bool_decide (Str.lower flag ∈ ["true"; "1"; "yes"]) = true
  ↔ eq_caseless flag "true" = true ∨ eq_caseless flag "1" = true
    ∨ eq_caseless flag "yes" = true.
Proof.
  rewrite bool_decide_eq_true, !elem_of_cons, elem_of_nil.
  rewrite <- !lower_eq_caseless by reflexivity. tauto.
Qed.

(** C7. [get_gitlab_config] raises when [GITLAB_TOKEN] is unset or empty,
    and raises when the base URL (the value of [GITLAB_URL], or
    [https://gitlab.com] when unset) starts with neither [http://] nor
    [https://].  Otherwise it returns the token as it is, the base URL
    without its trailing slashes (the URL is the returned base followed
    by slashes only, and the base does not end in a slash), and a
    verification flag that is true exactly when [GITLAB_VERIFY_SSL],
    taken as [true] when unset, is [true], [1] or [yes] up to the case of
    its letters.  The fault raised is a [ValueError]; the source has no
    class of its own for configuration faults. *)
Theorem get_gitlab_config_spec (environ : gmap string string) :
  let url := default "https://gitlab.com" (environ !! "GITLAB_URL") in
  let flag := default "true" (environ !! "GITLAB_VERIFY_SSL") in
  let has_scheme :=
    (∃ rest, url = "http://" +:+ rest) ∨ (∃ rest, url = "https://" +:+ rest) in
  (environ !! "GITLAB_TOKEN" = None ∨ environ !! "GITLAB_TOKEN" = Some "" →
     ∃ msg, get_gitlab_config environ = inl (ValueError msg)
            ∧ occurs_in "GITLAB_TOKEN environment variable is required" msg)
  ∧ (¬ has_scheme →
       ∃ msg, get_gitlab_config environ = inl (ValueError msg)
              ∧ (∀ tok, environ !! "GITLAB_TOKEN" = Some tok → tok ≠ "" →
                   msg = "GITLAB_URL must start with http:// or https://, got: "
                         +:+ url))
  ∧ (∀ tok, environ !! "GITLAB_TOKEN" = Some tok → tok ≠ "" → has_scheme →
       ∃ config n,
         get_gitlab_config environ = inr config
         ∧ token config = tok
         ∧ url = base_url config +:+ slashes n
         ∧ (∀ r, base_url config ≠ r +:+ "/")
         ∧ (verify_ssl config = true
            ↔ eq_caseless flag "true" = true ∨ eq_caseless flag "1" = true
              ∨ eq_caseless flag "yes" = true)
         ∧ (environ !! "GITLAB_VERIFY_SSL" = None → verify_ssl config = true)).
Proof.
  cbv zeta.
  set (url := default "https://gitlab.com" (environ !! "GITLAB_URL")).
  set (flag := default "true" (environ !! "GITLAB_VERIFY_SSL")).
  assert (negb (Str.startswith url "http://") && negb (Str.startswith url "https://")
          = true
          ↔ ¬ ((∃ rest, url = "http://" +:+ rest) ∨ (∃ rest, url = "https://" +:+ rest)))
    as Hscheme.
  { rewrite andb_true_iff, !negb_true_iff, <- !not_true_iff_false, !startswith_spec.
    tauto. }
  split_and!.
  - intros Htok. unfold get_gitlab_config.
    eexists. split.
    + by destruct Htok as [-> | ->].
    + exists "", (". Generate a token at "
        +:+ "https://gitlab.com/-/profile/personal_access_tokens"). reflexivity.
  - intros Hno. apply Hscheme in Hno. unfold get_gitlab_config. fold url.
    destruct (environ !! "GITLAB_TOKEN") as [[|c tok]|]; rewrite ?Hno;
      eexists; (split; [reflexivity|]); intros tok' [= <-]; done.
  - intros tok Htok Hne Hyes. unfold get_gitlab_config. rewrite Htok. fold url flag.
    destruct tok as [|c tok]; [done|].
    assert (negb (Str.startswith url "http://")
            && negb (Str.startswith url "https://") = false) as ->.
    { apply not_true_iff_false. intros Hs. by apply Hscheme in Hs. }
    destruct (rstrip_with_decompose (λ c, bool_decide (c = "/"%char)) url)
      as (t & Hurl & Ht).
    destruct (all_slashes t Ht) as [n ->].
    eexists _, n. split_and!; try reflexivity.
    + exact Hurl.
    + intros r Hr. simpl in Hr. unfold Str.rstrip_char in Hr.
      apply rstrip_with_last in Hr. by rewrite bool_decide_eq_false in Hr.
    + apply verify_flag_caseless.
    + intros Hunset. simpl. subst flag. by rewrite Hunset.
Qed.

(** C7 at an environment with a token, a URL with three trailing slashes
    and the flag [YeS]. *)
Lemma get_gitlab_config_spec_witness :
  ∃ config n,
    get_gitlab_config demo_environ = inr config
    ∧ token config = "glpat-demo"
    ∧ "https://gitlab.example.org///" = base_url config +:+ slashes n
    ∧ (∀ r, base_url config ≠ r +:+ "/")
    ∧ verify_ssl config = true.
Proof.
  destruct (proj2 (proj2 (get_gitlab_config_spec demo_environ)) "glpat-demo")
    as (config & n & Hconfig & Htoken & Hurl & Hbase & Hflag & _).
  - reflexivity.
  - discriminate.
  - right. by exists "gitlab.example.org///".
  - exists config, n. split_and!; try done.
    apply Hflag. right. right. reflexivity.
Defined.

(* ===================================================================== *)
(** * The positive-integer validators *)
(* ===================================================================== *)

(** Finds a piece of an f-string in the whole. *)
Ltac find_piece :=
  repeat first
    [ apply occurs_in_refl
    | apply occurs_in_suffix
    | apply occurs_in_app_l; apply occurs_in_refl
    | apply occurs_in_app_r ].

(** [validate_project_id] is [validate_iid] under the name [project_id]. *)
Lemma validate_project_id_iid (int_of_str : string → option Z) (x : pyarg) :
  validate_project_id int_of_str x = validate_iid int_of_str x "project_id".
Proof. reflexivity. Qed.

Lemma validate_iid_type_fault
    (int_of_str : string → option Z) (param_name : string) (x : pyarg) :
  is_float x = true ∨ (is_int x = false ∧ py_int int_of_str x = None) →
  validate_iid int_of_str x param_name
  = inl (ValueError (param_name +:+ " must be an integer, got "
                       +:+ type_name x +:+ ": " +:+ py_str x)).
Proof.
  unfold validate_iid. intros [-> | [Hint Hpy]]; [done|].
  rewrite Hint, Hpy. by destruct (is_float x).
Qed.

Lemma validate_iid_range
    (int_of_str : string → option Z) (param_name : string) (x y : pyarg) :
  is_float x = false →
  (if negb (is_int x) then py_int int_of_str x else Some x) = Some y →
  validate_iid int_of_str x param_name
  = if bool_decide (int_value y ≤ 0)
    then inl (ValueError (param_name +:+ " must be a positive integer, got: "
                            +:+ py_str y))
    else inr y.
Proof. unfold validate_iid. by intros -> ->. Qed.

(** C3, as stated, fails where the value is rejected for its range: the
    message of that fault has the value and no type name.
    [validate_project_id(False)] takes the [int] path, since [bool] is a
    subclass of [int], and raises with a message in which [bool] does not
    occur; [validate_project_id("-5")] raises with a message in which
    [str] does not occur. *)
Lemma validate_project_id_range_message_has_no_type_name :
  (validate_project_id int_of_decimal (ABool false)
   = inl (ValueError "project_id must be a positive integer, got: False")
   ∧ int_value (ABool false) ≤ 0
   ∧ ¬ occurs_in (type_name (ABool false))
         "project_id must be a positive integer, got: False")
  ∧ (validate_project_id int_of_decimal (AStr "-5")
     = inl (ValueError "project_id must be a positive integer, got: -5")
     ∧ ¬ occurs_in (type_name (AStr "-5"))
           "project_id must be a positive integer, got: -5").
Proof.
  split_and!; try (vm_compute; reflexivity); try done.
  - intros H%contains_complete. vm_compute in H. discriminate H.
  - intros H%contains_complete. vm_compute in H. discriminate H.
Qed.

(** C3, amended. [validate_project_id], and [validate_iid] under any
    parameter name, raise a [ValueError] for every float, with a message
    that has the value and the type name [float]; for every string that
    [int()] does not parse, with a message that has the string and the type
    name [str]; and for every result that is not positive, an integer
    passed as such or parsed from a string, with a message that has the
    result (the range message has no type name in it).  Every integer
    from 1 up is returned unchanged, and a string that parses to an
    integer from 1 up is accepted and the parsed integer returned. *)
Theorem validate_positive_int_spec
    (int_of_str : string → option Z) (param_name : string)
    (validate : pyarg → Fault + pyarg) :
  (param_name = "project_id" ∧ validate = validate_project_id int_of_str)
  ∨ validate = (λ x, validate_iid int_of_str x param_name) →
  (∀ printed,
     ∃ msg, validate (AFloat printed) = inl (ValueError msg)
            ∧ msg = param_name +:+ " must be an integer, got float: " +:+ printed
            ∧ occurs_in printed msg ∧ occurs_in "float" msg)
  ∧ (∀ s, int_of_str s = None →
       ∃ msg, validate (AStr s) = inl (ValueError msg)
              ∧ msg = param_name +:+ " must be an integer, got str: " +:+ s
              ∧ occurs_in s msg ∧ occurs_in "str" msg)
  ∧ (∀ n, n ≤ 0 →
       ∃ msg, validate (AInt n) = inl (ValueError msg)
              ∧ msg = param_name +:+ " must be a positive integer, got: "
                        +:+ Str.of_int n
              ∧ occurs_in (Str.of_int n) msg)
  ∧ (∀ s n, int_of_str s = Some n → n ≤ 0 →
       ∃ msg, validate (AStr s) = inl (ValueError msg)
              ∧ msg = param_name +:+ " must be a positive integer, got: "
                        +:+ Str.of_int n
              ∧ occurs_in (Str.of_int n) msg)
  ∧ (∃ msg, validate (ABool false) = inl (ValueError msg)
            ∧ msg = param_name +:+ " must be a positive integer, got: False"
            ∧ occurs_in "False" msg)
  ∧ (∀ n, 1 ≤ n → validate (AInt n) = inr (AInt n))
  ∧ (∀ s n, int_of_str s = Some n → 1 ≤ n → validate (AStr s) = inr (AInt n)).
Proof.
  intros Hv.
  assert (validate = λ x, validate_iid int_of_str x param_name) as ->
    by (by destruct Hv as [[-> ->] | ->]).
  split_and!.
  - intros printed. eexists. split_and!.
    + by apply validate_iid_type_fault; left.
    + reflexivity.
    + simpl. find_piece.
    + simpl. find_piece.
  - intros s Hs. eexists. split_and!.
    + apply validate_iid_type_fault. right. simpl. by rewrite Hs.
    + reflexivity.
    + simpl. find_piece.
    + simpl. find_piece.
  - intros n Hn. eexists. split_and!.
    + rewrite (validate_iid_range _ _ _ (AInt n)) by done.
      simpl. by rewrite bool_decide_eq_true_2.
    + reflexivity.
    + find_piece.
  - intros s n Hs Hn. eexists. split_and!.
    + rewrite (validate_iid_range _ _ _ (AInt n)) by (by simpl; rewrite ?Hs).
      simpl. by rewrite bool_decide_eq_true_2.
    + reflexivity.
    + find_piece.
  - eexists. split_and!.
    + by rewrite (validate_iid_range _ _ _ (ABool false)).
    + reflexivity.
    + find_piece.
  - intros n Hn. rewrite (validate_iid_range _ _ _ (AInt n)) by done.
    simpl. by rewrite bool_decide_eq_false_2 by lia.
  - intros s n Hs Hn.
    rewrite (validate_iid_range _ _ _ (AInt n)) by (by simpl; rewrite ?Hs).
    simpl. by rewrite bool_decide_eq_false_2 by lia.
Qed.

(** C3 amended, at [validate_project_id] with the decimal reader: the
    float [12.0] is rejected and the string [42] is accepted as 42. *)
Lemma validate_positive_int_spec_witness :
  (∃ msg, validate_project_id int_of_decimal (AFloat "12.0") = inl (ValueError msg)
          ∧ msg = "project_id must be an integer, got float: 12.0"
          ∧ occurs_in "12.0" msg ∧ occurs_in "float" msg)
  ∧ validate_project_id int_of_decimal (AStr "42") = inr (AInt 42).
Proof.
  pose proof (validate_positive_int_spec int_of_decimal "project_id"
                (validate_project_id int_of_decimal) (or_introl (conj eq_refl eq_refl)))
    as (Hfloat & _ & _ & _ & _ & _ & Hstr).
  split.
  - destruct (Hfloat "12.0") as (msg & H1 & H2 & H3 & H4).
    exists msg. by split_and!.
  - apply Hstr; [reflexivity | lia].
Defined.

(* ===================================================================== *)
(** * Tools: validation, then one request *)
(* ===================================================================== *)

Lemma bind_lift {A B} (r : Fault + A) (k : A → Tool B) (w : World) (tr : list Request) :
  (lift r ≫= k) w tr = match r with
                       | inl e => (inl e, tr)
                       | inr a => k a w tr
                       end.
Proof. by destruct r. Qed.

(** A validator only raises [ValueError]. *)
Lemma validate_project_id_raises
    (int_of_str : string → option Z) (x : pyarg) (e : Fault) :
  validate_project_id int_of_str x = inl e → ∃ msg, e = ValueError msg.
Proof.
  unfold validate_project_id. intros H.
  repeat case_match; simplify_eq; eauto.
Qed.

Lemma validate_branch_name_raises (branch : pyarg) (e : Fault) :
  validate_branch_name branch = inl e → ∃ msg, e = ValueError msg.
Proof.
  unfold validate_branch_name. intros H.
  repeat case_match; simplify_eq; eauto.
Qed.

(** With a configuration at hand [make_request] issues exactly one
    request, to [base_url/api/v4/endpoint]. *)
Lemma make_request_sends (method endpoint : string)
    (params : option (gmap string json)) (body : option json)
    (w : World) (tr : list Request) (config : Config) :
  get_gitlab_config (environ w) = inr config →
  ∃ result request,
    make_request method endpoint params body w tr = (result, tr ++ [request])
    ∧ req_method request = method
    ∧ req_url request = base_url config +:+ "/api/v4/" +:+ endpoint
    ∧ req_headers request !! "PRIVATE-TOKEN" = Some (token config).
Proof.
  intros Hconfig.
  unfold make_request, mbind, tool_bind, read_environ, lift, client_request.
  rewrite Hconfig.
  match goal with |- context [remote w ?r] => set (request := r) end.
  destruct (remote w request) as [r|m|m|m];
    try (eexists _, request; split_and!; [reflexivity..|by simplify_map_eq]).
  exists (match (if (200 <=? status_code r) && (status_code r <=? 299)
                 then inr () else inl (HTTPStatusError (status_error r) r))
          with
          | inl e => inl e
          | inr _ => match json_body r with
                     | inr v => inr v
                     | inl m => inl (ValueError m)
                     end
          end), request.
  split_and!; [|reflexivity..|by simplify_map_eq].
  unfold raise_for_status, response_json, raise, mret, tool_ret.
  by destruct ((200 <=? status_code r) && (status_code r <=? 299)),
    (json_body r).
Qed.

(** A decorated tool whose first step is a validator that raises returns
    the validation record and leaves the trace as it was. *)
Lemma validation_fault_no_request {A} (r : Fault + A) (k : A → Tool json)
    (w : World) (tr : list Request) (msg : string) :
  r = inl (ValueError msg) →
  handle_gitlab_errors (lift r ≫= k) w tr
  = (inr (JDict (format_validation_error msg)), tr).
Proof. intros ->. reflexivity. Qed.

(** C4. [get_project] with [project_id = -1] returns an Error Record with
    [error] true and [error_type] [ValidationError] and leaves the trace
    of requests as it was: no request goes out.  The same holds for every
    [project_id] the validator rejects, and in [get_branch] for a rejected
    [project_id] and for a rejected branch name behind an accepted
    [project_id]: the record is the validation record of the validator's
    message and no request goes out.  When the arguments are accepted and
    the configuration resolves, exactly one request goes out. *)
Theorem get_project_validates_before_request (int_of_str : string → option Z) :
  (∀ include_fields w tr,
     ∃ record : gmap string json,
       get_project int_of_str (AInt (-1)) include_fields w tr
       = (inr (JDict record), tr)
       ∧ dom record = ERROR_KEYS
       ∧ record !! "error" = Some (JBool true)
       ∧ record !! "error_type" = Some (JStr "ValidationError"))
  ∧ (∀ project_id include_fields w tr e,
       validate_project_id int_of_str project_id = inl e →
       ∃ msg, e = ValueError msg
              ∧ get_project int_of_str project_id include_fields w tr
                = (inr (JDict (format_validation_error msg)), tr))
  ∧ (∀ project_id branch include_fields w tr e,
       validate_project_id int_of_str project_id = inl e
       ∨ (∃ id, validate_project_id int_of_str project_id = inr id
                ∧ validate_branch_name branch = inl e) →
       ∃ msg, e = ValueError msg
              ∧ get_branch int_of_str project_id branch include_fields w tr
                = (inr (JDict (format_validation_error msg)), tr))
  ∧ (∀ project_id id include_fields w tr config,
       validate_project_id int_of_str project_id = inr id →
       get_gitlab_config (environ w) = inr config →
       ∃ result request,
         get_project int_of_str project_id include_fields w tr
         = (result, tr ++ [request])
         ∧ req_url request = base_url config +:+ "/api/v4/projects/" +:+ py_str id).
Proof.
  split_and!.
  - intros include_fields w tr. eexists. split; [reflexivity|].
    destruct (error_record_shape "ValidationError" (JStr "Invalid input")
      (JStr "project_id must be a positive integer, got: -1")
      (JStr "Check the input parameters and try again.")) as (? & ? & ? & _).
    done.
  - intros project_id include_fields w tr e He.
    destruct (validate_project_id_raises _ _ _ He) as [msg ->].
    exists msg. split; [done|]. by apply validation_fault_no_request.
  - intros project_id branch include_fields w tr e [He|(id & Hid & He)].
    + destruct (validate_project_id_raises _ _ _ He) as [msg ->].
      exists msg. split; [done|]. by apply validation_fault_no_request.
    + destruct (validate_branch_name_raises _ _ He) as [msg ->].
      exists msg. split; [done|].
      unfold get_branch, handle_gitlab_errors. by rewrite bind_lift, Hid, bind_lift, He.
  - intros project_id id include_fields w tr config Hid Hconfig.
    destruct (make_request_sends "GET" ("projects/" +:+ py_str id) None None w tr
                config Hconfig) as (result & request & Hsend & _ & Hurl & _).
    unfold get_project, handle_gitlab_errors. rewrite bind_lift, Hid.
    unfold mbind at 1, tool_bind at 1. rewrite Hsend.
    destruct result; eexists _, request; (split; [reflexivity|exact Hurl]).
Qed.

(** C4 at [project_id = 0] in the demo world, and at [project_id = 7],
    which is accepted and sent. *)
Lemma get_project_validates_before_request_witness :
  (∃ msg, get_project int_of_decimal (AInt 0) None demo_world []
          = (inr (JDict (format_validation_error msg)), []))
  ∧ (∃ result request,
       get_project int_of_decimal (AInt 7) None demo_world []
       = (result, [request])
       ∧ req_url request = "https://gitlab.com/api/v4/projects/7").
Proof.
  pose proof (get_project_validates_before_request int_of_decimal)
    as (_ & Hreject & _ & Haccept).
  split.
  - destruct (Hreject (AInt 0) None demo_world []
                (ValueError "project_id must be a positive integer, got: 0") eq_refl)
      as (msg & _ & Hrun).
    by exists msg.
  - apply (Haccept (AInt 7) (AInt 7) None demo_world []
             {| base_url := "https://gitlab.com"; token := "glpat-demo";
                verify_ssl := true |}); reflexivity.
Defined.

(** The [ValueError] clause of the decorator also catches the faults of
    that class raised past the validators: without a token the
    configuration fault comes back as a validation record, and no request
    goes out. *)
Remark get_project_without_token
    (int_of_str : string → option Z) (project_id id : pyarg)
    (include_fields : option string) (w : World) (tr : list Request) :
  validate_project_id int_of_str project_id = inr id →
  environ w !! "GITLAB_TOKEN" = None →
  ∃ msg, get_project int_of_str project_id include_fields w tr
         = (inr (JDict (format_validation_error msg)), tr).
Proof.
  intros Hid Htoken. eexists.
  unfold get_project, handle_gitlab_errors. rewrite bind_lift, Hid.
  unfold make_request, mbind, tool_bind, read_environ, lift, get_gitlab_config.
  by rewrite Htoken.
Qed.

(** So does a 2xx answer whose body is not JSON: the decoder's fault comes
    back as a validation record, after the request went out. *)
Remark get_project_undecodable_body
    (int_of_str : string → option Z) (project_id id : pyarg)
    (include_fields : option string) (w : World) (tr : list Request)
    (config : Config) (r : Response) (msg : string) :
  validate_project_id int_of_str project_id = inr id →
  get_gitlab_config (environ w) = inr config →
  (∀ request, remote w request = Responded r) →
  status_code r = 200 →
  json_body r = inl msg →
  ∃ request, get_project int_of_str project_id include_fields w tr
             = (inr (JDict (format_validation_error msg)), tr ++ [request]).
Proof.
  intros Hid Hconfig Hremote Hstatus Hbody. eexists.
  unfold get_project, handle_gitlab_errors. rewrite bind_lift, Hid.
  unfold make_request, mbind, tool_bind, read_environ, lift, client_request.
  rewrite Hconfig, Hremote.
  unfold raise_for_status, response_json, raise, mret, tool_ret.
  by rewrite Hstatus, Hbody.
Qed.

(** C1, as stated, fails at a fault that is none of the four kinds it
    names: it is typed [ValidationError], not [UnexpectedError].  With no
    token in the environment [get_project] at the id 7, which the
    validator accepts, returns the record of the configuration resolver's
    fault, and sends nothing; and at a 204 with an empty body, with a
    token, it returns the record of the decoder's fault, after the
    request. *)
Lemma get_project_configuration_fault_is_validation_error :
  validate_project_id int_of_decimal (AInt 7) = inr (AInt 7)
  ∧ (∃ record,
       get_project int_of_decimal (AInt 7) None
         {| environ := ∅; remote := remote demo_world |} []
       = (inr (JDict record), [])
       ∧ record !! "error_type" = Some (JStr "ValidationError")
       ∧ record !! "error_type" ≠ Some (JStr "UnexpectedError")
       ∧ record !! "message" = Some (JStr "Invalid input")
       ∧ record !! "details"
         = Some (JStr ("GITLAB_TOKEN environment variable is required. "
              +:+ "Generate a token at "
              +:+ "https://gitlab.com/-/profile/personal_access_tokens")))
  ∧ (∃ record,
       get_project int_of_decimal (AInt 7) None no_content_world []
       = (inr (JDict record),
          [build_request demo_config "GET" "projects/7" None None])
       ∧ record !! "error_type" = Some (JStr "ValidationError")
       ∧ record !! "error_type" ≠ Some (JStr "UnexpectedError")
       ∧ record !! "details"
         = Some (JStr "Expecting value: line 1 column 1 (char 0)")).
Proof.
  split_and!.
  - reflexivity.
  - eexists. split_and!; [vm_compute; reflexivity|try done..].
  - eexists. split_and!; [vm_compute; reflexivity|try done..].
Qed.

(* ===================================================================== *)
(** * Path encoding *)
(* ===================================================================== *)

Lemma all_chars_app (p : ascii → bool) (s t : string) :
  all_chars p (s +:+ t) = all_chars p s && all_chars p t.
Proof.
  induction s as [|c s IH]; [done|].
  rewrite app_cons. simpl. by rewrite IH, andb_assoc.
Qed.

Lemma all_chars_no_occurrence (p : ascii → bool) (s : string) (c : ascii) :
  all_chars p s = true → p c = false → ¬ occurs_in (String c "") s.
Proof.
  intros Hall Hc (before & after & ->).
  rewrite !all_chars_app in Hall. simpl in Hall. rewrite Hc in Hall.
  by rewrite andb_false_r in Hall.
Qed.

Lemma hex_digit_safe (n : N) : quoted_char (hex_digit n) = true.
Proof. unfold hex_digit. by repeat case_match. Qed.

Lemma always_safe_small (b : N) : always_safe b = true → (b < 256)%N.
Proof.
  unfold always_safe. rewrite !orb_true_iff, !andb_true_iff.
  rewrite !N.leb_le, !N.eqb_eq. lia.
Qed.

Lemma quote_byte_chars (b : N) : all_chars quoted_char (quote_byte b) = true.
Proof.
  unfold quote_byte. destruct (always_safe b) eqn:Hb; simpl.
  - unfold quoted_char. rewrite N_ascii_embedding by by apply always_safe_small.
    by rewrite Hb, orb_true_r.
  - by rewrite !hex_digit_safe.
Qed.

Lemma quote_chars (s : string) : all_chars quoted_char (quote s) = true.
Proof.
  induction s as [|c s IH]; [done|]. simpl.
  unfold utf8. destruct (N_of_ascii c <? 128)%N; simpl;
    by rewrite !all_chars_app, !quote_byte_chars, IH.
Qed.

(** C9. [get_branch] with [project_id = 123] and the branch
    [feature/test-branch] sends its one request to
    [.../api/v4/projects/123/repository/branches/feature%2Ftest-branch].
    For every accepted [project_id] and branch name the request path ends
    in the stripped branch name as [quote(_, safe='')] encodes it; the
    encoded name consists of percent signs and of letters, digits and
    [_.-~] only, so no slash occurs in it; a character below 128 outside
    that set is replaced by its percent escape, and a character of the set
    stays. *)
Theorem get_branch_encodes_branch_name (int_of_str : string → option Z) :
  (∀ include_fields w tr config,
     get_gitlab_config (environ w) = inr config →
     ∃ result request,
       get_branch int_of_str (AInt 123) (AStr "feature/test-branch")
         include_fields w tr = (result, tr ++ [request])
       ∧ req_method request = "GET"
       ∧ req_url request
         = base_url config
           +:+ "/api/v4/projects/123/repository/branches/feature%2Ftest-branch")
  ∧ (∀ project_id id branch name include_fields w tr config,
       validate_project_id int_of_str project_id = inr id →
       validate_branch_name branch = inr name →
       get_gitlab_config (environ w) = inr config →
       ∃ result request,
         get_branch int_of_str project_id branch include_fields w tr
         = (result, tr ++ [request])
         ∧ req_method request = "GET"
         ∧ req_url request
           = base_url config +:+ "/api/v4/projects/" +:+ py_str id
             +:+ "/repository/branches/" +:+ encode_branch_name name)
  ∧ (∀ name, all_chars quoted_char (encode_branch_name name) = true)
  ∧ (∀ name, ¬ occurs_in "/" (encode_branch_name name))
  ∧ (∀ c name, (N_of_ascii c < 128)%N → always_safe (N_of_ascii c) = false →
       encode_branch_name (String c name)
       = percent (N_of_ascii c) +:+ encode_branch_name name)
  ∧ (∀ c name, always_safe (N_of_ascii c) = true →
       encode_branch_name (String c name) = String c (encode_branch_name name)).
Proof.
  assert (∀ project_id id branch name include_fields w tr config,
    validate_project_id int_of_str project_id = inr id →
    validate_branch_name branch = inr name →
    get_gitlab_config (environ w) = inr config →
    ∃ result request,
      get_branch int_of_str project_id branch include_fields w tr
      = (result, tr ++ [request])
      ∧ req_method request = "GET"
      ∧ req_url request
        = base_url config +:+ "/api/v4/projects/" +:+ py_str id
          +:+ "/repository/branches/" +:+ encode_branch_name name) as Hgeneral.
  { intros project_id id branch name include_fields w tr config Hid Hname Hconfig.
    destruct (make_request_sends "GET"
                ("projects/" +:+ py_str id +:+ "/repository/branches/"
                   +:+ encode_branch_name name) None None w tr config Hconfig)
      as (result & request & Hsend & Hmethod & Hurl & _).
    unfold get_branch, handle_gitlab_errors.
    rewrite bind_lift, Hid, bind_lift, Hname.
    unfold mbind at 1, tool_bind at 1. rewrite Hsend.
    destruct result; eexists _, request; (split_and!; [reflexivity|done|exact Hurl]). }
  split_and!.
  - intros include_fields w tr config Hconfig.
    apply (Hgeneral (AInt 123) (AInt 123) (AStr "feature/test-branch")
             "feature/test-branch" include_fields w tr config); done.
  - exact Hgeneral.
  - intros name. apply quote_chars.
  - intros name.
    apply (all_chars_no_occurrence quoted_char _ "/"%char); [apply quote_chars|done].
  - intros c name Hc Hsafe. unfold encode_branch_name. simpl. unfold utf8.
    apply N.ltb_lt in Hc. rewrite Hc. simpl. unfold quote_byte. by rewrite Hsafe.
  - intros c name Hsafe. unfold encode_branch_name. simpl. unfold utf8.
    assert ((N_of_ascii c <? 128)%N = true) as ->.
    { apply N.ltb_lt. revert Hsafe. unfold always_safe.
      rewrite !orb_true_iff, !andb_true_iff, !N.leb_le, !N.eqb_eq. lia. }
    simpl. unfold quote_byte. by rewrite Hsafe, ascii_N_embedding.
Qed.

(** C9 at the demo world, and at a branch name with a space around it and
    a hash sign in it. *)
Lemma get_branch_encodes_branch_name_witness :
  (∃ result request,
     get_branch int_of_decimal (AInt 123) (AStr "feature/test-branch") None
       demo_world [] = (result, [request])
     ∧ req_method request = "GET"
     ∧ req_url request
       = "https://gitlab.com/api/v4/projects/123/repository/branches/feature%2Ftest-branch")
  ∧ (∃ result request,
       get_branch int_of_decimal (AStr "42") (AStr " fix/#7 ") None
         demo_world [] = (result, [request])
       ∧ req_method request = "GET"
       ∧ req_url request
         = "https://gitlab.com/api/v4/projects/42/repository/branches/fix%2F%237").
Proof.
  pose proof (get_branch_encodes_branch_name int_of_decimal) as (Hfixed & Hany & _).
  split.
  - apply (Hfixed None demo_world []
             {| base_url := "https://gitlab.com"; token := "glpat-demo";
                verify_ssl := true |}). reflexivity.
  - apply (Hany (AStr "42") (AInt 42) (AStr " fix/#7 ") "fix/#7" None demo_world []
             {| base_url := "https://gitlab.com"; token := "glpat-demo";
                verify_ssl := true |}); reflexivity.
Defined.

(* ===================================================================== *)
(** * The decorator and the request executor: further properties *)
(* ===================================================================== *)

Lemma bind_run {A B} (m : Tool A) (k : A → Tool B) (w : World) (tr : list Request) :
  (m ≫= k) w tr = match m w tr with
                  | (inl e, tr') => (inl e, tr')
                  | (inr a, tr') => k a w tr'
                  end.
Proof. reflexivity. Qed.

(** [make_request] in one step. *)
Lemma make_request_run (method endpoint : string)
    (params : option (gmap string json)) (body : option json)
    (w : World) (tr : list Request) :
  make_request method endpoint params body w tr
  = match get_gitlab_config (environ w) with
    | inl e => (inl e, tr)
    | inr config =>
        (outcome_result (remote w (build_request config method endpoint params body)),
         tr ++ [build_request config method endpoint params body])
    end.
Proof.
  unfold make_request, mbind, tool_bind, read_environ, lift, client_request.
  destruct (get_gitlab_config (environ w)) as [e|config]; [done|].
  fold (build_request config method endpoint params body).
  unfold outcome_result.
  destruct (remote w _) as [r|m|m|m]; try done.
  unfold raise_for_status, response_json, raise, mret, tool_ret.
  by destruct ((200 <=? status_code r) && (status_code r <=? 299)), (json_body r).
Qed.

(** X2. For a fault that is not an HTTP status fault the [details] of the
    Error Record is the fault's own text, and the record has exactly the
    five keys of an Error Record. *)
Theorem on_fault_details_fault_text (e : Fault) :
  (∀ m r, e ≠ HTTPStatusError m r) →
  on_fault e !! "details" = Some (JStr (fault_str e))
  ∧ dom (on_fault e) = ERROR_KEYS.
Proof.
  intros Hnot. destruct e as [m r|m|m|m|m]; [by destruct (Hnot m r)|..]; simpl.
  - by destruct (error_record_shape "ConnectionError" (JStr "Failed to connect to GitLab")
      (JStr m) (JStr ("Check your network connection and GITLAB_URL setting. "
        +:+ "Verify the GitLab instance is accessible."))) as (? & _ & _ & ?).
  - by destruct (error_record_shape "TimeoutError" (JStr "Request timeout")
      (JStr m) (JStr ("The GitLab instance is slow or unreachable. "
        +:+ "Try again later or increase the timeout."))) as (? & _ & _ & ?).
  - by destruct (error_record_shape "ValidationError" (JStr "Invalid input")
      (JStr m) (JStr "Check the input parameters and try again.")) as (? & _ & _ & ?).
  - by destruct (error_record_shape "UnexpectedError" (JStr "An unexpected error occurred")
      (JStr m) (JStr "Please report this error with the details above."))
      as (? & _ & _ & ?).
Qed.

(** X2 at a timeout. *)
Lemma on_fault_details_fault_text_witness :
  on_fault (TimeoutException "timed out") !! "details" = Some (JStr "timed out")
  ∧ dom (on_fault (TimeoutException "timed out")) = ERROR_KEYS.
Proof. apply on_fault_details_fault_text. intros m r. discriminate. Defined.

(** X3. [make_request] sends nothing when the configuration does not
    resolve, and raises the configuration fault.  Otherwise it sends
    exactly one request, with the given method, query and body, to
    [base_url/api/v4/endpoint], with the token in the [PRIVATE-TOKEN]
    header and the resolved verification flag; it returns the decoded
    body exactly when the answer is a 2xx whose body decodes, raises a
    [ValueError] on a 2xx whose body does not decode, an
    [HTTPStatusError] carrying the response on any other status, and
    the transport's fault when no answer comes. *)
Theorem make_request_one_request (method endpoint : string)
    (params : option (gmap string json)) (body : option json)
    (w : World) (tr : list Request) :
  (∀ e, get_gitlab_config (environ w) = inl e →
        make_request method endpoint params body w tr = (inl e, tr))
  ∧ (∀ config, get_gitlab_config (environ w) = inr config →
       ∃ result request,
         make_request method endpoint params body w tr = (result, tr ++ [request])
         ∧ req_method request = method
         ∧ req_url request = base_url config +:+ "/api/v4/" +:+ endpoint
         ∧ req_params request = params
         ∧ req_json request = body
         ∧ req_headers request !! "PRIVATE-TOKEN" = Some (token config)
         ∧ req_verify request = verify_ssl config
         ∧ (∀ v, result = inr v
                 ↔ ∃ r, remote w request = Responded r
                        ∧ 200 ≤ status_code r ≤ 299 ∧ json_body r = inr v)
         ∧ (∀ r m, remote w request = Responded r →
                   200 ≤ status_code r ≤ 299 → json_body r = inl m →
                   result = inl (ValueError m))
         ∧ (∀ r, remote w request = Responded r →
                 ¬ (200 ≤ status_code r ≤ 299) →
                 result = inl (HTTPStatusError (status_error r) r))
         ∧ (∀ m, remote w request = ConnectFailed m → result = inl (ConnectError m))
         ∧ (∀ m, remote w request = TimedOut m → result = inl (TimeoutException m))).
Proof.
  split.
  - intros e He. by rewrite make_request_run, He.
  - intros config Hconfig. rewrite make_request_run, Hconfig.
    eexists _, _. split; [reflexivity|].
    split_and!; try reflexivity.
    + intros v. unfold outcome_result.
      destruct (remote w _) as [r|m|m|m]; try (split; [done|by intros (? & ? & _)]).
      destruct (Z.leb_spec 200 (status_code r)), (Z.leb_spec (status_code r) 299);
        simpl; try (split; [done|intros (r' & [= <-] & ? & _); lia]).
      destruct (json_body r) as [m|v'] eqn:Hbody.
      * split; [done|]. intros (r' & [= <-] & _ & Hv). congruence.
      * split; [intros [= <-]; eauto|]. intros (r' & [= <-] & _ & Hv). congruence.
    + intros r m -> [? ?] Hbody. unfold outcome_result.
      rewrite Hbody. by rewrite (proj2 (Z.leb_le _ _)), (proj2 (Z.leb_le _ _)).
    + intros r -> Hstatus. unfold outcome_result.
      destruct (Z.leb_spec 200 (status_code r)), (Z.leb_spec (status_code r) 299);
        simpl; try done. lia.
    + by intros m ->.
    + by intros m ->.
Qed.

(** X3 in the demo world. *)
Lemma make_request_one_request_witness :
  ∃ request,
    make_request "GET" "version" None None demo_world [] = (inr (JDict ∅), [request])
    ∧ req_url request = "https://gitlab.com/api/v4/version".
Proof.
  destruct (proj2 (make_request_one_request "GET" "version" None None demo_world [])
              {| base_url := "https://gitlab.com"; token := "glpat-demo";
                 verify_ssl := true |} eq_refl)
    as (result & request & Hrun & _ & Hurl & _ & _ & _ & _ & Hok & _).
  exists request. split; [|exact Hurl].
  rewrite Hrun. f_equal. apply (proj2 (Hok (JDict ∅))). eexists.
  split; [reflexivity|]. split; [simpl; lia|reflexivity].
Defined.

(** What a resolved configuration is made of. *)
Lemma get_gitlab_config_inr (environ : gmap string string) (config : Config) :
  get_gitlab_config environ = inr config →
  ∃ tok,
    environ !! "GITLAB_TOKEN" = Some tok ∧ tok ≠ ""
    ∧ token config = tok
    ∧ base_url config
      = Str.rstrip_char "/" (default "https://gitlab.com" (environ !! "GITLAB_URL"))
    ∧ (Str.startswith (default "https://gitlab.com" (environ !! "GITLAB_URL")) "http://"
       || Str.startswith (default "https://gitlab.com" (environ !! "GITLAB_URL")) "https://")
      = true.
Proof.
  unfold get_gitlab_config.
  destruct (environ !! "GITLAB_TOKEN") as [[|c tok]|]; [done| |done].
  destruct (Str.startswith _ "http://"), (Str.startswith _ "https://");
    simpl; intros [= <-]; by eexists.
Qed.

Lemma rstrip_with_empty (p : ascii → bool) (s : string) :
  Str.rstrip_with p s = "" ↔ all_chars p s = true.
Proof.
  induction s as [|c s IH]; simpl; [done|].
  destruct (Str.rstrip_with p s) as [|c' r].
  - destruct (p c); simpl; [by rewrite <- IH|]. split; [done|]. done.
  - rewrite andb_true_iff, <- IH. split; [done|]. by intros [_ ?].
Qed.

Lemma rstrip_with_app (p : ascii → bool) (s t : string) :
  Str.rstrip_with p (s +:+ t)
  = if all_chars p t then Str.rstrip_with p s else s +:+ Str.rstrip_with p t.
Proof.
  induction s as [|c s IH].
  - change ("" +:+ t) with t. change ("" +:+ Str.rstrip_with p t) with (Str.rstrip_with p t).
    destruct (all_chars p t) eqn:Ht; [|done]. by apply rstrip_with_empty.
  - rewrite app_cons. simpl. rewrite IH.
    destruct (all_chars p t) eqn:Ht; [done|].
    rewrite app_cons.
    destruct (s +:+ Str.rstrip_with p t) as [|c' r] eqn:Hr; [|done].
    destruct s; [|done]. change ("" +:+ Str.rstrip_with p t) with (Str.rstrip_with p t) in Hr.
    apply rstrip_with_empty in Hr. congruence.
Qed.

(** X4. A request goes to the configured URL without its trailing
    slashes, followed by [/api/v4/] and the endpoint: the configured URL
    is the base of the request URL followed by slashes only, and that base
    does not end in a slash. *)
Theorem make_request_url (method endpoint : string)
    (params : option (gmap string json)) (body : option json)
    (w : World) (tr tr' : list Request) (result : Fault + json) (request : Request) :
  make_request method endpoint params body w tr = (result, tr') →
  request ∈ tr' → request ∉ tr →
  ∃ base n,
    req_url request = base +:+ "/api/v4/" +:+ endpoint
    ∧ default "https://gitlab.com" (environ w !! "GITLAB_URL") = base +:+ slashes n
    ∧ (∀ r, base ≠ r +:+ "/").
Proof.
  rewrite make_request_run.
  destruct (get_gitlab_config (environ w)) as [e|config] eqn:Hconfig.
  { intros [= _ <-] Hin Hnot. done. }
  intros [= _ <-] Hin Hnot.
  apply elem_of_app in Hin as [Hin|Hin]; [done|].
  apply list_elem_of_singleton in Hin as ->.
  destruct (get_gitlab_config_inr _ _ Hconfig) as (tok & _ & _ & _ & Hbase & _).
  destruct (rstrip_with_decompose (λ c, bool_decide (c = "/"%char))
              (default "https://gitlab.com" (environ w !! "GITLAB_URL")))
    as (t & Hurl & Ht).
  destruct (all_slashes t Ht) as [n ->].
  exists (base_url config), n. split_and!.
  - reflexivity.
  - rewrite Hbase. exact Hurl.
  - intros r Hr. rewrite Hbase in Hr. unfold Str.rstrip_char in Hr.
    apply rstrip_with_last in Hr. by rewrite bool_decide_eq_false in Hr.
Qed.

(** X4 at a configured URL with three trailing slashes. *)
Lemma make_request_url_witness :
  ∃ base n,
    req_url (build_request
               {| base_url := "https://gitlab.example.org"; token := "glpat-demo";
                  verify_ssl := true |} "GET" "user" None None)
    = base +:+ "/api/v4/" +:+ "user"
    ∧ "https://gitlab.example.org///" = base +:+ slashes n
    ∧ (∀ r, base ≠ r +:+ "/").
Proof.
  apply (make_request_url "GET" "user" None None
           {| environ := demo_environ; remote := remote demo_world |} []
           [build_request
              {| base_url := "https://gitlab.example.org"; token := "glpat-demo";
                 verify_ssl := true |} "GET" "user" None None]
           (inr (JDict ∅))).
  - reflexivity.
  - apply list_elem_of_singleton. reflexivity.
  - apply not_elem_of_nil.
Defined.

(** X5. The scheme test sees the URL before the slashes are stripped.  A
    URL that has anything but slashes after its scheme keeps the scheme in
    the resolved base; a URL that is the scheme alone, or the scheme and
    slashes, resolves as well, and its base is the scheme without its two
    slashes, [http:] or [https:]. *)
Theorem get_gitlab_config_scheme (environ : gmap string string) (config : Config)
    (scheme rest : string) :
  get_gitlab_config environ = inr config →
  scheme = "http:" ∨ scheme = "https:" →
  default "https://gitlab.com" (environ !! "GITLAB_URL") = scheme +:+ "//" +:+ rest →
  (all_chars (λ c, bool_decide (c = "/"%char)) rest = true → base_url config = scheme)
  ∧ (all_chars (λ c, bool_decide (c = "/"%char)) rest = false →
       base_url config
       = scheme +:+ "//" +:+ Str.rstrip_with (λ c, bool_decide (c = "/"%char)) rest
       ∧ Str.rstrip_with (λ c, bool_decide (c = "/"%char)) rest ≠ "").
Proof.
  intros Hconfig Hscheme Hurl.
  destruct (get_gitlab_config_inr _ _ Hconfig) as (tok & _ & _ & _ & -> & _).
  rewrite Hurl. unfold Str.rstrip_char.
  rewrite <- app_assoc_str, rstrip_with_app. split.
  - intros ->. rewrite rstrip_with_app. by destruct Hscheme as [-> | ->].
  - intros Hrest. rewrite Hrest. rewrite app_assoc_str. split; [done|].
    intros Hempty%rstrip_with_empty. congruence.
Qed.

(** X5 at [GITLAB_URL=https://]. *)
Lemma get_gitlab_config_scheme_witness :
  ∃ config,
    get_gitlab_config {[ "GITLAB_TOKEN" := "glpat-demo"; "GITLAB_URL" := "https://" ]}
    = inr config
    ∧ base_url config = "https:".
Proof.
  eexists. split; [vm_compute; reflexivity|].
  eapply (get_gitlab_config_scheme
            {[ "GITLAB_TOKEN" := "glpat-demo"; "GITLAB_URL" := "https://" ]}
            _ "https:" "").
  - vm_compute. reflexivity.
  - by right.
  - reflexivity.
  - reflexivity.
Defined.

(* ===================================================================== *)
(** * The other validators: properties *)
(* ===================================================================== *)

Lemma coerce_int_is_int (int_of_str : string → option Z) (x y : pyarg) :
  coerce_int int_of_str x = Some y → is_int y = true.
Proof.
  unfold coerce_int. destruct x; simpl; try done; try by intros [= <-].
  destruct (int_of_str s); simpl; [by intros [= <-]|done].
Qed.

(** [validate_pagination] by its two coercions. *)
Lemma validate_pagination_run (int_of_str : string → option Z) (page per_page : pyarg) :
  validate_pagination int_of_str page per_page
  = match coerce_int int_of_str page with
    | None => inl (ValueError ("page must be an integer, got "
                     +:+ type_name page +:+ ": " +:+ py_str page))
    | Some p =>
        if bool_decide (int_value p < 1) then
          inl (ValueError ("page must be >= 1, got: " +:+ py_str p))
        else
          match coerce_int int_of_str per_page with
          | None => inl (ValueError ("per_page must be an integer, got "
                           +:+ type_name per_page +:+ ": " +:+ py_str per_page))
          | Some q =>
              if bool_decide (int_value q < 1) then
                inl (ValueError ("per_page must be >= 1, got: " +:+ py_str q))
              else if bool_decide (int_value q > 100) then
                inl (ValueError ("per_page must be <= 100, got: " +:+ py_str q))
              else inr (p, q)
          end
    end.
Proof.
  unfold validate_pagination, coerce_int.
  destruct (is_float page); [done|].
  destruct (is_int page); simpl;
    [|destruct (py_int int_of_str page); [|done]];
    (case_bool_decide; [done|]);
    (destruct (is_float per_page); [done|]);
    by destruct (is_int per_page).
Qed.

(** X6. Whatever [validate_pagination] accepts is in range: both results
    are [int] instances, the page is at least 1 and the page size is
    between 1 and 100.  On integers it accepts exactly that range and
    returns the pair unchanged, and strings that [int()] parses into the
    range are returned as the parsed integers. *)
Theorem validate_pagination_range (int_of_str : string → option Z) :
  (∀ page per_page p q,
     validate_pagination int_of_str page per_page = inr (p, q) →
     is_int p = true ∧ is_int q = true
     ∧ 1 ≤ int_value p ∧ 1 ≤ int_value q ≤ 100)
  ∧ (∀ a b,
       validate_pagination int_of_str (AInt a) (AInt b) = inr (AInt a, AInt b)
       ↔ 1 ≤ a ∧ 1 ≤ b ≤ 100)
  ∧ (∀ s t a b,
       int_of_str s = Some a → int_of_str t = Some b → 1 ≤ a → 1 ≤ b ≤ 100 →
       validate_pagination int_of_str (AStr s) (AStr t) = inr (AInt a, AInt b)).
Proof.
  split_and!.
  - intros page per_page p q. rewrite validate_pagination_run.
    destruct (coerce_int int_of_str page) as [p'|] eqn:Hp; [|done].
    case_bool_decide; [done|].
    destruct (coerce_int int_of_str per_page) as [q'|] eqn:Hq; [|done].
    repeat (case_bool_decide; [done|]). intros [= <- <-].
    apply coerce_int_is_int in Hp, Hq. split_and!; [done|done|lia..].
  - intros a b. rewrite validate_pagination_run. simpl.
    repeat case_bool_decide; split; try done; try lia.
    all: intros _; lia.
  - intros s t a b Hs Ht Ha Hb. rewrite validate_pagination_run.
    unfold coerce_int. simpl. rewrite Hs, Ht. simpl.
    by rewrite !bool_decide_eq_false_2 by lia.
Qed.

(** X6 at the defaults of the list tools, and at a page size the
    validator accepted. *)
Lemma validate_pagination_range_witness :
  validate_pagination int_of_decimal (AStr "1") (AStr "20") = inr (AInt 1, AInt 20)
  ∧ 1 ≤ int_value (AInt 20) ≤ 100.
Proof.
  pose proof (validate_pagination_range int_of_decimal) as (Hsound & _ & Hstr).
  assert (validate_pagination int_of_decimal (AStr "1") (AStr "20")
          = inr (AInt 1, AInt 20)) as Hrun.
  { apply Hstr; [reflexivity|reflexivity|lia|lia]. }
  split; [exact Hrun|].
  apply (Hsound (AStr "1") (AStr "20") (AInt 1) (AInt 20) Hrun).
Defined.

(** X7. The page is checked before the page size: a page that is refused
    next to a good page size is refused with the same fault next to any
    page size.  Each bound has its own message, with the refused value:
    a page below 1, a page size below 1, a page size above 100. *)
Theorem validate_pagination_first_fault (int_of_str : string → option Z) :
  (∀ page e,
     validate_pagination int_of_str page (AInt 20) = inl e →
     ∀ per_page, validate_pagination int_of_str page per_page = inl e)
  ∧ (∀ a b, a < 1 →
       validate_pagination int_of_str (AInt a) (AInt b)
       = inl (ValueError ("page must be >= 1, got: " +:+ Str.of_int a)))
  ∧ (∀ a b, 1 ≤ a → b < 1 →
       validate_pagination int_of_str (AInt a) (AInt b)
       = inl (ValueError ("per_page must be >= 1, got: " +:+ Str.of_int b)))
  ∧ (∀ a b, 1 ≤ a → 100 < b →
       validate_pagination int_of_str (AInt a) (AInt b)
       = inl (ValueError ("per_page must be <= 100, got: " +:+ Str.of_int b))).
Proof.
  split_and!.
  - intros page e He per_page. rewrite validate_pagination_run in *.
    destruct (coerce_int int_of_str page) as [p|]; [|done].
    case_bool_decide; [done|]. exfalso. unfold coerce_int in He. simpl in He.
    repeat case_bool_decide; first [done | simpl in *; lia].
  - intros a b Ha. rewrite validate_pagination_run. simpl.
    by rewrite bool_decide_eq_true_2.
  - intros a b Ha Hb. rewrite validate_pagination_run. simpl.
    rewrite bool_decide_eq_false_2 by lia. by rewrite bool_decide_eq_true_2.
  - intros a b Ha Hb. rewrite validate_pagination_run. simpl.
    rewrite !bool_decide_eq_false_2 by lia. by rewrite bool_decide_eq_true_2 by lia.
Qed.

(** X7 at page 0 with page size 500: the page is the fault reported. *)
Lemma validate_pagination_first_fault_witness :
  validate_pagination int_of_decimal (AInt 0) (AInt 500)
  = inl (ValueError "page must be >= 1, got: 0")
  ∧ validate_pagination int_of_decimal (AInt 1) (AInt 500)
    = inl (ValueError "per_page must be <= 100, got: 500").
Proof.
  pose proof (validate_pagination_first_fault int_of_decimal) as (Hfirst & _ & _ & Hbig).
  split.
  - apply (Hfirst (AInt 0) (ValueError "page must be >= 1, got: 0")). reflexivity.
  - apply (Hbig 1 500); lia.
Defined.

(** X8. The four identifier validators are one function up to the
    parameter name in their messages: [validate_project_id],
    [validate_group_id] and [validate_user_id] are [validate_iid] under
    the names [project_id], [group_id] and [user_id], so they accept the
    same values and return the same results. *)
Theorem id_validators_agree (int_of_str : string → option Z) (x : pyarg) :
  validate_project_id int_of_str x = validate_iid int_of_str x "project_id"
  ∧ validate_group_id int_of_str x = validate_iid int_of_str x "group_id"
  ∧ validate_user_id int_of_str x = validate_iid int_of_str x "user_id"
  ∧ (∀ p q y, validate_iid int_of_str x p = inr y ↔ validate_iid int_of_str x q = inr y).
Proof.
  split_and!; try reflexivity.
  intros p q y. unfold validate_iid.
  destruct (is_float x); [done|].
  destruct (if negb (is_int x) then py_int int_of_str x else Some x); [|done].
  by case_bool_decide.
Qed.

(** X9. [validate_access_level] accepts nothing but the five levels: an
    accepted value is an [int] instance equal to 10, 20, 30, 40 or 50; an
    integer is accepted exactly when it is one of the five, and returned
    unchanged; a string that [int()] parses to one of the five is accepted
    as that integer; and no [bool] is accepted, [True] being 1. *)
Theorem validate_access_level_levels (int_of_str : string → option Z) :
  (∀ x y, validate_access_level int_of_str x = inr y →
          is_int y = true ∧ int_value y ∈ [10; 20; 30; 40; 50])
  ∧ (∀ n, validate_access_level int_of_str (AInt n) = inr (AInt n)
          ↔ n ∈ [10; 20; 30; 40; 50])
  ∧ (∀ s n, int_of_str s = Some n → n ∈ [10; 20; 30; 40; 50] →
            validate_access_level int_of_str (AStr s) = inr (AInt n))
  ∧ (∀ b, ∃ msg, validate_access_level int_of_str (ABool b) = inl (ValueError msg)).
Proof.
  split_and!.
  - intros x y. unfold validate_access_level.
    destruct (is_float x) eqn:Hf; [done|].
    destruct (if negb (is_int x) then py_int int_of_str x else Some x)
      as [x'|] eqn:Hx; [|done].
    case_bool_decide as Hin; [done|]. intros [= <-].
    split; [|exact Hin].
    apply (coerce_int_is_int int_of_str x). unfold coerce_int. rewrite Hf.
    by destruct (is_int x).
  - intros n. unfold validate_access_level. simpl.
    case_bool_decide as Hin; by split.
  - intros s n Hs Hn. unfold validate_access_level. simpl. rewrite Hs. simpl.
    by rewrite bool_decide_eq_false_2 by (by intros ?).
  - intros b. unfold validate_access_level. simpl.
    rewrite bool_decide_eq_true_2; [by eexists|].
    destruct b; unfold VALID_ACCESS_LEVELS; rewrite !not_elem_of_cons;
      split_and!; try done; apply not_elem_of_nil.
Qed.

(** X9 at the default level of [add_group_member]. *)
Lemma validate_access_level_levels_witness :
  validate_access_level int_of_decimal (AStr "30") = inr (AInt 30)
  ∧ int_value (AInt 30) ∈ [10; 20; 30; 40; 50].
Proof.
  pose proof (validate_access_level_levels int_of_decimal) as (Hsound & _ & Hstr & _).
  assert (validate_access_level int_of_decimal (AStr "30") = inr (AInt 30)) as Hrun.
  { apply Hstr; [reflexivity|]. do 2 right. left. }
  split; [exact Hrun|]. apply (Hsound (AStr "30") (AInt 30) Hrun).
Defined.

Lemma lstrip_with_head (p : ascii → bool) (s r : string) (c : ascii) :
  Str.lstrip_with p s = String c r → p c = false.
Proof.
  induction s as [|a s IH]; simpl; [done|].
  destruct (p a) eqn:Ha; [done|]. by intros [= <- _].
Qed.

Lemma lstrip_with_fixed (p : ascii → bool) (s : string) :
  (∀ c r, s = String c r → p c = false) → Str.lstrip_with p s = s.
Proof. destruct s as [|c r]; simpl; [done|]. intros H. by rewrite (H c r). Qed.

Lemma rstrip_with_fixed (p : ascii → bool) (s : string) :
  (∀ r c, s = r +:+ String c "" → p c = false) → Str.rstrip_with p s = s.
Proof.
  induction s as [|a s IH]; simpl; [done|]. intros H.
  rewrite IH.
  - destruct s as [|b s]; [|done]. by rewrite (H "" a).
  - intros r c ->. apply (H (String a r) c). by rewrite app_cons.
Qed.

Lemma rstrip_with_idemp (p : ascii → bool) (s : string) :
  Str.rstrip_with p (Str.rstrip_with p s) = Str.rstrip_with p s.
Proof. apply rstrip_with_fixed. intros r c. apply rstrip_with_last. Qed.

Lemma rstrip_with_head (p : ascii → bool) (s r : string) (c : ascii) :
  Str.rstrip_with p s = String c r → ∃ r', s = String c r'.
Proof.
  destruct s as [|a s]; simpl; [done|].
  destruct (Str.rstrip_with p s); [destruct (p a)|]; intros [= <- _]; eauto.
Qed.

(** A stripped string has no white space at either end, and stripping it
    again changes nothing. *)
Lemma strip_ends (s : string) :
  (∀ c r, Str.strip s = String c r → Str.isspace c = false)
  ∧ (∀ r c, Str.strip s = r +:+ String c "" → Str.isspace c = false)
  ∧ Str.strip (Str.strip s) = Str.strip s.
Proof.
  assert (∀ c r, Str.strip s = String c r → Str.isspace c = false) as Hhead.
  { unfold Str.strip. intros c r Hs.
    destruct (rstrip_with_head _ _ _ _ Hs) as [r' Hl].
    by apply lstrip_with_head in Hl. }
  split_and!; [done|..].
  - intros r c. apply rstrip_with_last.
  - unfold Str.strip at 1. rewrite (lstrip_with_fixed _ _ Hhead).
    apply rstrip_with_idemp.
Qed.

(** X10. What [validate_non_empty_string] accepts is a string, and what it
    returns is that string stripped: not empty, with no white space at
    either end, and accepted again unchanged under any parameter name.
    [validate_branch_name] accepts the same values with the same results. *)
Theorem validate_non_empty_string_stripped (value : pyarg) (param_name : string)
    (result : string) :
  validate_non_empty_string value param_name = inr result →
  (∃ s, value = AStr s ∧ result = Str.strip s)
  ∧ result ≠ ""
  ∧ (∀ c r, result = String c r → Str.isspace c = false)
  ∧ (∀ r c, result = r +:+ String c "" → Str.isspace c = false)
  ∧ (∀ name, validate_non_empty_string (AStr result) name = inr result)
  ∧ validate_branch_name value = inr result.
Proof.
  unfold validate_non_empty_string, validate_branch_name.
  destruct value as [| | | |s]; try done.
  case_bool_decide as Hempty; [done|]. intros [= <-].
  destruct (strip_ends s) as (Hhead & Hlast & Hidemp).
  split_and!; eauto.
  intros name. rewrite Hidemp. by rewrite bool_decide_eq_false_2.
Qed.

(** X10 at a name with blanks around it. *)
Lemma validate_non_empty_string_stripped_witness :
  validate_non_empty_string (AStr "  bug report ") "title" = inr "bug report"
  ∧ validate_non_empty_string (AStr "bug report") "name" = inr "bug report"
  ∧ validate_branch_name (AStr "  bug report ") = inr "bug report".
Proof.
  assert (validate_non_empty_string (AStr "  bug report ") "title" = inr "bug report")
    as Hrun by reflexivity.
  destruct (validate_non_empty_string_stripped _ _ _ Hrun)
    as (_ & _ & _ & _ & Hagain & Hbranch).
  split_and!; [exact Hrun|apply Hagain|exact Hbranch].
Defined.

(* ===================================================================== *)
(** * Field filtering: further properties *)
(* ===================================================================== *)

Lemma filter_object_submap (field_set : gset string) (o : json) :
  match o with
  | JDict d => ∃ d', filter_object field_set o = JDict d' ∧ d' ⊆ d
  | _ => filter_object field_set o = o
  end.
Proof.
  destruct o; simpl; try done. eexists. split; [done|]. apply map_filter_subseteq.
Qed.

(** X11. Filtering never adds or changes an entry.  A record comes back
    as a record whose entries are entries of the input, values untouched
    whatever is nested in them; a list comes back with the same length,
    each record in it so restricted and any other item as it was; any
    other value comes back as it was.  This holds for every
    [include_fields] and resource type. *)
Theorem filter_fields_submap
    (data : json) (include_fields : fields_arg) (resource_type : option string) :
  match data with
  | JDict d =>
      ∃ d', filter_fields data include_fields resource_type = JDict d' ∧ d' ⊆ d
  | JList items =>
      ∃ items',
        filter_fields data include_fields resource_type = JList items'
        ∧ Forall2 (λ o o', match o with
                           | JDict d => ∃ d', o' = JDict d' ∧ d' ⊆ d
                           | _ => o' = o
                           end) items items'
  | _ => filter_fields data include_fields resource_type = data
  end.
Proof.
  destruct (filter_fields_cases include_fields resource_type) as [Hid|[fields Hf]].
  - rewrite Hid. destruct data; try done.
    + eexists. split; [done|]. apply Forall_Forall2_diag, Forall_forall.
      intros o _. destruct o; try done. by eexists.
    + by eexists.
  - rewrite Hf. destruct data; simpl; try done.
    + eexists. split; [done|].
      apply Forall2_fmap_r, Forall_Forall2_diag, Forall_forall. intros o _.
      pose proof (filter_object_submap (list_to_set fields) o) as Ho.
      destruct o; try done.
    + eexists. split; [done|]. apply map_filter_subseteq.
Qed.

Lemma apply_fields_ext (l1 l2 : list string) (data : json) :
  (∀ x, x ∈ l1 ↔ x ∈ l2) → apply_fields l1 data = apply_fields l2 data.
Proof.
  intros Hsame.
  assert (list_to_set l1 =@{gset string} list_to_set l2) as Hset.
  { apply set_eq. intros x. by rewrite !elem_of_list_to_set. }
  unfold apply_fields. by rewrite Hset.
Qed.

Lemma filter_fields_list (data : json) (l : list string) (resource_type : option string) :
  filter_fields data (FList l) resource_type = apply_fields l data.
Proof. unfold filter_fields. simpl. by destruct data. Qed.

(** X12. An explicit [include_fields] is used as a set and overrides the
    resource type: two lists with the same members filter alike, whatever
    their order and repetitions and whatever the resource type.  A string
    other than [all] filters as the list of its comma-separated parts,
    stripped; the string [all] returns the data as it is; and the empty
    list is a filter too, one that empties every record. *)
Theorem filter_fields_include_as_set (data : json) :
  (∀ l1 l2 rt1 rt2,
     (∀ x, x ∈ l1 ↔ x ∈ l2) →
     filter_fields data (FList l1) rt1 = filter_fields data (FList l2) rt2)
  ∧ (∀ s rt1 rt2,
       s ≠ "all" →
       filter_fields data (FStr s) rt1
       = filter_fields data (FList (Str.strip <$> Str.split "," s)) rt2)
  ∧ (∀ rt, filter_fields data (FStr "all") rt = data)
  ∧ (∀ (d : gmap string json) rt, filter_fields (JDict d) (FList []) rt = JDict ∅).
Proof.
  split_and!.
  - intros l1 l2 rt1 rt2 Hsame. rewrite !filter_fields_list. by apply apply_fields_ext.
  - intros s rt1 rt2 Hs. rewrite filter_fields_list. unfold filter_fields.
    rewrite bool_decide_eq_false_2 by congruence. simpl. by destruct data.
  - done.
  - intros d rt. rewrite filter_fields_list. simpl. f_equal.
    apply map_empty. intros k. rewrite filter_keys_lookup.
    by rewrite bool_decide_eq_false_2 by set_solver.
Qed.

(** X12 at two orders of the same names, and at a string with blanks. *)
Lemma filter_fields_include_as_set_witness :
  filter_fields (JDict {[ "id" := JInt 1; "name" := JStr "a"; "path" := JStr "p" ]})
    (FList ["name"; "id"; "name"]) (Some "issue")
  = filter_fields (JDict {[ "id" := JInt 1; "name" := JStr "a"; "path" := JStr "p" ]})
      (FList ["id"; "name"]) None
  ∧ filter_fields (JDict {[ "id" := JInt 1; "name" := JStr "a"; "path" := JStr "p" ]})
      (FStr " id , name") None
    = filter_fields (JDict {[ "id" := JInt 1; "name" := JStr "a"; "path" := JStr "p" ]})
        (FList ["id"; "name"]) None.
Proof.
  pose proof (filter_fields_include_as_set
                (JDict {[ "id" := JInt 1; "name" := JStr "a"; "path" := JStr "p" ]}))
    as (Hset & Hstr & _).
  split.
  - apply Hset. intros x. rewrite !elem_of_cons. tauto.
  - apply (Hstr " id , name" None None). discriminate.
Defined.

(** X13. Two explicit filters in a row keep what both keep: filtering by
    one list and then by another is filtering by the names the two lists
    share, so the order of the two filters does not matter. *)
Theorem filter_fields_compose
    (data : json) (l1 l2 : list string) (rt1 rt2 rt3 : option string) :
  filter_fields (filter_fields data (FList l1) rt1) (FList l2) rt2
  = filter_fields data (FList (list_intersection l1 l2)) rt3
  ∧ filter_fields (filter_fields data (FList l1) rt1) (FList l2) rt2
    = filter_fields (filter_fields data (FList l2) rt2) (FList l1) rt1.
Proof.
  assert (∀ (a b : list string) (o : json),
    filter_object (list_to_set b) (filter_object (list_to_set a) o)
    = filter_object (list_to_set (list_intersection a b)) o) as Hobj.
  { intros a b o. destruct o; simpl; try done. f_equal. apply map_eq. intros k.
    rewrite !filter_keys_lookup.
    rewrite (bool_decide_ext (k ∈ list_to_set (C:=gset string) (list_intersection a b))
               (k ∈ a ∧ k ∈ b))
      by (by rewrite elem_of_list_to_set, list_elem_of_intersection).
    rewrite (bool_decide_ext (k ∈ list_to_set (C:=gset string) a) (k ∈ a))
      by apply elem_of_list_to_set.
    rewrite (bool_decide_ext (k ∈ list_to_set (C:=gset string) b) (k ∈ b))
      by apply elem_of_list_to_set.
    repeat case_bool_decide; try done; tauto. }
  assert (∀ a b, apply_fields b (apply_fields a data)
                 = apply_fields (list_intersection a b) data) as Happ.
  { intros a b. destruct data; simpl; try done.
    - f_equal. rewrite <- list_fmap_compose. apply list_fmap_ext.
      intros _ o _. apply Hobj.
    - apply (Hobj a b (JDict fields)). }
  rewrite !filter_fields_list, !Happ. split; [done|].
  apply apply_fields_ext. intros x. rewrite !list_elem_of_intersection. tauto.
Qed.

(* ===================================================================== *)
(** * Pagination: further properties *)
(* ===================================================================== *)

(** On a list and integers the call form is [paginate_response]. *)
Lemma paginate_response_call_list (items : list json) (page per_page : Z) :
  paginate_response_call (JList items) (AInt page) (AInt per_page)
  = inr (paginate_response items page per_page None).
Proof. reflexivity. Qed.

(** X14. The record [paginate_response] builds has the keys [items],
    [page], [per_page], [has_next] and [next_page], and [total] when a
    total was passed, and no other key; its [next_page] is null exactly
    when its [has_next] is false. *)
Theorem paginate_response_keys
    (items : list json) (page per_page : Z) (total : option Z) :
  let response := paginate_response items page per_page total in
  dom response
  = {[ "items"; "page"; "per_page"; "has_next"; "next_page" ]}
    ∪ match total with Some _ => {[ "total" ]} | None => ∅ end
  ∧ (response !! "next_page" = Some JNull
     ↔ response !! "has_next" = Some (JBool false)).
Proof.
  cbv zeta. unfold paginate_response. split.
  - destruct total; rewrite !dom_insert_L, dom_singleton_L; set_solver.
  - destruct total; simplify_map_eq; by case_bool_decide.
Qed.

(* ===================================================================== *)
(** * More tools: properties *)
(* ===================================================================== *)

Lemma handle_lift_bind {A} (r : Fault + A) (k : A → Tool json)
    (w : World) (tr : list Request) :
  handle_gitlab_errors (lift r ≫= k) w tr
  = match r with
    | inl e => (inr (JDict (on_fault e)), tr)
    | inr a => handle_gitlab_errors (k a) w tr
    end.
Proof. by destruct r. Qed.

Lemma handle_make_request_bind (method endpoint : string)
    (params : option (gmap string json)) (body : option json)
    (k : json → Tool json) (w : World) (tr : list Request) :
  handle_gitlab_errors (make_request method endpoint params body ≫= k) w tr
  = match get_gitlab_config (environ w) with
    | inl e => (inr (JDict (on_fault e)), tr)
    | inr config =>
        match outcome_result
                (remote w (build_request config method endpoint params body)) with
        | inl e =>
            (inr (JDict (on_fault e)),
             tr ++ [build_request config method endpoint params body])
        | inr v =>
            handle_gitlab_errors (k v) w
              (tr ++ [build_request config method endpoint params body])
        end
    end.
Proof.
  unfold handle_gitlab_errors. rewrite bind_run, make_request_run.
  destruct (get_gitlab_config (environ w)); [done|].
  by destruct (outcome_result _).
Qed.

Lemma handle_mret (v : json) (w : World) (tr : list Request) :
  handle_gitlab_errors (mret v) w tr = (inr v, tr).
Proof. reflexivity. Qed.

Lemma trace_grew {A} (tr : list A) (x : A) : tr ++ [x] ≠ tr.
Proof.
  intros H. apply (f_equal length) in H. rewrite length_app in H. simpl in H. lia.
Qed.

Lemma outcome_result_ok (r : Response) (v : json) :
  200 ≤ status_code r ≤ 299 → json_body r = inr v →
  outcome_result (Responded r) = inr v.
Proof.
  intros [? ?] Hbody. unfold outcome_result.
  by rewrite (proj2 (Z.leb_le _ _)), (proj2 (Z.leb_le _ _)), Hbody.
Qed.

Lemma validate_pagination_ints (int_of_str : string → option Z) (page per_page : Z) :
  1 ≤ page → 1 ≤ per_page ≤ 100 →
  validate_pagination int_of_str (AInt page) (AInt per_page)
  = inr (AInt page, AInt per_page).
Proof.
  intros Hpage Hper. rewrite validate_pagination_run. simpl.
  by rewrite !bool_decide_eq_false_2 by lia.
Qed.

Lemma filter_fields_list_length (items : list json) (include_fields : fields_arg)
    (resource_type : option string) :
  ∃ items', filter_fields (JList items) include_fields resource_type = JList items'
            ∧ length items' = length items.
Proof.
  destruct (filter_fields_cases include_fields resource_type) as [Hid|[fields Hf]].
  - rewrite Hid. by eexists.
  - rewrite Hf. simpl. eexists. split; [done|]. by rewrite length_fmap.
Qed.

(** X15. [list_projects] on a page and page size in range, with a
    configuration that resolves and a 2xx answer whose body is a JSON
    list: one GET goes to [projects] with [per_page], [page] and, when it
    is a non-empty string, [search] as the query, and the result is the
    pagination record of the filtered items.  Filtering keeps the number
    of items, so [has_next] is true exactly when as many items came as
    the page size; an empty answer never has a next page. *)
Theorem list_projects_page (int_of_str : string → option Z)
    (page per_page : Z) (search include_fields : option string)
    (w : World) (tr : list Request) (config : Config) (r : Response)
    (items : list json) :
  1 ≤ page → 1 ≤ per_page ≤ 100 →
  get_gitlab_config (environ w) = inr config →
  let params :=
    set_if_truthy "search" search
      {[ "per_page" := JInt per_page; "page" := JInt page ]} in
  let request := build_request config "GET" "projects" (Some params) None in
  remote w request = Responded r →
  200 ≤ status_code r ≤ 299 →
  json_body r = inr (JList items) →
  ∃ items',
    filter_fields (JList items) (include_arg include_fields) (Some "project")
    = JList items'
    ∧ length items' = length items
    ∧ list_projects int_of_str (AInt per_page) (AInt page) search include_fields w tr
      = (inr (JDict (paginate_response items' page per_page None)), tr ++ [request])
    ∧ paginate_response items' page per_page None !! "has_next"
      = Some (JBool (bool_decide (Z.of_nat (length items) = per_page)))
    ∧ (items = [] →
       paginate_response items' page per_page None !! "next_page" = Some JNull)
    ∧ params !! "search" = (if truthy search then JStr <$> search else None).
Proof.
  intros Hpage Hper Hconfig params request Hremote Hstatus Hbody.
  destruct (filter_fields_list_length items (include_arg include_fields)
              (Some "project")) as (items' & Hfilter & Hitems).
  exists items'. split_and!.
  - exact Hfilter.
  - done.
  - unfold list_projects. rewrite handle_lift_bind.
    rewrite validate_pagination_ints by done.
    cbv beta iota. unfold arg_json. rewrite handle_make_request_bind, Hconfig.
    fold params. fold request. rewrite Hremote.
    rewrite (outcome_result_ok r (JList items)) by done.
    rewrite Hfilter. by rewrite handle_lift_bind, paginate_response_call_list.
  - unfold paginate_response. simplify_map_eq. by rewrite Hitems.
  - intros ->. unfold paginate_response. simplify_map_eq.
    destruct items'; [|done]. rewrite bool_decide_eq_false_2; [done|]. simpl. lia.
  - unfold params, set_if_truthy. destruct search as [[|c s]|]; by simplify_map_eq.
Qed.

(** X15 at a page of two projects with page size 2: a next page is
    announced. *)
Lemma list_projects_page_witness :
  ∃ items' request,
    list_projects int_of_decimal (AInt 2) (AInt 1) None None projects_world []
    = (inr (JDict (paginate_response items' 1 2 None)), [request])
    ∧ paginate_response items' 1 2 None !! "has_next" = Some (JBool true).
Proof.
  destruct (list_projects_page int_of_decimal 1 2 None None projects_world []
              demo_config
              {| status_code := 200; text := "[...]";
                 json_body := inr (JList [JDict {[ "id" := JInt 1; "star_count" := JInt 5 ]};
                                          JDict {[ "id" := JInt 2; "star_count" := JInt 0 ]}]);
                 status_error := "" |}
              [JDict {[ "id" := JInt 1; "star_count" := JInt 5 ]};
               JDict {[ "id" := JInt 2; "star_count" := JInt 0 ]}])
    as (items' & _ & _ & Hrun & Hnext & _);
    [lia|lia|reflexivity|reflexivity|simpl; lia|reflexivity|].
  eexists items', _. split; [exact Hrun|exact Hnext].
Defined.

Lemma validate_pagination_inr (int_of_str : string → option Z)
    (page per_page p q : pyarg) :
  validate_pagination int_of_str page per_page = inr (p, q) →
  1 ≤ int_value p ∧ 1 ≤ int_value q ≤ 100.
Proof.
  rewrite validate_pagination_run.
  destruct (coerce_int int_of_str page); [|done]. case_bool_decide; [done|].
  destruct (coerce_int int_of_str per_page); [|done].
  repeat (case_bool_decide; [done|]). intros [= <- <-]. lia.
Qed.

Lemma validate_pagination_raises (int_of_str : string → option Z)
    (page per_page : pyarg) (e : Fault) :
  validate_pagination int_of_str page per_page = inl e → ∃ msg, e = ValueError msg.
Proof.
  rewrite validate_pagination_run. intros H.
  repeat case_match; simplify_eq; eauto.
Qed.

(** X16. [list_projects] never sends a page or page size out of range.
    When pagination is refused the result is the validation record and no
    request goes out; and any request it does send is one GET whose query
    carries the validated [page], at least 1, and [per_page], between 1
    and 100. *)
Theorem list_projects_request (int_of_str : string → option Z)
    (per_page page : pyarg) (search include_fields : option string)
    (w : World) (tr : list Request) :
  (∀ e, validate_pagination int_of_str page per_page = inl e →
        ∃ msg, e = ValueError msg
               ∧ list_projects int_of_str per_page page search include_fields w tr
                 = (inr (JDict (format_validation_error msg)), tr))
  ∧ (∀ result tr',
       list_projects int_of_str per_page page search include_fields w tr
       = (result, tr') →
       tr' ≠ tr →
       ∃ p q request params,
         validate_pagination int_of_str page per_page = inr (p, q)
         ∧ tr' = tr ++ [request]
         ∧ req_method request = "GET"
         ∧ req_params request = Some params
         ∧ params !! "page" = Some (arg_json p)
         ∧ params !! "per_page" = Some (arg_json q)
         ∧ 1 ≤ int_value p ∧ 1 ≤ int_value q ≤ 100).
Proof.
  split.
  - intros e He. destruct (validate_pagination_raises _ _ _ _ He) as [msg ->].
    exists msg. split; [done|]. unfold list_projects. by rewrite handle_lift_bind, He.
  - intros result tr'. unfold list_projects. rewrite handle_lift_bind.
    destruct (validate_pagination int_of_str page per_page) as [e|[p q]] eqn:Hv.
    { by intros [= _ <-]. }
    rewrite handle_make_request_bind.
    destruct (get_gitlab_config (environ w)) as [e|config]; [by intros [= _ <-]|].
    intros Hrun _. eexists p, q, _, _.
    split; [done|]. split.
    { destruct (outcome_result _); [by injection Hrun as _ <-|].
      rewrite handle_lift_bind in Hrun.
      destruct (paginate_response_call _ _ _); by injection Hrun as _ <-. }
    split_and!; try reflexivity.
    + unfold set_if_truthy. destruct search as [[|c s]|]; by simplify_map_eq.
    + unfold set_if_truthy. destruct search as [[|c s]|]; by simplify_map_eq.
    + destruct (validate_pagination_inr _ _ _ _ _ Hv); lia.
    + destruct (validate_pagination_inr _ _ _ _ _ Hv); lia.
    + destruct (validate_pagination_inr _ _ _ _ _ Hv); lia.
Qed.

(** X16 at page size 500 and at the defaults. *)
Lemma list_projects_request_witness :
  list_projects int_of_decimal (AInt 500) (AInt 1) None None projects_world []
  = (inr (JDict (format_validation_error "per_page must be <= 100, got: 500")), [])
  ∧ ∃ request params,
      (list_projects int_of_decimal (AInt 20) (AInt 1) None None projects_world []).2
      = [request]
      ∧ req_params request = Some params
      ∧ params !! "per_page" = Some (JInt 20).
Proof.
  pose proof (list_projects_request int_of_decimal (AInt 500) (AInt 1) None None
                projects_world []) as (Hrefused & _).
  pose proof (list_projects_request int_of_decimal (AInt 20) (AInt 1) None None
                projects_world []) as (_ & Hsent).
  split.
  - destruct (Hrefused (ValueError "per_page must be <= 100, got: 500") eq_refl)
      as (msg & [= <-] & Hrun). exact Hrun.
  - destruct (Hsent _ _ (surjective_pairing _)) as (p & q & request & params & Hv & Htr
                                                   & _ & Hparams & _ & Hper & _).
    { vm_compute. discriminate. }
    injection Hv as <- <-. eexists request, params. by split_and!.
Defined.

Lemma set_if_truthy_lookup (key k : string) (value : option string)
    (data : gmap string json) :
  set_if_truthy key value data !! k
  = if bool_decide (k = key) && truthy value then JStr <$> value else data !! k.
Proof.
  unfold set_if_truthy. destruct value as [[|c s]|]; simpl;
    rewrite ?andb_false_r; try done.
  rewrite andb_true_r. case_bool_decide as Hk; [subst; by simplify_map_eq|].
  by rewrite lookup_insert_ne.
Qed.

Lemma set_if_given_lookup (key k : string) (value : option string)
    (data : gmap string json) :
  set_if_given key value data !! k
  = if bool_decide (k = key) then
      match value with Some s => Some (JStr s) | None => data !! k end
    else data !! k.
Proof.
  unfold set_if_given. destruct value as [s|]; [|by case_bool_decide].
  case_bool_decide as Hk; [subst; by simplify_map_eq|]. by rewrite lookup_insert_ne.
Qed.

(** X17. [create_project] validates nothing: whenever the configuration
    resolves it sends one POST to [projects], whatever the name and the
    visibility are.  The body has [name], [visibility] and
    [initialize_with_readme] as given, [description] exactly when it is a
    non-empty string, and no other key. *)
Theorem create_project_request (name : string) (description : option string)
    (visibility : string) (initialize_with_readme : bool)
    (include_fields : option string) (w : World) (tr : list Request)
    (config : Config) :
  get_gitlab_config (environ w) = inr config →
  ∃ result data,
    create_project name description visibility initialize_with_readme
      include_fields w tr
    = (result, tr ++ [build_request config "POST" "projects" None (Some (JDict data))])
    ∧ data !! "name" = Some (JStr name)
    ∧ data !! "visibility" = Some (JStr visibility)
    ∧ data !! "initialize_with_readme" = Some (JBool initialize_with_readme)
    ∧ data !! "description"
      = (if truthy description then JStr <$> description else None)
    ∧ (∀ k, k ∉ ["name"; "visibility"; "initialize_with_readme"; "description"] →
            data !! k = None).
Proof.
  intros Hconfig. unfold create_project.
  rewrite handle_make_request_bind, Hconfig.
  destruct (outcome_result _); rewrite ?handle_mret;
    (eexists _, _; split; [reflexivity|]);
    (split_and!; try (rewrite set_if_truthy_lookup; simpl; by simplify_map_eq));
    intros k Hk; rewrite !not_elem_of_cons in Hk; destruct Hk as (? & ? & ? & ? & _);
    rewrite set_if_truthy_lookup; rewrite bool_decide_eq_false_2 by done; simpl;
    by simplify_map_eq.
Qed.

(** X17 with an empty name and a visibility GitLab does not know. *)
Lemma create_project_request_witness :
  ∃ result data,
    create_project "" (Some "") "hidden" false None demo_world []
    = (result, [build_request demo_config "POST" "projects" None (Some (JDict data))])
    ∧ data !! "visibility" = Some (JStr "hidden")
    ∧ data !! "description" = None.
Proof.
  destruct (create_project_request "" (Some "") "hidden" false None demo_world []
              demo_config eq_refl)
    as (result & data & Hrun & _ & Hvis & _ & Hdesc & _).
  by exists result, data.
Defined.

(** X18. [update_project] with an accepted [project_id] and a
    configuration that resolves sends one PUT to [projects/<id>] whose
    body has exactly the fields that were passed: [name], [description],
    [visibility] and [default_branch] are each present when the argument
    is not [None], the empty string included, and absent otherwise. *)
Theorem update_project_request (int_of_str : string → option Z)
    (project_id id : pyarg)
    (name description visibility default_branch include_fields : option string)
    (w : World) (tr : list Request) (config : Config) :
  validate_project_id int_of_str project_id = inr id →
  get_gitlab_config (environ w) = inr config →
  ∃ result data,
    update_project int_of_str project_id name description visibility default_branch
      include_fields w tr
    = (result,
       tr ++ [build_request config "PUT" ("projects/" +:+ py_str id) None
                (Some (JDict data))])
    ∧ data !! "name" = JStr <$> name
    ∧ data !! "description" = JStr <$> description
    ∧ data !! "visibility" = JStr <$> visibility
    ∧ data !! "default_branch" = JStr <$> default_branch
    ∧ (∀ k, k ∉ ["name"; "description"; "visibility"; "default_branch"] →
            data !! k = None).
Proof.
  intros Hid Hconfig. unfold update_project.
  rewrite handle_lift_bind, Hid, handle_make_request_bind, Hconfig.
  destruct (outcome_result _); rewrite ?handle_mret;
    (eexists _, _; split; [reflexivity|]);
    (split_and!;
       [by (rewrite !set_if_given_lookup; simpl;
            destruct name, description, visibility, default_branch)..|]);
    intros k Hk; rewrite !not_elem_of_cons in Hk; destruct Hk as (? & ? & ? & ? & _);
    rewrite !set_if_given_lookup; by rewrite !bool_decide_eq_false_2 by done.
Qed.

(** X18 with an empty description and nothing else. *)
Lemma update_project_request_witness :
  ∃ result data,
    update_project int_of_decimal (AInt 7) None (Some "") None None None demo_world []
    = (result, [build_request demo_config "PUT" "projects/7" None (Some (JDict data))])
    ∧ data !! "description" = Some (JStr "")
    ∧ data !! "name" = None.
Proof.
  destruct (update_project_request int_of_decimal (AInt 7) (AInt 7)
              None (Some "") None None None demo_world [] demo_config
              eq_refl eq_refl)
    as (result & data & Hrun & Hname & Hdesc & _).
  by exists result, data.
Defined.

(** One case of the network's answer: the run is read off, and each
    statement about another answer holds for want of one. *)
Ltac outcome_cases :=
  eexists; (split; [reflexivity|]); split_and!; intros; simplify_eq;
  first [done | lia | solve [simpl; congruence]].

(** X19. [delete_project] with an accepted [project_id] and a
    configuration that resolves sends exactly one DELETE, to
    [projects/<id>], whatever the answer is.  It reports success, with the
    id in the message, when the answer is a 2xx whose body decodes as
    JSON; when the answer is a 2xx whose body does not decode, an empty
    body for one, it returns the validation record of the decoder's
    message, the request having gone out; on any other status it returns
    the HTTP record of the response, and when no answer comes the
    connection, timeout or unexpected-error record. *)
Theorem delete_project_outcomes (int_of_str : string → option Z)
    (project_id id : pyarg) (w : World) (tr : list Request) (config : Config) :
  validate_project_id int_of_str project_id = inr id →
  get_gitlab_config (environ w) = inr config →
  let request :=
    build_request config "DELETE" ("projects/" +:+ py_str id) None None in
  ∃ result,
    delete_project int_of_str project_id w tr = (inr result, tr ++ [request])
    ∧ (∀ r v, remote w request = Responded r → 200 ≤ status_code r ≤ 299 →
              json_body r = inr v →
              result = JDict {[ "success" := JBool true;
                                "message" := JStr ("Project " +:+ py_str id
                                                     +:+ " deleted successfully") ]})
    ∧ (∀ r m, remote w request = Responded r → 200 ≤ status_code r ≤ 299 →
              json_body r = inl m →
              result = JDict (format_validation_error m))
    ∧ (∀ r, remote w request = Responded r → ¬ (200 ≤ status_code r ≤ 299) →
            result = JDict (format_http_error r))
    ∧ (∀ m, remote w request = ConnectFailed m →
            result = JDict (format_connection_error m))
    ∧ (∀ m, remote w request = TimedOut m →
            result = JDict (format_timeout_error m))
    ∧ (∀ m, remote w request = Failed m →
            result = JDict (on_fault (OtherException m))).
Proof.
  intros Hid Hconfig request. unfold delete_project.
  rewrite handle_lift_bind, Hid, handle_make_request_bind, Hconfig.
  fold request. destruct (remote w request) as [r|m|m|m]; simpl.
  - destruct (Z.leb_spec 200 (status_code r)), (Z.leb_spec (status_code r) 299);
      simpl; [destruct (json_body r) as [m|v] eqn:Hbody|..]; outcome_cases.
  - outcome_cases.
  - outcome_cases.
  - outcome_cases.
Qed.

(** X19 at a 204 with an empty body. *)
Lemma delete_project_outcomes_witness :
  delete_project int_of_decimal (AInt 7) no_content_world []
  = (inr (JDict (format_validation_error "Expecting value: line 1 column 1 (char 0)")),
     [build_request demo_config "DELETE" "projects/7" None None]).
Proof.
  destruct (delete_project_outcomes int_of_decimal (AInt 7) (AInt 7)
              no_content_world [] demo_config)
    as (result & Hrun & _ & Hundecoded & _).
  - reflexivity.
  - by vm_compute.
  - rewrite Hrun.
    rewrite (Hundecoded
               {| status_code := 204; text := "";
                  json_body := inl "Expecting value: line 1 column 1 (char 0)";
                  status_error := "" |}
               "Expecting value: line 1 column 1 (char 0)");
      [reflexivity | reflexivity | simpl; lia | reflexivity].
Defined.

(** X20. [get_file] with accepted arguments, a configuration that
    resolves and a 2xx answer whose body decodes: the one GET goes to
    [projects/<id>/repository/files/] followed by the stripped path as
    [quote(_, safe='')] encodes it, with the stripped [ref] as the query.
    The answer is returned as it is when [include_fields] is [None] or the
    empty string, and filtered by [include_fields] alone, with no default
    field set, otherwise. *)
Theorem get_file_result (int_of_str : string → option Z)
    (project_id id file_path ref : pyarg) (path rev : string)
    (include_fields : option string) (w : World) (tr : list Request)
    (config : Config) (r : Response) (v : json) :
  validate_project_id int_of_str project_id = inr id →
  check_stripped file_path "file_path" = inr path →
  check_stripped ref "ref" = inr rev →
  get_gitlab_config (environ w) = inr config →
  let request :=
    build_request config "GET"
      ("projects/" +:+ py_str id +:+ "/repository/files/" +:+ quote path)
      (Some {[ "ref" := JStr rev ]}) None in
  remote w request = Responded r →
  200 ≤ status_code r ≤ 299 →
  json_body r = inr v →
  get_file int_of_str project_id file_path ref include_fields w tr
  = (inr (match include_fields with
          | None | Some "" => v
          | Some s => filter_fields v (FStr s) None
          end), tr ++ [request])
  ∧ ¬ occurs_in "/" (quote path).
Proof.
  intros Hid Hpath Href Hconfig request Hremote Hstatus Hbody. split.
  - unfold get_file.
    rewrite handle_lift_bind, Hid, handle_lift_bind, Hpath, handle_lift_bind, Href.
    rewrite handle_make_request_bind, Hconfig. fold request. rewrite Hremote.
    rewrite (outcome_result_ok r v) by done.
    by destruct include_fields as [[|c s]|].
  - apply (all_chars_no_occurrence quoted_char _ "/"%char); [apply quote_chars|done].
Qed.

(** X20 at a path with a slash and an empty [include_fields]. *)
Lemma get_file_result_witness :
  get_file int_of_decimal (AInt 7) (AStr " src/main.py ") (AStr "main") (Some "")
    demo_world []
  = (inr (JDict ∅),
     [build_request demo_config "GET" "projects/7/repository/files/src%2Fmain.py"
        (Some {[ "ref" := JStr "main" ]}) None]).
Proof.
  apply (get_file_result int_of_decimal (AInt 7) (AInt 7) (AStr " src/main.py ")
           (AStr "main") "src/main.py" "main" (Some "") demo_world [] demo_config
           {| status_code := 200; text := "{}"; json_body := inr (JDict ∅);
              status_error := "" |} (JDict ∅));
    first [reflexivity | simpl; lia].
Defined.

(** X21. [get_job_log] with accepted ids and a configuration that
    resolves sends exactly one request, whatever the answer is: a GET to
    [projects/<id>/jobs/<job>/trace] with the token and no [Content-Type]
    header, no query and no body.  On a 2xx answer it returns the body as
    text under [log], with the two ids, whether or not the body is JSON;
    on any other status it returns the HTTP record of the response, and
    when no answer comes the connection, timeout or unexpected-error
    record. *)
Theorem get_job_log_text (int_of_str : string → option Z)
    (project_id job_id id job : pyarg) (w : World) (tr : list Request)
    (config : Config) :
  validate_project_id int_of_str project_id = inr id →
  validate_iid int_of_str job_id "job_id" = inr job →
  get_gitlab_config (environ w) = inr config →
  let request :=
    {| req_method := "GET";
       req_url := base_url config +:+ "/api/v4/projects/" +:+ py_str id
                  +:+ "/jobs/" +:+ py_str job +:+ "/trace";
       req_params := None; req_json := None;
       req_headers := {[ "PRIVATE-TOKEN" := token config;
                         "User-Agent" := "gitlab-mcp-server/0.1.0" ]};
       req_verify := verify_ssl config; req_timeout := 30 |} in
  req_headers request !! "Content-Type" = None
  ∧ ∃ result,
      get_job_log int_of_str project_id job_id w tr = (inr result, tr ++ [request])
      ∧ (∀ r, remote w request = Responded r → 200 ≤ status_code r ≤ 299 →
              result = JDict {[ "log" := JStr (text r);
                                "job_id" := arg_json job;
                                "project_id" := arg_json id ]})
      ∧ (∀ r, remote w request = Responded r → ¬ (200 ≤ status_code r ≤ 299) →
              result = JDict (format_http_error r))
      ∧ (∀ m, remote w request = ConnectFailed m →
              result = JDict (format_connection_error m))
      ∧ (∀ m, remote w request = TimedOut m →
              result = JDict (format_timeout_error m))
      ∧ (∀ m, remote w request = Failed m →
              result = JDict (on_fault (OtherException m))).
Proof.
  intros Hid Hjob Hconfig request. split; [reflexivity|].
  unfold get_job_log.
  rewrite handle_lift_bind, Hid, handle_lift_bind, Hjob.
  unfold handle_gitlab_errors, mbind, tool_bind, read_environ, lift, client_request.
  rewrite Hconfig. fold request.
  destruct (remote w request) as [r|m|m|m]; simpl.
  - unfold raise_for_status.
    destruct (Z.leb_spec 200 (status_code r)), (Z.leb_spec (status_code r) 299);
      simpl; outcome_cases.
  - outcome_cases.
  - outcome_cases.
  - outcome_cases.
Qed.

(** X21 at a log that is plain text. *)
Lemma get_job_log_text_witness :
  ∃ request,
    get_job_log int_of_decimal (AInt 7) (AInt 42) no_content_world []
    = (inr (JDict {[ "log" := JStr ""; "job_id" := JInt 42; "project_id" := JInt 7 ]}),
       [request])
    ∧ req_url request = "https://gitlab.com/api/v4/projects/7/jobs/42/trace".
Proof.
  destruct (get_job_log_text int_of_decimal (AInt 7) (AInt 42) (AInt 7) (AInt 42)
              no_content_world [] demo_config)
    as (_ & result & Hrun & Hok & _).
  - reflexivity.
  - reflexivity.
  - by vm_compute.
  - eexists. split.
    + rewrite Hrun.
      rewrite (Hok {| status_code := 204; text := "";
                      json_body := inl "Expecting value: line 1 column 1 (char 0)";
                      status_error := "" |});
        [reflexivity | reflexivity | simpl; lia].
    + reflexivity.
Defined.

Lemma validate_visibility_inr (visibility : pyarg) (v : string) :
  validate_visibility visibility = inr v →
  visibility = AStr v ∧ v ∈ ["private"; "internal"; "public"].
Proof.
  unfold validate_visibility. destruct visibility; try done.
  case_bool_decide as Hin; [done|]. by intros [= <-].
Qed.

(** X22. [create_group] sends nothing unless its three checks pass, in
    the order name, path, visibility.  Any request it sends is one POST to
    [groups] whose body carries the stripped name, the stripped path and
    a visibility that is [private], [internal] or [public], exactly as
    passed. *)
Theorem create_group_request (name path : pyarg) (description : option string)
    (visibility : pyarg) (include_fields : option string)
    (w : World) (tr tr' : list Request) (result : Fault + json) :
  create_group name path description visibility include_fields w tr = (result, tr') →
  tr' ≠ tr →
  ∃ n p v config data,
    validate_non_empty_string name "name" = inr n
    ∧ validate_non_empty_string path "path" = inr p
    ∧ visibility = AStr v ∧ v ∈ ["private"; "internal"; "public"]
    ∧ tr' = tr ++ [build_request config "POST" "groups" None (Some (JDict data))]
    ∧ data !! "name" = Some (JStr n)
    ∧ data !! "path" = Some (JStr p)
    ∧ data !! "visibility" = Some (JStr v).
Proof.
  unfold create_group. rewrite handle_lift_bind.
  destruct (validate_non_empty_string name "name") as [e|n]; [by intros [= _ <-]|].
  rewrite handle_lift_bind.
  destruct (validate_non_empty_string path "path") as [e|p]; [by intros [= _ <-]|].
  rewrite handle_lift_bind.
  destruct (validate_visibility visibility) as [e|v] eqn:Hv; [by intros [= _ <-]|].
  apply validate_visibility_inr in Hv as [-> Hv].
  rewrite handle_make_request_bind.
  destruct (get_gitlab_config (environ w)) as [e|config]; [by intros [= _ <-]|].
  intros Hrun _. exists n, p, v, config. eexists.
  split_and!; [done|done|done|done| |..].
  - destruct (outcome_result _); rewrite ?handle_mret in Hrun;
      by injection Hrun as _ <-.
  - rewrite set_if_truthy_lookup. simpl. by simplify_map_eq.
  - rewrite set_if_truthy_lookup. simpl. by simplify_map_eq.
  - rewrite set_if_truthy_lookup. simpl. by simplify_map_eq.
Qed.

(** X22 in the demo world. *)
Lemma create_group_request_witness :
  ∃ config data,
    (create_group (AStr " Team ") (AStr "team") None (AStr "private") None
       demo_world []).2
    = [build_request config "POST" "groups" None (Some (JDict data))]
    ∧ data !! "name" = Some (JStr "Team").
Proof.
  destruct (create_group_request (AStr " Team ") (AStr "team") None (AStr "private")
              None demo_world [] _ _ (surjective_pairing _))
    as (n & p & v & config & data & Hn & _ & _ & _ & Htr & Hname & _).
  { vm_compute. discriminate. }
  injection Hn as <-. by exists config, data.
Defined.

Lemma validate_access_level_inr (int_of_str : string → option Z) (x y : pyarg) :
  validate_access_level int_of_str x = inr y → int_value y ∈ [10; 20; 30; 40; 50].
Proof.
  unfold validate_access_level.
  destruct (is_float x); [done|].
  destruct (if negb (is_int x) then py_int int_of_str x else Some x); [|done].
  case_bool_decide as Hin; [done|]. by intros [= <-].
Qed.

Lemma validate_iid_inr (int_of_str : string → option Z) (x y : pyarg) (name : string) :
  validate_iid int_of_str x name = inr y → 1 ≤ int_value y.
Proof.
  unfold validate_iid.
  destruct (is_float x); [done|].
  destruct (if negb (is_int x) then py_int int_of_str x else Some x); [|done].
  case_bool_decide; [done|]. intros [= <-]. lia.
Qed.

(** X23. [add_group_member] never sends an access level outside the five
    levels, nor an id that is not positive: any request it sends is one
    POST to [groups/<id>/members] with a positive group id in the path
    and a body whose [user_id] is positive and whose [access_level] is
    10, 20, 30, 40 or 50. *)
Theorem add_group_member_request (int_of_str : string → option Z)
    (group_id user_id access_level : pyarg) (include_fields : option string)
    (w : World) (tr tr' : list Request) (result : Fault + json) :
  add_group_member int_of_str group_id user_id access_level include_fields w tr
  = (result, tr') →
  tr' ≠ tr →
  ∃ g u l config,
    tr' = tr ++ [build_request config "POST" ("groups/" +:+ py_str g +:+ "/members")
                   None (Some (JDict {[ "user_id" := arg_json u;
                                        "access_level" := arg_json l ]}))]
    ∧ 1 ≤ int_value g ∧ 1 ≤ int_value u
    ∧ int_value l ∈ [10; 20; 30; 40; 50].
Proof.
  unfold add_group_member. rewrite handle_lift_bind.
  destruct (validate_group_id int_of_str group_id) as [e|g] eqn:Hg;
    [by intros [= _ <-]|].
  rewrite handle_lift_bind.
  destruct (validate_user_id int_of_str user_id) as [e|u] eqn:Hu;
    [by intros [= _ <-]|].
  rewrite handle_lift_bind.
  destruct (validate_access_level int_of_str access_level) as [e|l] eqn:Hl;
    [by intros [= _ <-]|].
  rewrite handle_make_request_bind.
  destruct (get_gitlab_config (environ w)) as [e|config]; [by intros [= _ <-]|].
  intros Hrun _. exists g, u, l, config. split_and!.
  - destruct (outcome_result _); rewrite ?handle_mret in Hrun;
      by injection Hrun as _ <-.
  - by apply (validate_iid_inr int_of_str group_id g "group_id").
  - by apply (validate_iid_inr int_of_str user_id u "user_id").
  - by apply (validate_access_level_inr int_of_str access_level).
Qed.

(** X23 in the demo world, with the default level. *)
Lemma add_group_member_request_witness :
  ∃ g u l config,
    (add_group_member int_of_decimal (AInt 3) (AInt 9) (AInt 30) None demo_world []).2
    = [] ++ [build_request config "POST" ("groups/" +:+ py_str g +:+ "/members")
               None (Some (JDict {[ "user_id" := arg_json u;
                                    "access_level" := arg_json l ]}))]
    ∧ 1 ≤ int_value g ∧ 1 ≤ int_value u
    ∧ int_value l ∈ [10; 20; 30; 40; 50].
Proof.
  apply (add_group_member_request int_of_decimal (AInt 3) (AInt 9) (AInt 30) None
           demo_world [] _ _ (surjective_pairing _)).
  vm_compute. discriminate.
Defined.

Lemma handle_guard_bind (c : bool) (e : Fault) (k : unit → Tool json)
    (w : World) (tr : list Request) :
  handle_gitlab_errors ((if c then raise e else mret ()) ≫= k) w tr
  = if c then (inr (JDict (on_fault e)), tr) else handle_gitlab_errors (k ()) w tr.
Proof. by destruct c. Qed.

Lemma handle_mret_bind {A} (a : A) (k : A → Tool json) (w : World) (tr : list Request) :
  handle_gitlab_errors (mret a ≫= k) w tr = handle_gitlab_errors (k a) w tr.
Proof. reflexivity. Qed.

Lemma handle_lift_bind_bind {A B} (r : Fault + A) (f : A → Tool B) (k : B → Tool json)
    (w : World) (tr : list Request) :
  handle_gitlab_errors ((lift r ≫= f) ≫= k) w tr
  = match r with
    | inl e => (inr (JDict (on_fault e)), tr)
    | inr a => handle_gitlab_errors (f a ≫= k) w tr
    end.
Proof. by destruct r. Qed.

(** X24. [update_merge_request] refuses a [state_event] that is a
    non-empty string other than [close] and [reopen], with a validation
    record and no request.  Any request it sends is one PUT whose body has
    [state_event] exactly as passed, so [None] leaves it out and the empty
    string is sent as the empty string, and has [target_branch], when one
    was passed, as the stripped branch name. *)
Theorem update_merge_request_state_event (int_of_str : string → option Z)
    (project_id mr_iid : pyarg) (title description : option string)
    (target_branch : option pyarg) (state_event include_fields : option string)
    (w : World) (tr : list Request) :
  (∀ s id iid,
     validate_project_id int_of_str project_id = inr id →
     validate_iid int_of_str mr_iid "mr_iid" = inr iid →
     state_event = Some s → s ≠ "" → s ∉ ["close"; "reopen"] →
     update_merge_request int_of_str project_id mr_iid title description
       target_branch state_event include_fields w tr
     = (inr (JDict (format_validation_error
                      ("state_event must be 'close' or 'reopen', got: " +:+ s))), tr))
  ∧ (∀ result tr',
       update_merge_request int_of_str project_id mr_iid title description
         target_branch state_event include_fields w tr = (result, tr') →
       tr' ≠ tr →
       state_event ∈ [None; Some ""; Some "close"; Some "reopen"]
       ∧ ∃ request data,
           tr' = tr ++ [request]
           ∧ req_method request = "PUT"
           ∧ req_json request = Some (JDict data)
           ∧ data !! "state_event" = JStr <$> state_event
           ∧ data !! "target_branch"
             = match target_branch with
               | Some b =>
                   match validate_branch_name b with
                   | inr stripped => Some (JStr stripped)
                   | inl _ => None
                   end
               | None => None
               end).
Proof.
  split.
  - intros s id iid Hid Hiid -> Hs Hnot. unfold update_merge_request.
    rewrite handle_lift_bind, Hid, handle_lift_bind, Hiid, handle_guard_bind.
    destruct s as [|c s]; [done|]. simpl.
    by rewrite bool_decide_eq_true_2.
  - intros result tr'. unfold update_merge_request.
    rewrite handle_lift_bind.
    destruct (validate_project_id int_of_str project_id) as [e|id];
      [by intros [= _ <-]|].
    rewrite handle_lift_bind.
    destruct (validate_iid int_of_str mr_iid "mr_iid") as [e|iid];
      [by intros [= _ <-]|].
    rewrite handle_guard_bind.
    destruct (truthy state_event
              && bool_decide (default "" state_event ∉ ["close"; "reopen"])) eqn:Hstate;
      [by intros [= _ <-]|].
    assert (state_event ∈ [None; Some ""; Some "close"; Some "reopen"]) as Hin.
    { rewrite !elem_of_cons.
      destruct state_event as [[|c s]|]; [tauto| |tauto]. simpl in Hstate.
      apply bool_decide_eq_false, dec_stable in Hstate.
      apply elem_of_cons in Hstate as [->|Hstate]; [tauto|].
      apply list_elem_of_singleton in Hstate as ->. tauto. }
    destruct target_branch as [b|].
    + rewrite handle_lift_bind_bind.
      destruct (validate_branch_name b) as [e|stripped]; [by intros [= _ <-]|].
      rewrite handle_mret_bind, handle_make_request_bind.
      destruct (get_gitlab_config (environ w)) as [e|config]; [by intros [= _ <-]|].
      intros Hrun _. split; [done|]. eexists _, _. split.
      { destruct (outcome_result _); rewrite ?handle_mret in Hrun;
          by injection Hrun as _ <-. }
      split_and!; try reflexivity.
      * unfold set_if_given. destruct state_event, title, description;
          by simplify_map_eq.
      * unfold set_if_given. destruct state_event, title, description;
          by simplify_map_eq.
    + rewrite handle_mret_bind, handle_make_request_bind.
      destruct (get_gitlab_config (environ w)) as [e|config]; [by intros [= _ <-]|].
      intros Hrun _. split; [done|]. eexists _, _. split.
      { destruct (outcome_result _); rewrite ?handle_mret in Hrun;
          by injection Hrun as _ <-. }
      split_and!; try reflexivity.
      * unfold set_if_given. destruct state_event, title, description;
          by simplify_map_eq.
      * unfold set_if_given. destruct state_event, title, description;
          by simplify_map_eq.
Qed.

(** X24 at the state event [merge], and at the empty string. *)
Lemma update_merge_request_state_event_witness :
  update_merge_request int_of_decimal (AInt 7) (AInt 3) None None None (Some "merge")
    None demo_world []
  = (inr (JDict (format_validation_error
                   "state_event must be 'close' or 'reopen', got: merge")), [])
  ∧ ∃ request data,
      (update_merge_request int_of_decimal (AInt 7) (AInt 3) None None None (Some "")
         None demo_world []).2 = [] ++ [request]
      ∧ req_json request = Some (JDict data)
      ∧ data !! "state_event" = Some (JStr "").
Proof.
  split.
  - apply (proj1 (update_merge_request_state_event int_of_decimal (AInt 7) (AInt 3)
                    None None None (Some "merge") None demo_world [])
             "merge" (AInt 7) (AInt 3)); try done.
    rewrite !not_elem_of_cons. split_and!; try done. apply not_elem_of_nil.
  - destruct (proj2 (update_merge_request_state_event int_of_decimal (AInt 7) (AInt 3)
                       None None None (Some "") None demo_world [])
                _ _ (surjective_pairing _))
      as (_ & request & data & Htr & _ & Hjson & Hstate & _).
    { vm_compute. discriminate. }
    by exists request, data.
Defined.

(* ===================================================================== *)
(** * The startup check *)
(* ===================================================================== *)

Lemma get_gitlab_config_raises (environ : gmap string string) (e : Fault) :
  get_gitlab_config environ = inl e → ∃ msg, e = ValueError msg.
Proof.
  unfold get_gitlab_config. intros H. repeat case_match; simplify_eq; eauto.
Qed.

(** The startup check, one probe at a time. *)
Lemma validate_gitlab_connection_run (w : World) (tr : list Request) :
  validate_gitlab_connection w tr
  = match get_gitlab_config (environ w) with
    | inl e => (inl (ValueError ("Configuration error: " +:+ fault_str e)), tr)
    | inr config =>
        let probe1 := build_request config "GET" "version" None None in
        let probe2 := build_request config "GET" "user" None None in
        let probe3 := build_request config "GET" "projects"
                        (Some {[ "per_page" := JInt 1 ]}) None in
        match outcome_result (remote w probe1) with
        | inl e => (inl (startup_fault config e), tr ++ [probe1])
        | inr (JDict _) =>
            match outcome_result (remote w probe2) with
            | inl e => (inl (startup_fault config e), tr ++ [probe1; probe2])
            | inr (JDict _) =>
                match outcome_result (remote w probe3) with
                | inl (HTTPStatusError m response) =>
                    if status_code response =? 403
                    then (inr true, tr ++ [probe1; probe2; probe3])
                    else (inl (startup_fault config (HTTPStatusError m response)),
                          tr ++ [probe1; probe2; probe3])
                | inl e => (inl (startup_fault config e), tr ++ [probe1; probe2; probe3])
                | inr _ => (inr true, tr ++ [probe1; probe2; probe3])
                end
            | inr v => (inl (no_get v), tr ++ [probe1; probe2])
            end
        | inr v => (inl (no_get v), tr ++ [probe1])
        end
    end.
Proof.
  unfold validate_gitlab_connection, startup_fault, no_get.
  rewrite bind_run. unfold read_environ at 1. unfold try_except at 1.
  rewrite bind_lift.
  destruct (get_gitlab_config (environ w)) as [e|config] eqn:Hconfig.
  { destruct (get_gitlab_config_raises _ _ Hconfig) as [msg ->]. reflexivity. }
  rewrite bind_run, make_request_run, Hconfig. cbv zeta.
  destruct (outcome_result (remote w (build_request config "GET" "version" None None)))
    as [e1|v1].
  { destruct e1; first [reflexivity | by destruct (_ =? 401)]. }
  rewrite bind_run. destruct v1; try reflexivity. simpl.
  rewrite bind_run, make_request_run, Hconfig.
  rewrite <- !(assoc_L (++)). simpl.
  destruct (outcome_result (remote w (build_request config "GET" "user" None None)))
    as [e2|v2].
  { destruct e2; first [reflexivity | by destruct (_ =? 401)]. }
  rewrite bind_run. destruct v2; try reflexivity. simpl.
  rewrite bind_run. unfold try_except at 1.
  rewrite bind_run, make_request_run, Hconfig.
  rewrite <- !(assoc_L (++)). simpl.
  destruct (outcome_result _) as [e3|v3]; [|reflexivity].
  destruct e3 as [m response| | | |]; try reflexivity.
  simpl. destruct (status_code response =? 403); [reflexivity|].
  simpl. by destruct (status_code response =? 401).
Qed.

Lemma startup_fault_kind (config : Config) (e : Fault) :
  (∃ m, startup_fault config e = ValueError m)
  ∨ (∃ m, startup_fault config e = OtherException m).
Proof.
  destruct e as [m r|m|m|m|m]; simpl; eauto.
  destruct (status_code r =? 401); eauto.
Qed.

(** X25. The startup check fails fast and raises only what [main] is told
    to expect.  It sends nothing when the configuration does not resolve,
    and otherwise an initial part of the three probes [version], [user],
    [projects], in that order, stopping at the first that fails.  It
    returns [True] only after all three went out, never [False]; and a
    fault it raises is a [ValueError], which every configuration,
    connection, timeout and HTTP status fault is turned into, or an
    exception of none of those kinds, passed through. *)
Theorem validate_gitlab_connection_faults
    (w : World) (tr tr' : list Request) (result : Fault + bool) :
  validate_gitlab_connection w tr = (result, tr') →
  (result = inr true
   ∨ (∃ m, result = inl (ValueError m))
   ∨ (∃ m, result = inl (OtherException m)))
  ∧ ∃ sent,
      tr' = tr ++ sent
      ∧ (result = inr true → length sent = 3%nat)
      ∧ (∀ e, get_gitlab_config (environ w) = inl e → sent = [])
      ∧ (∀ config, get_gitlab_config (environ w) = inr config →
           sent ≠ [] ∧ sent `prefix_of` startup_probes config).
Proof.
  rewrite validate_gitlab_connection_run.
  destruct (get_gitlab_config (environ w)) as [e|config].
  { intros [= <- <-]. split; [eauto|]. exists []. by rewrite app_nil_r. }
  cbv zeta. unfold startup_probes.
  set (probe1 := build_request config "GET" "version" None None).
  set (probe2 := build_request config "GET" "user" None None).
  set (probe3 := build_request config "GET" "projects"
                   (Some {[ "per_page" := JInt 1 ]}) None).
  assert (∀ (res : Fault + bool) (sent : list Request),
    sent ≠ [] → sent `prefix_of` [probe1; probe2; probe3] →
    (res = inr true → length sent = 3%nat) →
    (res = inr true ∨ (∃ m, res = inl (ValueError m))
     ∨ (∃ m, res = inl (OtherException m))) →
    (res, tr ++ sent) = (result, tr') →
    (result = inr true ∨ (∃ m, result = inl (ValueError m))
     ∨ (∃ m, result = inl (OtherException m)))
    ∧ ∃ sent0, tr' = tr ++ sent0
        ∧ (result = inr true → length sent0 = 3%nat)
        ∧ (∀ e, @inr Fault Config config = inl e → sent0 = [])
        ∧ (∀ config0, @inr Fault Config config = inr config0 →
             sent0 ≠ []
             ∧ sent0 `prefix_of`
                 [build_request config0 "GET" "version" None None;
                  build_request config0 "GET" "user" None None;
                  build_request config0 "GET" "projects"
                    (Some {[ "per_page" := JInt 1 ]}) None])) as Hwrap.
  { intros res sent Hne Hpre Hlen Hres [= <- <-]. split; [done|].
    exists sent. split_and!; try done. by intros config0 [= <-]. }
  assert (∀ e : Fault,
            @inl Fault bool (startup_fault config e) = inr true
            ∨ (∃ m, @inl Fault bool (startup_fault config e) = inl (ValueError m))
            ∨ (∃ m, @inl Fault bool (startup_fault config e) = inl (OtherException m)))
    as Hfault.
  { intros e. destruct (startup_fault_kind config e) as [[m ->]|[m ->]]; eauto. }
  assert ([probe1] `prefix_of` [probe1; probe2; probe3]) as Hp1
    by (by exists [probe2; probe3]).
  assert ([probe1; probe2] `prefix_of` [probe1; probe2; probe3]) as Hp2
    by (by exists [probe3]).
  destruct (outcome_result (remote w probe1)) as [e1|v1].
  { by apply (Hwrap _ [probe1]). }
  destruct v1; try (apply (Hwrap _ [probe1]); [done|done|done|unfold no_get; eauto]).
  destruct (outcome_result (remote w probe2)) as [e2|v2].
  { by apply (Hwrap _ [probe1; probe2]). }
  destruct v2;
    try (apply (Hwrap _ [probe1; probe2]); [done|done|done|unfold no_get; eauto]).
  destruct (outcome_result (remote w probe3)) as [e3|v3].
  - destruct e3 as [m r|m|m|m|m].
    + destruct (status_code r =? 403).
      * apply (Hwrap _ [probe1; probe2; probe3]); [done|done|done|eauto].
      * apply (Hwrap _ [probe1; probe2; probe3]); [done|done|done|].
        apply (Hfault (HTTPStatusError m r)).
    + apply (Hwrap _ [probe1; probe2; probe3]); [done|done|done|].
      apply (Hfault (ConnectError m)).
    + apply (Hwrap _ [probe1; probe2; probe3]); [done|done|done|].
      apply (Hfault (TimeoutException m)).
    + apply (Hwrap _ [probe1; probe2; probe3]); [done|done|done|].
      apply (Hfault (ValueError m)).
    + apply (Hwrap _ [probe1; probe2; probe3]); [done|done|done|].
      apply (Hfault (OtherException m)).
  - apply (Hwrap _ [probe1; probe2; probe3]); [done|done|done|eauto].
Qed.

(** X25 in the demo world: all three probes go out. *)
Lemma validate_gitlab_connection_faults_witness :
  ∃ sent,
    (validate_gitlab_connection demo_world []).2 = [] ++ sent
    ∧ ((validate_gitlab_connection demo_world []).1 = inr true → length sent = 3%nat)
    ∧ sent `prefix_of` startup_probes demo_config.
Proof.
  destruct (validate_gitlab_connection_faults demo_world [] _ _ (surjective_pairing _))
    as (_ & sent & Htr & Hlen & _ & Hprobes).
  exists sent. split_and!; [exact Htr|exact Hlen|].
  by apply (Hprobes demo_config).
Defined.

(** What an answer was, read off what [make_request] made of it. *)
Lemma outcome_result_inr (o : Outcome) (v : json) :
  outcome_result o = inr v →
  ∃ r, o = Responded r ∧ 200 ≤ status_code r ≤ 299 ∧ json_body r = inr v.
Proof.
  destruct o as [r|m|m|m]; simpl; try done.
  destruct (Z.leb_spec 200 (status_code r)), (Z.leb_spec (status_code r) 299);
    simpl; try done.
  destruct (json_body r) as [m|v'] eqn:Hbody; [done|].
  intros [= <-]. exists r. split_and!; first [done | lia].
Qed.

Lemma outcome_result_http (o : Outcome) (m : string) (r : Response) :
  outcome_result o = inl (HTTPStatusError m r) →
  o = Responded r ∧ ¬ (200 ≤ status_code r ≤ 299).
Proof.
  destruct o as [r'|m'|m'|m']; simpl; try done.
  destruct (Z.leb_spec 200 (status_code r')), (Z.leb_spec (status_code r') 299);
    simpl; try (intros [= _ <-]; split; [done|lia]).
  by destruct (json_body r').
Qed.

Lemma outcome_result_status (r : Response) :
  ¬ (200 ≤ status_code r ≤ 299) →
  outcome_result (Responded r) = inl (HTTPStatusError (status_error r) r).
Proof.
  intros Hstatus. simpl.
  destruct (Z.leb_spec 200 (status_code r)), (Z.leb_spec (status_code r) 299);
    simpl; try done. lia.
Qed.

(** X26. With a configuration that resolves, a 403 is let through on the
    third probe only.  When [version] and [user] answer with JSON objects
    and the project listing answers 403, the check returns [True] after
    the three probes.  A 403 on the first probe stops the check with a
    [ValueError] that has the status and the response text, and a 401
    with the one about the token, both after that one request; a 403 on
    the second probe stops it the same way after two requests.  And
    whenever the check returns [True], the three probes went out, the
    first two were answered 2xx with JSON objects, and the third was
    answered 2xx with a body that decodes, or 403: no other status is let
    through anywhere. *)
Theorem validate_gitlab_connection_forbidden
    (w : World) (tr : list Request) (config : Config) :
  get_gitlab_config (environ w) = inr config →
  let probe1 := build_request config "GET" "version" None None in
  let probe2 := build_request config "GET" "user" None None in
  let probe3 := build_request config "GET" "projects"
                  (Some {[ "per_page" := JInt 1 ]}) None in
  (∀ r1 r2 r3 d1 d2,
     remote w probe1 = Responded r1 → 200 ≤ status_code r1 ≤ 299 →
     json_body r1 = inr (JDict d1) →
     remote w probe2 = Responded r2 → 200 ≤ status_code r2 ≤ 299 →
     json_body r2 = inr (JDict d2) →
     remote w probe3 = Responded r3 → status_code r3 = 403 →
     validate_gitlab_connection w tr = (inr true, tr ++ [probe1; probe2; probe3]))
  ∧ (∀ r1, remote w probe1 = Responded r1 → status_code r1 = 403 →
       validate_gitlab_connection w tr
       = (inl (ValueError ("GitLab API error: 403 - " +:+ text r1)), tr ++ [probe1]))
  ∧ (∀ r1, remote w probe1 = Responded r1 → status_code r1 = 401 →
       validate_gitlab_connection w tr
       = (inl (ValueError ("Authentication failed. Your GITLAB_TOKEN may be invalid or "
                  +:+ "expired. Generate a new token at "
                  +:+ "https://gitlab.com/-/profile/personal_access_tokens")),
          tr ++ [probe1]))
  ∧ (∀ r1 d1 r2,
       remote w probe1 = Responded r1 → 200 ≤ status_code r1 ≤ 299 →
       json_body r1 = inr (JDict d1) →
       remote w probe2 = Responded r2 → status_code r2 = 403 →
       validate_gitlab_connection w tr
       = (inl (ValueError ("GitLab API error: 403 - " +:+ text r2)),
          tr ++ [probe1; probe2]))
  ∧ (∀ tr', validate_gitlab_connection w tr = (inr true, tr') →
       tr' = tr ++ [probe1; probe2; probe3]
       ∧ (∃ r1 d1, remote w probe1 = Responded r1 ∧ 200 ≤ status_code r1 ≤ 299
                   ∧ json_body r1 = inr (JDict d1))
       ∧ (∃ r2 d2, remote w probe2 = Responded r2 ∧ 200 ≤ status_code r2 ≤ 299
                   ∧ json_body r2 = inr (JDict d2))
       ∧ ∃ r3, remote w probe3 = Responded r3
               ∧ (status_code r3 = 403
                  ∨ (200 ≤ status_code r3 ≤ 299 ∧ ∃ v, json_body r3 = inr v))).
Proof.
  intros Hconfig probe1 probe2 probe3.
  rewrite validate_gitlab_connection_run, Hconfig. cbv zeta.
  fold probe1 probe2 probe3. split_and!.
  - intros r1 r2 r3 d1 d2 -> H1 B1 -> H2 B2 -> H3.
    rewrite (outcome_result_ok r1 (JDict d1)), (outcome_result_ok r2 (JDict d2)) by done.
    rewrite outcome_result_status by lia. by rewrite H3.
  - intros r1 -> H1. rewrite outcome_result_status by lia. simpl. by rewrite H1.
  - intros r1 -> H1. rewrite outcome_result_status by lia. simpl. by rewrite H1.
  - intros r1 d1 r2 -> H1 B1 -> H2.
    rewrite (outcome_result_ok r1 (JDict d1)) by done.
    rewrite outcome_result_status by lia. simpl. by rewrite H2.
  - intros tr'.
    destruct (outcome_result (remote w probe1)) as [e1|v1] eqn:O1; [done|].
    destruct v1 as [| | | | | |d1]; try done.
    destruct (outcome_result (remote w probe2)) as [e2|v2] eqn:O2; [done|].
    destruct v2 as [| | | | | |d2]; try done.
    apply outcome_result_inr in O1 as (r1 & O1 & S1 & B1).
    apply outcome_result_inr in O2 as (r2 & O2 & S2 & B2).
    destruct (outcome_result (remote w probe3)) as [e3|v3] eqn:O3.
    + destruct e3 as [m3 r3|m3|m3|m3|m3]; try done.
      destruct (status_code r3 =? 403) eqn:E3; [|done].
      apply outcome_result_http in O3 as [O3 _].
      apply Z.eqb_eq in E3.
      intros [= <-]. split_and!; eauto 10.
    + apply outcome_result_inr in O3 as (r3 & O3 & S3 & B3).
      intros [= <-]. split_and!; eauto 10.
Qed.

(** X26 with a token that may not list projects. *)
Lemma validate_gitlab_connection_forbidden_witness :
  validate_gitlab_connection limited_token_world []
  = (inr true, [] ++ startup_probes demo_config).
Proof.
  apply (proj1 (validate_gitlab_connection_forbidden limited_token_world []
                  demo_config eq_refl)
           {| status_code := 200; text := "{}"; json_body := inr (JDict ∅);
              status_error := "" |}
           {| status_code := 200; text := "{}"; json_body := inr (JDict ∅);
              status_error := "" |}
           {| status_code := 403; text := "403 Forbidden";
              json_body := inl "Expecting value: line 1 column 1 (char 0)";
              status_error := "Client error '403 Forbidden'" |} ∅ ∅);
    first [reflexivity | simpl; lia].
Defined.

(* ===================================================================== *)
(** * Path encoding: further properties *)
(* ===================================================================== *)

Lemma hex_value_digit (n : N) : (n < 16)%N → hex_value (hex_digit n) = n.
Proof.
  intros Hn.
  assert (n = 0 ∨ n = 1 ∨ n = 2 ∨ n = 3 ∨ n = 4 ∨ n = 5 ∨ n = 6 ∨ n = 7 ∨ n = 8
          ∨ n = 9 ∨ n = 10 ∨ n = 11 ∨ n = 12 ∨ n = 13 ∨ n = 14 ∨ n = 15)%N
    as Hcases by lia.
  repeat (destruct Hcases as [->|Hcases]; [reflexivity|]). by subst.
Qed.

Lemma quoted_bytes_quote_byte (b : N) (t : string) :
  (b < 256)%N → quoted_bytes (quote_byte b +:+ t) = b :: quoted_bytes t.
Proof.
  intros Hb. unfold quote_byte. destruct (always_safe b) eqn:Hsafe.
  - rewrite app_cons. change ("" +:+ t) with t. simpl.
    rewrite N_ascii_embedding by done.
    rewrite bool_decide_eq_false_2; [done|].
    intros Hpercent. apply (f_equal N_of_ascii) in Hpercent.
    rewrite N_ascii_embedding in Hpercent by done.
    rewrite Hpercent in Hsafe. discriminate Hsafe.
  - unfold percent. rewrite !app_cons. change ("" +:+ t) with t. simpl.
    rewrite !hex_value_digit.
    + f_equal. pose proof (N.div_mod b 16). lia.
    + apply N.mod_lt. lia.
    + apply N.Div0.div_lt_upper_bound. lia.
Qed.

Lemma utf8_small (c : ascii) : Forall (λ b, (b < 256)%N) (utf8 c).
Proof.
  unfold utf8. pose proof (N_ascii_bounded c) as Hc.
  destruct (N.ltb_spec (N_of_ascii c) 128); repeat constructor; try lia.
  - assert (N_of_ascii c / 64 < 4)%N by (apply N.Div0.div_lt_upper_bound; lia). lia.
  - pose proof (N.mod_lt (N_of_ascii c) 64). lia.
Qed.

Lemma utf8_chars_utf8 (c : ascii) (rest : list N) :
  utf8_chars (utf8 c ++ rest) = String c (utf8_chars rest).
Proof.
  unfold utf8. pose proof (N_ascii_bounded c) as Hc.
  destruct (N.ltb_spec (N_of_ascii c) 128) as [Hlt|Hge]; simpl.
  - rewrite (proj2 (N.ltb_lt _ _) Hlt). by rewrite ascii_N_embedding.
  - assert ((192 + N_of_ascii c / 64 <? 128)%N = false) as ->.
    { apply N.ltb_ge. generalize (N_of_ascii c / 64)%N. lia. }
    f_equal. rewrite <- (ascii_N_embedding c) at 3. f_equal.
    pose proof (N.div_mod (N_of_ascii c) 64) as Hdiv.
    revert Hdiv. generalize (N_of_ascii c / 64)%N (N_of_ascii c mod 64)%N. lia.
Qed.

Lemma quoted_bytes_quote (c : ascii) (s : string) :
  quoted_bytes (quote (String c s)) = utf8 c ++ quoted_bytes (quote s).
Proof.
  simpl. pose proof (utf8_small c) as Hsmall.
  induction Hsmall as [|b bytes Hb _ IH]; [done|].
  simpl. by rewrite quoted_bytes_quote_byte, IH.
Qed.

Lemma quote_read_back (s : string) : utf8_chars (quoted_bytes (quote s)) = s.
Proof.
  induction s as [|c s IH]; [done|].
  by rewrite quoted_bytes_quote, utf8_chars_utf8, IH.
Qed.

(** X27. The path encoding loses nothing: two names with the same
    encoding are the same name, so two branches never share a request
    path; and a name made of letters, digits and [_.-~] only is its own
    encoding. *)
Theorem encode_branch_name_injective :
  (∀ a b, encode_branch_name a = encode_branch_name b → a = b)
  ∧ (∀ s, all_chars (λ c, always_safe (N_of_ascii c)) s = true →
          encode_branch_name s = s).
Proof.
  unfold encode_branch_name. split.
  - intros a b Hab. rewrite <- (quote_read_back a), <- (quote_read_back b).
    by rewrite Hab.
  - induction s as [|c s IH]; [done|]. simpl.
    rewrite andb_true_iff. intros [Hc Hs]. rewrite (IH Hs).
    unfold utf8.
    assert ((N_of_ascii c <? 128)%N = true) as ->.
    { apply N.ltb_lt. revert Hc. unfold always_safe.
      rewrite !orb_true_iff, !andb_true_iff, !N.leb_le, !N.eqb_eq. lia. }
    simpl. unfold quote_byte. by rewrite Hc, ascii_N_embedding.
Qed.

(** X27 at two names that differ in a slash, and at [main]. *)
Lemma encode_branch_name_injective_witness :
  encode_branch_name "main" = "main"
  ∧ (encode_branch_name "a/b" = encode_branch_name "a%2Fb" → "a/b" = "a%2Fb").
Proof.
  split.
  - apply (proj2 encode_branch_name_injective). reflexivity.
  - apply (proj1 encode_branch_name_injective).
Defined.

(* ===================================================================== *)
(** * A tool from end to end *)
(* ===================================================================== *)

(** X28. [get_project] with an accepted [project_id] and a configuration
    that resolves sends one GET to [projects/<id>] and returns, whatever
    [include_fields] is, the record of what went wrong on the way: the
    HTTP record of the response on a status outside 2xx, the connection
    record when the connection fails, the timeout record on a timeout and
    the unexpected-error record on any other transport fault.  On a 2xx
    answer whose body decodes it returns the body filtered by
    [include_fields], or by the project default set. *)
Theorem get_project_outcomes (int_of_str : string → option Z)
    (project_id id : pyarg) (include_fields : option string)
    (w : World) (tr : list Request) (config : Config) :
  validate_project_id int_of_str project_id = inr id →
  get_gitlab_config (environ w) = inr config →
  let request := build_request config "GET" ("projects/" +:+ py_str id) None None in
  let run := get_project int_of_str project_id include_fields w tr in
  (∀ r, remote w request = Responded r → ¬ (200 ≤ status_code r ≤ 299) →
        run = (inr (JDict (format_http_error r)), tr ++ [request]))
  ∧ (∀ m, remote w request = ConnectFailed m →
          run = (inr (JDict (format_connection_error m)), tr ++ [request]))
  ∧ (∀ m, remote w request = TimedOut m →
          run = (inr (JDict (format_timeout_error m)), tr ++ [request]))
  ∧ (∀ m, remote w request = Failed m →
          run = (inr (JDict (on_fault (OtherException m))), tr ++ [request]))
  ∧ (∀ r v, remote w request = Responded r → 200 ≤ status_code r ≤ 299 →
            json_body r = inr v →
            run = (inr (filter_fields v (include_arg include_fields) (Some "project")),
                   tr ++ [request])).
Proof.
  intros Hid Hconfig request run. unfold run, get_project.
  rewrite handle_lift_bind, Hid, handle_make_request_bind, Hconfig.
  fold request. split_and!.
  - intros r -> Hstatus. unfold outcome_result.
    destruct (Z.leb_spec 200 (status_code r)), (Z.leb_spec (status_code r) 299);
      simpl; try done. lia.
  - by intros m ->.
  - by intros m ->.
  - by intros m ->.
  - intros r v -> Hstatus Hbody. by rewrite (outcome_result_ok r v).
Qed.

(** X28 at a project that does not exist. *)
Lemma get_project_outcomes_witness :
  ∃ record,
    get_project int_of_decimal (AInt 999) None
      {| environ := {[ "GITLAB_TOKEN" := "glpat-demo" ]};
         remote := λ _, Responded not_found_response |} []
    = (inr (JDict record),
       [build_request demo_config "GET" "projects/999" None None])
    ∧ record !! "error_type" = Some (JStr "NotFoundError")
    ∧ record !! "details" = Some (JStr "404 Not Found").
Proof.
  exists (format_http_error not_found_response). split.
  - destruct (get_project_outcomes int_of_decimal (AInt 999) (AInt 999) None
                {| environ := {[ "GITLAB_TOKEN" := "glpat-demo" ]};
                   remote := λ _, Responded not_found_response |} []
                demo_config) as [Hhttp _].
    + reflexivity.
    + by vm_compute.
    + apply Hhttp; [reflexivity | simpl; lia].
  - split; reflexivity.
Defined.
